(** * VertexSelectionAlgorithm (LArContent/src/LArVertex): a shallow embedding

    The algorithm scores candidate 3D vertices from the angular distribution
    of the hits around them in the three TPC views, sorts the scored
    candidates, walks the best few of them through two acceptance
    predicates, and hands at most one vertex to the framework.

    C++ [float] is IEEE binary32; it is modelled by the Standard Library's
    [spec_float] at precision 24 and maximal exponent 128, so comparisons
    with NaN, infinities and signed zeros behave as they do in the code. *)

From Stdlib Require Import ZArith Lia Bool String List.
From Stdlib Require Import Permutation Sorted.
From Stdlib Require Import Floats.SpecFloat.
Import ListNotations.

Local Open Scope Z_scope.

(** ** binary32, the C++ [float] *)

Module Float32.

Definition float : Type := spec_float.

Definition prec : Z := 24.
Definition emax : Z := 128.

Definition add : float -> float -> float := SFadd prec emax.
Definition sub : float -> float -> float := SFsub prec emax.
Definition mul : float -> float -> float := SFmul prec emax.
Definition div : float -> float -> float := SFdiv prec emax.
Definition sqrt : float -> float := SFsqrt prec emax.

(** [a < b] and [a > b] of C++: both are false as soon as one side is NaN. *)
Definition ltb (a b : float) : bool := SFltb a b.
Definition gtb (a b : float) : bool := SFltb b a.

(** [0.f] *)
Definition zero : float := S754_zero false.

Definition is_nan (x : float) : bool :=
  match x with S754_nan => true | _ => false end.

(** Zero or finite: neither an infinity nor NaN. *)
Definition is_finite (x : float) : bool :=
  match x with S754_zero _ | S754_finite _ _ _ => true | _ => false end.

Definition is_zero (x : float) : bool :=
  match x with S754_zero _ => true | _ => false end.

End Float32.

Import Float32.

(** ** Objects of the Pandora framework that the algorithm reads *)

(** [pandora::CartesianVector]: three [float] coordinates, with the
    component-wise difference and the Euclidean norm of the SDK header. *)
Record CartesianVector : Type := mkCartesianVector
  { GetX : float; GetY : float; GetZ : float }.

Definition vector_minus (lhs rhs : CartesianVector) : CartesianVector :=
  {| GetX := sub (GetX lhs) (GetX rhs);
     GetY := sub (GetY lhs) (GetY rhs);
     GetZ := sub (GetZ lhs) (GetZ rhs) |}.

Definition GetMagnitudeSquared (v : CartesianVector) : float :=
  add (add (mul (GetX v) (GetX v)) (mul (GetY v) (GetY v)))
      (mul (GetZ v) (GetZ v)).

Definition GetMagnitude (v : CartesianVector) : float :=
  sqrt (GetMagnitudeSquared v).

(** [pandora::HitType]: the three TPC views the algorithm names; every other
    enumerator of the framework is folded into [HIT_CUSTOM]. *)
Inductive HitType : Type :=
  | TPC_VIEW_U | TPC_VIEW_V | TPC_VIEW_W | HIT_CUSTOM.

Definition HitType_eq_dec (a b : HitType) : {a = b} + {a <> b}.
Proof. decide equality. Defined.

Arguments HitType_eq_dec : simpl never.

(** [pandora::StatusCode] *)
Inductive StatusCode : Type :=
  | STATUS_CODE_SUCCESS
  | STATUS_CODE_FAILURE
  | STATUS_CODE_NOT_FOUND
  | STATUS_CODE_NOT_INITIALIZED
  | STATUS_CODE_ALREADY_INITIALIZED
  | STATUS_CODE_ALREADY_PRESENT
  | STATUS_CODE_OUT_OF_RANGE
  | STATUS_CODE_NOT_ALLOWED
  | STATUS_CODE_INVALID_PARAMETER
  | STATUS_CODE_UNCHANGED.

Definition StatusCode_eq_dec (a b : StatusCode) : {a = b} + {a <> b}.
Proof. decide equality. Defined.

Arguments StatusCode_eq_dec : simpl never.

Record CaloHit : Type := mkCaloHit { GetPositionVector : CartesianVector }.

Definition CaloHitList : Type := list CaloHit.

(** Pseudo-layer to hits, in increasing layer order. *)
Definition OrderedCaloHitList : Type := list (Z * CaloHitList).

(** Modelled from the spec: [LArClusterHelper::GetClusterHitType] is not
    among the sources; the spec calls its result the cluster's recorded
    view, so a cluster carries it as a field. *)
Record Cluster : Type := mkCluster
  { GetClusterHitType : HitType;
    GetOrderedCaloHitList : OrderedCaloHitList }.

Definition ClusterList : Type := list Cluster.

(** A vertex is identified by its address; the algorithm reads its position. *)
Record Vertex : Type := mkVertex
  { vertexAddress : Z; GetPosition : CartesianVector }.

(** Vertices of a list, in iteration order. *)
Definition VertexList : Type := list Vertex.

Record VertexScore : Type := mkVertexScore
  { GetVertex : Vertex; GetScore : float }.

Definition VertexScoreList : Type := list VertexScore.

(** Modelled from the spec: [VertexScore::operator<] is declared in the
    header, which is not among the sources; the spec has the list sorted
    descending by score, the score being the sole key, so [lhs < rhs] holds
    when the score of [lhs] is the greater one. *)
Definition VertexScore_lt (lhs rhs : VertexScore) : bool :=
  gtb (GetScore lhs) (GetScore rhs).

(** ** Control: status codes returned, exceptions thrown *)

Inductive Outcome (A : Type) : Type :=
  | Normal (a : A)
  | StatusCodeException (s : StatusCode)
  | StdOutOfRange.

Arguments Normal {A} a.
Arguments StatusCodeException {A} s.
Arguments StdOutOfRange {A}.

Definition bind {A B : Type} (m : Outcome A) (k : A -> Outcome B) : Outcome B :=
  match m with
  | Normal a => k a
  | StatusCodeException s => StatusCodeException s
  | StdOutOfRange => StdOutOfRange
  end.

Notation "x <- m ;; k" := (bind m (fun x => k))
  (at level 61, m at next level, right associativity).

(** [PandoraContentApi], as seen from one run: what the two reading calls
    answer and which status the two writing calls return. *)
Record PandoraContentApi : Type := mkApi
  { GetCurrentList : StatusCode * VertexList;
    GetList : string -> StatusCode * ClusterList;
    SaveList : string -> VertexList -> StatusCode;
    ReplaceCurrentList : string -> StatusCode }.

(** The writing calls a run makes, in order. *)
Inductive ApiWrite : Type :=
  | SaveListCall (listName : string) (vertexList : VertexList)
  | ReplaceCurrentListCall (listName : string).

(** [pandora::Histogram], an SDK class: the operations the algorithm uses. *)
Class HistogramOps (Histogram : Type) : Type :=
  { NewHistogram : Z -> float -> float -> Histogram;
    Fill : Histogram -> float -> float -> Histogram;
    GetNBinsX : Histogram -> Z;
    GetBinContent : Histogram -> Z -> float }.

(** The member variables, set by the constructor and by [ReadSettings]. *)
Record VertexSelectionAlgorithm : Type := mkAlgorithm
  { m_inputClusterListNameU : string;
    m_inputClusterListNameV : string;
    m_inputClusterListNameW : string;
    m_outputVertexListName : string;
    m_replaceCurrentVertexList : bool;
    m_histogramNPhiBins : Z;
    m_histogramPhiMin : float;
    m_histogramPhiMax : float;
    m_maxHitVertexDisplacement : float;
    m_maxOnHitDisplacement : float;
    m_hitDeweightingPower : float;
    m_maxTopScoreCandidates : Z;
    m_minCandidateDisplacement : float;
    m_minCandidateScoreFraction : float }.

(** The constructor's values; the four list names have no default. *)
Definition constructed (nameU nameV nameW nameOut : string)
  : VertexSelectionAlgorithm :=
  {| m_inputClusterListNameU := nameU;
     m_inputClusterListNameV := nameV;
     m_inputClusterListNameW := nameW;
     m_outputVertexListName := nameOut;
     m_replaceCurrentVertexList := true;
     m_histogramNPhiBins := 200;
     m_histogramPhiMin := S754_finite true 14494474 (-22);
     m_histogramPhiMax := S754_finite false 14494474 (-22);
     m_maxHitVertexDisplacement := S754_finite false 16777215 104;
     m_maxOnHitDisplacement := S754_finite false 8388608 (-23);
     m_hitDeweightingPower := S754_finite true 8388608 (-24);
     m_maxTopScoreCandidates := 5;
     m_minCandidateDisplacement := S754_finite false 8388608 (-22);
     m_minCandidateScoreFraction := S754_finite false 15099494 (-24) |}.

(** [unsigned int] is 32 bits wide. *)
Definition UINT_MODULUS : Z := 2 ^ 32.

(** ** The algorithm *)

Section Algorithm.

Context {Histogram : Type} {histogramOps : HistogramOps Histogram}.

(** [std::atan2] and [std::pow] of the C library. *)
Variables atan2 pow : float -> float -> float.

(** [LArGeometryHelper::ProjectPosition]: a 3D position seen in a view. *)
Variable ProjectPosition : CartesianVector -> HitType -> CartesianVector.

(** [std::sort] with [VertexScore::operator<]. *)
Variable std_sort : VertexScoreList -> VertexScoreList.

Variable api : PandoraContentApi.
Variable this : VertexSelectionAlgorithm.

(** *** FillHistogram (position, cluster, histogram) *)

(** The guard of line 137: the hit is too far away and is skipped. *)
Definition isBeyondMaxDisplacement (magnitude : float) : bool :=
  gtb magnitude (m_maxHitVertexDisplacement this).

(** The test of line 140. *)
Definition isWithinOnHitDisplacement (magnitude : float) : bool :=
  ltb magnitude (m_maxOnHitDisplacement this).

(** Body of the loop over the hits of a cluster; the state is the local
    [isVertexOnHit] and the histogram passed by reference. *)
Definition hitBody (vertexPosition2D : CartesianVector)
    (state : bool * Histogram) (pCaloHit : CaloHit) : bool * Histogram :=
  let displacement :=
    vector_minus (GetPositionVector pCaloHit) vertexPosition2D in
  let magnitude := GetMagnitude displacement in
  if isBeyondMaxDisplacement magnitude then state
  else
    let isVertexOnHit :=
      if isWithinOnHitDisplacement magnitude then true else fst state in
    let phi := atan2 (GetZ displacement) (GetX displacement) in
    (isVertexOnHit,
     Fill (snd state) phi (pow magnitude (m_hitDeweightingPower this))).

Definition layerBody (vertexPosition2D : CartesianVector)
    (state : bool * Histogram) (layer : Z * CaloHitList) : bool * Histogram :=
  fold_left (hitBody vertexPosition2D) (snd layer) state.

Definition FillHistogramCluster (vertexPosition2D : CartesianVector)
    (pCluster : Cluster) (histogram : Histogram) : bool * Histogram :=
  fold_left (layerBody vertexPosition2D)
            (GetOrderedCaloHitList pCluster) (false, histogram).

(** *** FillHistogram (vertex, hit type, cluster list name, histogram) *)

Fixpoint clusterLoop (pVertex : Vertex) (hitType : HitType)
    (clusters : ClusterList) (state : bool * Histogram)
    : Outcome (bool * Histogram) :=
  match clusters with
  | [] => Normal state
  | pCluster :: rest =>
      let clusterHitType := GetClusterHitType pCluster in
      if HitType_eq_dec hitType clusterHitType then
        let vertexPosition2D :=
          ProjectPosition (GetPosition pVertex) hitType in
        let filled :=
          FillHistogramCluster vertexPosition2D pCluster (snd state) in
        clusterLoop pVertex hitType rest
                    (orb (fst state) (fst filled), snd filled)
      else StatusCodeException STATUS_CODE_INVALID_PARAMETER
  end.

Definition FillHistogram (pVertex : Vertex) (hitType : HitType)
    (clusterListName : string) (histogram : Histogram)
    : Outcome (bool * Histogram) :=
  let (statusCode, pClusterList) := GetList api clusterListName in
  if StatusCode_eq_dec STATUS_CODE_SUCCESS statusCode then
    clusterLoop pVertex hitType pClusterList (false, histogram)
  else StatusCodeException statusCode.

(** *** GetFigureOfMerit *)

(** The loop [for (int xBin = 0; xBin < GetNBinsX(); ++xBin)], with the
    number of iterations still to run. *)
Fixpoint binLoop (histogram : Histogram) (remaining : nat) (xBin : Z)
    (sumSquaredEntries : float) : float :=
  match remaining with
  | O => sumSquaredEntries
  | S remaining' =>
      let binContent := GetBinContent histogram xBin in
      binLoop histogram remaining' (xBin + 1)
              (add sumSquaredEntries (mul binContent binContent))
  end.

Definition GetFigureOfMeritView (histogram : Histogram) : float :=
  binLoop histogram (Z.to_nat (GetNBinsX histogram)) 0 zero.

Definition GetFigureOfMerit (histogramU histogramV histogramW : Histogram)
    : float :=
  let figureOfMerit := zero in
  let figureOfMerit := add figureOfMerit (GetFigureOfMeritView histogramU) in
  let figureOfMerit := add figureOfMerit (GetFigureOfMeritView histogramV) in
  let figureOfMerit := add figureOfMerit (GetFigureOfMeritView histogramW) in
  figureOfMerit.

(** *** AcceptVertexLocation, AcceptVertexScore *)

Definition displacement3D (pVertex accepted : Vertex) : float :=
  GetMagnitude (vector_minus (GetPosition pVertex) (GetPosition accepted)).

Fixpoint AcceptVertexLocation (pVertex : Vertex)
    (vertexScoreList : VertexScoreList) : bool :=
  match vertexScoreList with
  | [] => true
  | entry :: rest =>
      if ltb (displacement3D pVertex (GetVertex entry))
             (m_minCandidateDisplacement this)
      then false
      else AcceptVertexLocation pVertex rest
  end.

Fixpoint AcceptVertexScore (score : float)
    (vertexScoreList : VertexScoreList) : bool :=
  match vertexScoreList with
  | [] => true
  | entry :: rest =>
      if ltb score (mul (m_minCandidateScoreFraction this) (GetScore entry))
      then false
      else AcceptVertexScore score rest
  end.

(** *** Run *)

Definition newHistogram : Histogram :=
  NewHistogram (m_histogramNPhiBins this) (m_histogramPhiMin this)
               (m_histogramPhiMax this).

(** Body of the loop over the input vertices: the score of the vertex, or
    nothing when the vertex is not on a hit in each view. *)
Definition scoreVertex (pVertex : Vertex) : Outcome (option VertexScore) :=
  u <- FillHistogram pVertex TPC_VIEW_U (m_inputClusterListNameU this)
                     newHistogram ;;
  v <- FillHistogram pVertex TPC_VIEW_V (m_inputClusterListNameV this)
                     newHistogram ;;
  w <- FillHistogram pVertex TPC_VIEW_W (m_inputClusterListNameW this)
                     newHistogram ;;
  if negb (fst u) || negb (fst v) || negb (fst w) then Normal None
  else
    let figureOfMerit := GetFigureOfMerit (snd u) (snd v) (snd w) in
    Normal (Some (mkVertexScore pVertex figureOfMerit)).

Fixpoint scoreLoop (vertices : VertexList) (vertexScoreList : VertexScoreList)
    : Outcome VertexScoreList :=
  match vertices with
  | [] => Normal vertexScoreList
  | pVertex :: rest =>
      scored <- scoreVertex pVertex ;;
      scoreLoop rest
        match scored with
        | None => vertexScoreList
        | Some vertexScore => vertexScoreList ++ [vertexScore]
        end
  end.

(** State of the selection walk: the counter, the accepted list, and
    whether the loop was left through [break]. *)
Record WalkState : Type := mkWalkState
  { nVerticesConsidered : Z;
    selectedVertexScoreList : VertexScoreList;
    leftLoop : bool }.

Definition walkStart : WalkState := mkWalkState 0 [] false.

Definition isEmpty {A : Type} (l : list A) : bool :=
  match l with [] => true | _ => false end.

Definition walkBody (state : WalkState) (entry : VertexScore) : WalkState :=
  if leftLoop state then state
  else
    let n := (nVerticesConsidered state + 1) mod UINT_MODULUS in
    let selected := selectedVertexScoreList state in
    if n >? m_maxTopScoreCandidates this then mkWalkState n selected true
    else if negb (isEmpty selected)
            && negb (AcceptVertexLocation (GetVertex entry) selected)
    then mkWalkState n selected false
    else if negb (isEmpty selected)
            && negb (AcceptVertexScore (GetScore entry) selected)
    then mkWalkState n selected false
    else mkWalkState n (selected ++ [entry]) false.

Definition walk (vertexScoreList : VertexScoreList) : WalkState :=
  fold_left walkBody vertexScoreList walkStart.

Definition selectVertices (vertexScoreList : VertexScoreList)
    : VertexScoreList :=
  selectedVertexScoreList (walk vertexScoreList).

(** Lines 82 to 94, from the sorted list and the accepted list. *)
Definition saveSelection (vertexScoreList selected : VertexScoreList)
    : Outcome StatusCode * list ApiWrite :=
  if negb (isEmpty selected) then
    match vertexScoreList with
    | [] => (StdOutOfRange, [])
    | best :: _ =>
        let pBestVertex := GetVertex best in
        let selectedVertexList := [pBestVertex] in
        let name := m_outputVertexListName this in
        let saved := SaveList api name selectedVertexList in
        if StatusCode_eq_dec STATUS_CODE_SUCCESS saved then
          if m_replaceCurrentVertexList this then
            let replaced := ReplaceCurrentList api name in
            if StatusCode_eq_dec STATUS_CODE_SUCCESS replaced then
              (Normal STATUS_CODE_SUCCESS,
               [SaveListCall name selectedVertexList;
                ReplaceCurrentListCall name])
            else
              (Normal replaced,
               [SaveListCall name selectedVertexList;
                ReplaceCurrentListCall name])
          else
            (Normal STATUS_CODE_SUCCESS,
             [SaveListCall name selectedVertexList])
        else (Normal saved, [SaveListCall name selectedVertexList])
    end
  else (Normal STATUS_CODE_SUCCESS, []).

(** What [Run] returns or throws, and the writing calls it made. *)
Definition Run : Outcome StatusCode * list ApiWrite :=
  let (statusCode, pInputVertexList) := GetCurrentList api in
  if StatusCode_eq_dec STATUS_CODE_SUCCESS statusCode then
    match scoreLoop pInputVertexList [] with
    | Normal scored =>
        let vertexScoreList := std_sort scored in
        saveSelection vertexScoreList (selectVertices vertexScoreList)
    | StatusCodeException s => (StatusCodeException s, [])
    | StdOutOfRange => (StdOutOfRange, [])
    end
  else (Normal statusCode, []).

(** The vertex lists a run handed to [SaveList]. *)
Fixpoint savedLists (writes : list ApiWrite) : list VertexList :=
  match writes with
  | [] => []
  | SaveListCall _ l :: rest => l :: savedLists rest
  | ReplaceCurrentListCall _ :: rest => savedLists rest
  end.

(** The output vertex list of a run: empty when nothing was saved. *)
Definition outputVertexList : VertexList :=
  List.concat (savedLists (snd Run)).

End Algorithm.

(** ** The claims' words, as predicates on the embedding *)

Section Statements.

Variable api : PandoraContentApi.
Variable this : VertexSelectionAlgorithm.

(** The displacement magnitude of a hit, as [hitBody] computes it. *)
Definition hitMagnitude (vertexPosition2D : CartesianVector)
    (pCaloHit : CaloHit) : float :=
  GetMagnitude (vector_minus (GetPositionVector pCaloHit) vertexPosition2D).

(** Every hit that reaches [histogram.Fill] has a magnitude other than
    zero. *)
Definition filled_hits_have_nonzero_magnitude : Prop :=
  forall (vertexPosition2D : CartesianVector) (pCaloHit : CaloHit),
    isBeyondMaxDisplacement this (hitMagnitude vertexPosition2D pCaloHit)
      = false ->
    is_zero (hitMagnitude vertexPosition2D pCaloHit) = false.

(** Some hit of some cluster lies strictly within the on-hit threshold. *)
Definition someHitWithinOnHitThreshold (vertexPosition2D : CartesianVector)
    (clusters : ClusterList) : Prop :=
  exists pCluster layer pCaloHit,
    In pCluster clusters
    /\ In layer (GetOrderedCaloHitList pCluster)
    /\ In pCaloHit (snd layer)
    /\ ltb (hitMagnitude vertexPosition2D pCaloHit)
           (m_maxOnHitDisplacement this) = true.

(** Some hit of some cluster passes the guard of line 137 and lies strictly
    within the on-hit threshold. *)
Definition someHitSetsOnHit (vertexPosition2D : CartesianVector)
    (clusters : ClusterList) : Prop :=
  exists pCluster layer pCaloHit,
    In pCluster clusters
    /\ In layer (GetOrderedCaloHitList pCluster)
    /\ In pCaloHit (snd layer)
    /\ isBeyondMaxDisplacement this
         (hitMagnitude vertexPosition2D pCaloHit) = false
    /\ isWithinOnHitDisplacement this
         (hitMagnitude vertexPosition2D pCaloHit) = true.

(** The named cluster lists with the view each is scanned for. *)
Definition scannedViews : list (HitType * string) :=
  [ (TPC_VIEW_U, m_inputClusterListNameU this);
    (TPC_VIEW_V, m_inputClusterListNameV this);
    (TPC_VIEW_W, m_inputClusterListNameW this) ].

Definition inputVertexListAbsent : Prop :=
  fst (GetCurrentList api) <> STATUS_CODE_SUCCESS.

Definition someClusterListUnfetchable : Prop :=
  exists view name,
    In (view, name) scannedViews
    /\ fst (GetList api name) <> STATUS_CODE_SUCCESS.

Definition someClusterOfAnotherView : Prop :=
  exists view name pCluster,
    In (view, name) scannedViews
    /\ fst (GetList api name) = STATUS_CODE_SUCCESS
    /\ In pCluster (snd (GetList api name))
    /\ GetClusterHitType pCluster <> view.

(** What scanning one view runs into: the status of a failed fetch, or
    invalid-parameter for a cluster of another view. *)
Definition viewFailure (view : HitType) (name : string) : option StatusCode :=
  let (statusCode, pClusterList) := GetList api name in
  if StatusCode_eq_dec STATUS_CODE_SUCCESS statusCode then
    if forallb (fun pCluster =>
                  if HitType_eq_dec view (GetClusterHitType pCluster)
                  then true else false) pClusterList
    then None
    else Some STATUS_CODE_INVALID_PARAMETER
  else Some statusCode.

(** The first failure met when the views are scanned in the order U, V, W. *)
Definition firstViewFailure : option StatusCode :=
  match viewFailure TPC_VIEW_U (m_inputClusterListNameU this) with
  | Some s => Some s
  | None =>
      match viewFailure TPC_VIEW_V (m_inputClusterListNameV this) with
      | Some s => Some s
      | None => viewFailure TPC_VIEW_W (m_inputClusterListNameW this)
      end
  end.

Definition isFailure (result : Outcome StatusCode) : Prop :=
  result <> Normal STATUS_CODE_SUCCESS.

End Statements.

(** The best entry of a list under [VertexScore::operator<]: the first one
    that no later entry strictly precedes. *)
Fixpoint bestOfAccepted (selected : VertexScoreList) : option VertexScore :=
  match selected with
  | [] => None
  | entry :: rest =>
      match bestOfAccepted rest with
      | None => Some entry
      | Some later =>
          if VertexScore_lt later entry then Some later else Some entry
      end
  end.

(** The sum of a list of floats, accumulated from [0.f] in list order. *)
Definition floatSum (terms : list float) : float := fold_left add terms zero.

Definition square (x : float) : float := mul x x.

(** The contents of bins [0 .. GetNBinsX - 1], in order. *)
Definition binContents {Histogram : Type} {ops : HistogramOps Histogram}
    (histogram : Histogram) : list float :=
  map (fun xBin => GetBinContent histogram (Z.of_nat xBin))
      (seq 0 (Z.to_nat (GetNBinsX histogram))).

(** What the C++ standard asks of [std::sort] when no score is NaN, so that
    [operator<] is a strict weak ordering: the result is a permutation in
    which no entry precedes (under [operator<]) one standing before it. *)
Definition scoresAreNumbers (l : VertexScoreList) : Prop :=
  Forall (fun entry => is_nan (GetScore entry) = false) l.

Definition notBefore (earlier later : VertexScore) : Prop :=
  VertexScore_lt later earlier = false.

Definition sortsByOperatorLt (sort : VertexScoreList -> VertexScoreList) : Prop :=
  forall l, scoresAreNumbers l ->
            Permutation l (sort l) /\ StronglySorted notBefore (sort l).

(** The later entry has no greater score than the earlier one. *)
Definition scoreLe (earlier later : VertexScore) : Prop :=
  SFleb (GetScore later) (GetScore earlier) = true.

(** ** Views of the scan used to state its result *)

Section ScanViews.

Variable this : VertexSelectionAlgorithm.

(** The hit passes the guard of line 137 and the test of line 140. *)
Definition hitSetsOnHit (vertexPosition2D : CartesianVector)
    (pCaloHit : CaloHit) : bool :=
  negb (isBeyondMaxDisplacement this (hitMagnitude vertexPosition2D pCaloHit))
  && isWithinOnHitDisplacement this (hitMagnitude vertexPosition2D pCaloHit).

Definition layerSetsOnHit (vertexPosition2D : CartesianVector)
    (layer : Z * CaloHitList) : bool :=
  existsb (hitSetsOnHit vertexPosition2D) (snd layer).

Definition clusterSetsOnHit (vertexPosition2D : CartesianVector)
    (pCluster : Cluster) : bool :=
  existsb (layerSetsOnHit vertexPosition2D) (GetOrderedCaloHitList pCluster).

Definition hasFiniteCoordinates (p : CartesianVector) : bool :=
  is_finite (GetX p) && is_finite (GetY p) && is_finite (GetZ p).

End ScanViews.

(** The claim on the per-view scan, read without the guard of line 137:
    whenever the scan returns and some hit lies strictly within the on-hit
    threshold, the scan returns [true]. *)
Definition onHit_whenever_a_hit_is_within_threshold
    {Histogram : Type} {ops : HistogramOps Histogram}
    (atan2 pow : float -> float -> float)
    (ProjectPosition : CartesianVector -> HitType -> CartesianVector)
    (api : PandoraContentApi) (this : VertexSelectionAlgorithm) : Prop :=
  forall pVertex hitType clusterListName histogram isVertexOnHit histogram',
    FillHistogram atan2 pow ProjectPosition api this
                  pVertex hitType clusterListName histogram
      = Normal (isVertexOnHit, histogram') ->
    someHitWithinOnHitThreshold this
      (ProjectPosition (GetPosition pVertex) hitType)
      (snd (GetList api clusterListName)) ->
    isVertexOnHit = true.

(** The claim on failing runs: each of the three conditions makes the run
    fail, with invalid-parameter for a cluster of another view, and a run
    under any of them writes nothing. *)
Definition failure_conditions_abort_the_run
    {Histogram : Type} {ops : HistogramOps Histogram}
    (atan2 pow : float -> float -> float)
    (ProjectPosition : CartesianVector -> HitType -> CartesianVector)
    (std_sort : VertexScoreList -> VertexScoreList)
    (api : PandoraContentApi) (this : VertexSelectionAlgorithm) : Prop :=
  let result := Run atan2 pow ProjectPosition std_sort api this in
  (inputVertexListAbsent api \/ someClusterListUnfetchable api this
   \/ someClusterOfAnotherView api this ->
   isFailure (fst result) /\ snd result = [])
  /\ (someClusterOfAnotherView api this ->
      fst result = StatusCodeException STATUS_CODE_INVALID_PARAMETER).

(** The vertex registers as on a hit in each of the three views. *)
Definition onHitInEveryView
    {Histogram : Type} {ops : HistogramOps Histogram}
    (atan2 pow : float -> float -> float)
    (ProjectPosition : CartesianVector -> HitType -> CartesianVector)
    (api : PandoraContentApi) (this : VertexSelectionAlgorithm)
    (pVertex : Vertex) : Prop :=
  forall view name,
    In (view, name) (scannedViews this) ->
    exists histogram,
      FillHistogram atan2 pow ProjectPosition api this
                    pVertex view name (newHistogram this)
      = Normal (true, histogram).

(** The other rule a reader may expect: hand over the best entry of the
    accepted list. *)
Definition bestOfAcceptedRule (selected : VertexScoreList) : VertexList :=
  match bestOfAccepted selected with
  | Some entry => [GetVertex entry]
  | None => []
  end.

(** The candidate is closer than [m_minCandidateDisplacement] to the
    accepted vertex. *)
Definition isTooClose (this : VertexSelectionAlgorithm)
    (pVertex accepted : Vertex) : bool :=
  ltb (displacement3D pVertex accepted) (m_minCandidateDisplacement this).

(** The score is below [m_minCandidateScoreFraction] times the accepted
    score. *)
Definition isDominated (this : VertexSelectionAlgorithm)
    (score acceptedScore : float) : bool :=
  ltb score (mul (m_minCandidateScoreFraction this) acceptedScore).

(** ** A concrete environment, for running the embedding *)

Module Scenario.

(** A stable insertion sort under [VertexScore::operator<], one of the
    orders [std::sort] may produce. *)
Fixpoint insert (x : VertexScore) (l : VertexScoreList) : VertexScoreList :=
  match l with
  | [] => [x]
  | y :: rest =>
      if VertexScore_lt y x then y :: insert x rest else x :: y :: rest
  end.

Definition insertionSort (l : VertexScoreList) : VertexScoreList :=
  fold_right insert [] l.

(** Modelled from the spec: the SDK's histogram class is not among the
    sources; the spec describes [nBins] equal-width bins over
    [[phiMin, phiMax)], [Fill] adding the weight to the bin of the angle
    and discarding an angle out of range. *)
Record BinnedHistogram : Type := mkBinned
  { nBins : Z; phiMin : float; phiMax : float; bins : list float }.

Definition floatOfZ (n : Z) : float := binary_normalize prec emax n 0 false.

Definition floorZ (x : float) : option Z :=
  match x with
  | S754_zero _ => Some 0
  | S754_finite s m e =>
      let v := if s then Zneg m else Zpos m in
      Some (if 0 <=? e then v * 2 ^ e else Z.shiftr v (- e))
  | _ => None
  end.

Definition binOf (h : BinnedHistogram) (angle : float) : option Z :=
  if ltb angle (phiMin h) then None
  else if ltb angle (phiMax h) then
    let binWidth := div (sub (phiMax h) (phiMin h)) (floatOfZ (nBins h)) in
    floorZ (div (sub angle (phiMin h)) binWidth)
  else None.

Fixpoint addAt (i : nat) (weight : float) (l : list float) : list float :=
  match l, i with
  | [], _ => []
  | x :: rest, O => add x weight :: rest
  | x :: rest, S i' => x :: addAt i' weight rest
  end.

Definition binnedFill (h : BinnedHistogram) (angle weight : float)
    : BinnedHistogram :=
  match binOf h angle with
  | Some i =>
      if (0 <=? i) && (i <? nBins h)
      then mkBinned (nBins h) (phiMin h) (phiMax h)
                    (addAt (Z.to_nat i) weight (bins h))
      else h
  | None => h
  end.

#[export] Instance binnedOps : HistogramOps BinnedHistogram :=
  {| NewHistogram := fun n lo hi => mkBinned n lo hi (repeat zero (Z.to_nat n));
     Fill := binnedFill;
     GetNBinsX := nBins;
     GetBinContent := fun h xBin =>
       if xBin <? 0 then zero else nth (Z.to_nat xBin) (bins h) zero |}.

(** [1.f], [pi] and [pi/2] rounded to binary32. *)
Definition one : float := S754_finite false 8388608 (-23).
Definition pi : float := S754_finite false 13176795 (-22).
Definition halfPi : float := S754_finite false 13176795 (-23).

Definition signBit (x : float) : bool :=
  match x with
  | S754_zero s | S754_infinity s | S754_finite s _ _ => s
  | S754_nan => false
  end.

Definition withSign (s : bool) (x : float) : float :=
  if s then SFopp x else x.

(** [std::atan2] where one argument is zero, the only places the runs
    below evaluate it; NaN elsewhere. *)
Definition axisAtan2 (z x : float) : float :=
  if is_zero z then
    if is_nan x then S754_nan
    else withSign (signBit z) (if signBit x then pi else zero)
  else if is_zero x then
    if is_nan z then S754_nan else withSign (signBit z) halfPi
  else S754_nan.

(** [std::pow] at the constructor's exponent -0.5, as [1 / sqrt x]. *)
Definition inverseSqrtPow (x exponent : float) : float := div one (sqrt x).

(** A geometry whose three views all look along the y axis. *)
Definition projectAlongY (position3D : CartesianVector) (view : HitType)
    : CartesianVector :=
  mkCartesianVector (GetX position3D) zero (GetZ position3D).

Definition algorithm : VertexSelectionAlgorithm :=
  constructed "ClustersU" "ClustersV" "ClustersW" "SelectedVertices".

(** Small numbers in binary32. *)
Definition quarter : float := S754_finite false 8388608 (-25).
Definition half : float := S754_finite false 8388608 (-24).
Definition threeQuarters : float := S754_finite false 12582912 (-24).
Definition ten : float := S754_finite false 10485760 (-20).
Definition tenAndHalf : float := S754_finite false 11010048 (-20).
Definition fifty : float := S754_finite false 13107200 (-18).

Definition onXAxis (x : float) : CartesianVector :=
  mkCartesianVector x zero zero.

Definition vertexA : Vertex := mkVertex 4096 (onXAxis zero).
Definition vertexB : Vertex := mkVertex 4160 (onXAxis ten).
Definition vertexC : Vertex := mkVertex 4224 (onXAxis fifty).

Definition hitsOf (view : HitType) : ClusterList :=
  [ mkCluster view [ (1, [mkCaloHit (onXAxis quarter)]);
                     (2, [mkCaloHit (onXAxis half)]) ];
    mkCluster view [ (7, [mkCaloHit (onXAxis tenAndHalf)]) ] ].

Definition clusterLists (name : string) : StatusCode * ClusterList :=
  if String.eqb name "ClustersU" then (STATUS_CODE_SUCCESS, hitsOf TPC_VIEW_U)
  else if String.eqb name "ClustersV" then (STATUS_CODE_SUCCESS, hitsOf TPC_VIEW_V)
  else if String.eqb name "ClustersW" then (STATUS_CODE_SUCCESS, hitsOf TPC_VIEW_W)
  else (STATUS_CODE_NOT_INITIALIZED, []).

Definition framework (vertices : VertexList) : PandoraContentApi :=
  {| GetCurrentList := (STATUS_CODE_SUCCESS, vertices);
     GetList := clusterLists;
     SaveList := fun _ _ => STATUS_CODE_SUCCESS;
     ReplaceCurrentList := fun _ => STATUS_CODE_SUCCESS |}.

(** A framework in which no cluster list can be fetched. *)
Definition frameworkWithoutClusters (vertices : VertexList)
    : PandoraContentApi :=
  {| GetCurrentList := (STATUS_CODE_SUCCESS, vertices);
     GetList := fun _ => (STATUS_CODE_NOT_INITIALIZED, []);
     SaveList := fun _ _ => STATUS_CODE_SUCCESS;
     ReplaceCurrentList := fun _ => STATUS_CODE_SUCCESS |}.

(** The same algorithm with another [MaxHitVertexDisplacement]. *)
Definition withMaxHitVertexDisplacement (d : float)
    (a : VertexSelectionAlgorithm) : VertexSelectionAlgorithm :=
  {| m_inputClusterListNameU := m_inputClusterListNameU a;
     m_inputClusterListNameV := m_inputClusterListNameV a;
     m_inputClusterListNameW := m_inputClusterListNameW a;
     m_outputVertexListName := m_outputVertexListName a;
     m_replaceCurrentVertexList := m_replaceCurrentVertexList a;
     m_histogramNPhiBins := m_histogramNPhiBins a;
     m_histogramPhiMin := m_histogramPhiMin a;
     m_histogramPhiMax := m_histogramPhiMax a;
     m_maxHitVertexDisplacement := d;
     m_maxOnHitDisplacement := m_maxOnHitDisplacement a;
     m_hitDeweightingPower := m_hitDeweightingPower a;
     m_maxTopScoreCandidates := m_maxTopScoreCandidates a;
     m_minCandidateDisplacement := m_minCandidateDisplacement a;
     m_minCandidateScoreFraction := m_minCandidateScoreFraction a |}.

(** Hits further than 0.5 are skipped, the on-hit threshold stays at 1. *)
Definition shortReach : VertexSelectionAlgorithm :=
  withMaxHitVertexDisplacement half algorithm.

(** One hit per view, at distance 0.75 from [vertexA]. *)
Definition oneHitAtThreeQuarters (view : HitType) : ClusterList :=
  [ mkCluster view [ (1, [mkCaloHit (onXAxis threeQuarters)]) ] ].

Definition frameworkWithOneHit (vertices : VertexList) : PandoraContentApi :=
  {| GetCurrentList := (STATUS_CODE_SUCCESS, vertices);
     GetList := fun name =>
       if String.eqb name "ClustersU"
       then (STATUS_CODE_SUCCESS, oneHitAtThreeQuarters TPC_VIEW_U)
       else if String.eqb name "ClustersV"
       then (STATUS_CODE_SUCCESS, oneHitAtThreeQuarters TPC_VIEW_V)
       else if String.eqb name "ClustersW"
       then (STATUS_CODE_SUCCESS, oneHitAtThreeQuarters TPC_VIEW_W)
       else (STATUS_CODE_NOT_INITIALIZED, []);
     SaveList := fun _ _ => STATUS_CODE_SUCCESS;
     ReplaceCurrentList := fun _ => STATUS_CODE_SUCCESS |}.

(** The same algorithm with another [MaxTopScoreCandidates]. *)
Definition withMaxTopScoreCandidates (n : Z)
    (a : VertexSelectionAlgorithm) : VertexSelectionAlgorithm :=
  {| m_inputClusterListNameU := m_inputClusterListNameU a;
     m_inputClusterListNameV := m_inputClusterListNameV a;
     m_inputClusterListNameW := m_inputClusterListNameW a;
     m_outputVertexListName := m_outputVertexListName a;
     m_replaceCurrentVertexList := m_replaceCurrentVertexList a;
     m_histogramNPhiBins := m_histogramNPhiBins a;
     m_histogramPhiMin := m_histogramPhiMin a;
     m_histogramPhiMax := m_histogramPhiMax a;
     m_maxHitVertexDisplacement := m_maxHitVertexDisplacement a;
     m_maxOnHitDisplacement := m_maxOnHitDisplacement a;
     m_hitDeweightingPower := m_hitDeweightingPower a;
     m_maxTopScoreCandidates := n;
     m_minCandidateDisplacement := m_minCandidateDisplacement a;
     m_minCandidateScoreFraction := m_minCandidateScoreFraction a |}.

(** The input list of the runs below, and the scores it gets: [vertexC]
    is on no hit and is not scored. *)
Definition candidates : VertexList := [vertexB; vertexA; vertexC].

Definition scoreOfA : float := S754_finite false 10899469 (-18).
Definition scoreOfB : float := S754_finite false 15197874 (-21).

Definition scoredCandidates : VertexScoreList :=
  [mkVertexScore vertexB scoreOfB; mkVertexScore vertexA scoreOfA].

(** 2 and the binary32 number just below it. *)
Definition two : float := S754_finite false 8388608 (-22).
Definition justBelowTwo : float := S754_finite false 16777215 (-23).

(** The least score that [vertexA], once accepted, lets through, and the
    binary32 number just below it. *)
Definition thresholdOfA : float :=
  mul (m_minCandidateScoreFraction algorithm) scoreOfA.
Definition justBelowThresholdOfA : float := SFpred prec emax thresholdOfA.

Definition run (api : PandoraContentApi) (this : VertexSelectionAlgorithm)
    : Outcome StatusCode * list ApiWrite :=
  Run axisAtan2 inverseSqrtPow projectAlongY insertionSort api this.

End Scenario.
(** ** ReadSettings *)

(** [XmlHelper::ReadValue (xmlHandle, name, t)], an SDK template: for each
    type of member read, the status returned and the value the member [t]
    holds afterwards, given the element name and the value it held before. *)
Record TiXmlHandle : Type := mkXmlHandle
  { ReadString : string -> string -> StatusCode * string;
    ReadBool : string -> bool -> StatusCode * bool;
    ReadUnsigned : string -> Z -> StatusCode * Z;
    ReadFloat : string -> float -> StatusCode * float }.

(** [PANDORA_RETURN_RESULT_IF (STATUS_CODE_SUCCESS, !=, command)] followed by
    the rest of the function: the command has run on the object either
    way. *)
Definition returnResultIf
    (command rest : VertexSelectionAlgorithm -> StatusCode * VertexSelectionAlgorithm)
    (this : VertexSelectionAlgorithm) : StatusCode * VertexSelectionAlgorithm :=
  let (statusCode, this') := command this in
  if StatusCode_eq_dec STATUS_CODE_SUCCESS statusCode then rest this'
  else (statusCode, this').

(** [PANDORA_RETURN_RESULT_IF_AND_IF (STATUS_CODE_SUCCESS,
    STATUS_CODE_NOT_FOUND, !=, command)] followed by the rest. *)
Definition returnResultIfAndIf
    (command rest : VertexSelectionAlgorithm -> StatusCode * VertexSelectionAlgorithm)
    (this : VertexSelectionAlgorithm) : StatusCode * VertexSelectionAlgorithm :=
  let (statusCode, this') := command this in
  if StatusCode_eq_dec STATUS_CODE_SUCCESS statusCode then rest this'
  else if StatusCode_eq_dec STATUS_CODE_NOT_FOUND statusCode then rest this'
  else (statusCode, this').

Section ReadSettings.

Variable xmlHandle : TiXmlHandle.

(** [ReadValue (xmlHandle, "InputClusterListNameU", m_inputClusterListNameU)] *)
Definition read_InputClusterListNameU (this : VertexSelectionAlgorithm)
    : StatusCode * VertexSelectionAlgorithm :=
  let (statusCode, value) :=
    ReadString xmlHandle "InputClusterListNameU" (m_inputClusterListNameU this) in
  (statusCode,
   mkAlgorithm
     value
     (m_inputClusterListNameV this)
     (m_inputClusterListNameW this)
     (m_outputVertexListName this)
     (m_replaceCurrentVertexList this)
     (m_histogramNPhiBins this)
     (m_histogramPhiMin this)
     (m_histogramPhiMax this)
     (m_maxHitVertexDisplacement this)
     (m_maxOnHitDisplacement this)
     (m_hitDeweightingPower this)
     (m_maxTopScoreCandidates this)
     (m_minCandidateDisplacement this)
     (m_minCandidateScoreFraction this)).

(** [ReadValue (xmlHandle, "InputClusterListNameV", m_inputClusterListNameV)] *)
Definition read_InputClusterListNameV (this : VertexSelectionAlgorithm)
    : StatusCode * VertexSelectionAlgorithm :=
  let (statusCode, value) :=
    ReadString xmlHandle "InputClusterListNameV" (m_inputClusterListNameV this) in
  (statusCode,
   mkAlgorithm
     (m_inputClusterListNameU this)
     value
     (m_inputClusterListNameW this)
     (m_outputVertexListName this)
     (m_replaceCurrentVertexList this)
     (m_histogramNPhiBins this)
     (m_histogramPhiMin this)
     (m_histogramPhiMax this)
     (m_maxHitVertexDisplacement this)
     (m_maxOnHitDisplacement this)
     (m_hitDeweightingPower this)
     (m_maxTopScoreCandidates this)
     (m_minCandidateDisplacement this)
     (m_minCandidateScoreFraction this)).

(** [ReadValue (xmlHandle, "InputClusterListNameW", m_inputClusterListNameW)] *)
Definition read_InputClusterListNameW (this : VertexSelectionAlgorithm)
    : StatusCode * VertexSelectionAlgorithm :=
  let (statusCode, value) :=
    ReadString xmlHandle "InputClusterListNameW" (m_inputClusterListNameW this) in
  (statusCode,
   mkAlgorithm
     (m_inputClusterListNameU this)
     (m_inputClusterListNameV this)
     value
     (m_outputVertexListName this)
     (m_replaceCurrentVertexList this)
     (m_histogramNPhiBins this)
     (m_histogramPhiMin this)
     (m_histogramPhiMax this)
     (m_maxHitVertexDisplacement this)
     (m_maxOnHitDisplacement this)
     (m_hitDeweightingPower this)
     (m_maxTopScoreCandidates this)
     (m_minCandidateDisplacement this)
     (m_minCandidateScoreFraction this)).

(** [ReadValue (xmlHandle, "OutputVertexListName", m_outputVertexListName)] *)
Definition read_OutputVertexListName (this : VertexSelectionAlgorithm)
    : StatusCode * VertexSelectionAlgorithm :=
  let (statusCode, value) :=
    ReadString xmlHandle "OutputVertexListName" (m_outputVertexListName this) in
  (statusCode,
   mkAlgorithm
     (m_inputClusterListNameU this)
     (m_inputClusterListNameV this)
     (m_inputClusterListNameW this)
     value
     (m_replaceCurrentVertexList this)
     (m_histogramNPhiBins this)
     (m_histogramPhiMin this)
     (m_histogramPhiMax this)
     (m_maxHitVertexDisplacement this)
     (m_maxOnHitDisplacement this)
     (m_hitDeweightingPower this)
     (m_maxTopScoreCandidates this)
     (m_minCandidateDisplacement this)
     (m_minCandidateScoreFraction this)).

(** [ReadValue (xmlHandle, "ReplaceCurrentVertexList", m_replaceCurrentVertexList)] *)
Definition read_ReplaceCurrentVertexList (this : VertexSelectionAlgorithm)
    : StatusCode * VertexSelectionAlgorithm :=
  let (statusCode, value) :=
    ReadBool xmlHandle "ReplaceCurrentVertexList" (m_replaceCurrentVertexList this) in
  (statusCode,
   mkAlgorithm
     (m_inputClusterListNameU this)
     (m_inputClusterListNameV this)
     (m_inputClusterListNameW this)
     (m_outputVertexListName this)
     value
     (m_histogramNPhiBins this)
     (m_histogramPhiMin this)
     (m_histogramPhiMax this)
     (m_maxHitVertexDisplacement this)
     (m_maxOnHitDisplacement this)
     (m_hitDeweightingPower this)
     (m_maxTopScoreCandidates this)
     (m_minCandidateDisplacement this)
     (m_minCandidateScoreFraction this)).

(** [ReadValue (xmlHandle, "HistogramNPhiBins", m_histogramNPhiBins)] *)
Definition read_HistogramNPhiBins (this : VertexSelectionAlgorithm)
    : StatusCode * VertexSelectionAlgorithm :=
  let (statusCode, value) :=
    ReadUnsigned xmlHandle "HistogramNPhiBins" (m_histogramNPhiBins this) in
  (statusCode,
   mkAlgorithm
     (m_inputClusterListNameU this)
     (m_inputClusterListNameV this)
     (m_inputClusterListNameW this)
     (m_outputVertexListName this)
     (m_replaceCurrentVertexList this)
     value
     (m_histogramPhiMin this)
     (m_histogramPhiMax this)
     (m_maxHitVertexDisplacement this)
     (m_maxOnHitDisplacement this)
     (m_hitDeweightingPower this)
     (m_maxTopScoreCandidates this)
     (m_minCandidateDisplacement this)
     (m_minCandidateScoreFraction this)).

(** [ReadValue (xmlHandle, "HistogramPhiMin", m_histogramPhiMin)] *)
Definition read_HistogramPhiMin (this : VertexSelectionAlgorithm)
    : StatusCode * VertexSelectionAlgorithm :=
  let (statusCode, value) :=
    ReadFloat xmlHandle "HistogramPhiMin" (m_histogramPhiMin this) in
  (statusCode,
   mkAlgorithm
     (m_inputClusterListNameU this)
     (m_inputClusterListNameV this)
     (m_inputClusterListNameW this)
     (m_outputVertexListName this)
     (m_replaceCurrentVertexList this)
     (m_histogramNPhiBins this)
     value
     (m_histogramPhiMax this)
     (m_maxHitVertexDisplacement this)
     (m_maxOnHitDisplacement this)
     (m_hitDeweightingPower this)
     (m_maxTopScoreCandidates this)
     (m_minCandidateDisplacement this)
     (m_minCandidateScoreFraction this)).

(** [ReadValue (xmlHandle, "HistogramPhiMax", m_histogramPhiMax)] *)
Definition read_HistogramPhiMax (this : VertexSelectionAlgorithm)
    : StatusCode * VertexSelectionAlgorithm :=
  let (statusCode, value) :=
    ReadFloat xmlHandle "HistogramPhiMax" (m_histogramPhiMax this) in
  (statusCode,
   mkAlgorithm
     (m_inputClusterListNameU this)
     (m_inputClusterListNameV this)
     (m_inputClusterListNameW this)
     (m_outputVertexListName this)
     (m_replaceCurrentVertexList this)
     (m_histogramNPhiBins this)
     (m_histogramPhiMin this)
     value
     (m_maxHitVertexDisplacement this)
     (m_maxOnHitDisplacement this)
     (m_hitDeweightingPower this)
     (m_maxTopScoreCandidates this)
     (m_minCandidateDisplacement this)
     (m_minCandidateScoreFraction this)).

(** [ReadValue (xmlHandle, "MaxHitVertexDisplacement", m_maxHitVertexDisplacement)] *)
Definition read_MaxHitVertexDisplacement (this : VertexSelectionAlgorithm)
    : StatusCode * VertexSelectionAlgorithm :=
  let (statusCode, value) :=
    ReadFloat xmlHandle "MaxHitVertexDisplacement" (m_maxHitVertexDisplacement this) in
  (statusCode,
   mkAlgorithm
     (m_inputClusterListNameU this)
     (m_inputClusterListNameV this)
     (m_inputClusterListNameW this)
     (m_outputVertexListName this)
     (m_replaceCurrentVertexList this)
     (m_histogramNPhiBins this)
     (m_histogramPhiMin this)
     (m_histogramPhiMax this)
     value
     (m_maxOnHitDisplacement this)
     (m_hitDeweightingPower this)
     (m_maxTopScoreCandidates this)
     (m_minCandidateDisplacement this)
     (m_minCandidateScoreFraction this)).

(** [ReadValue (xmlHandle, "MaxOnHitDisplacement", m_maxOnHitDisplacement)] *)
Definition read_MaxOnHitDisplacement (this : VertexSelectionAlgorithm)
    : StatusCode * VertexSelectionAlgorithm :=
  let (statusCode, value) :=
    ReadFloat xmlHandle "MaxOnHitDisplacement" (m_maxOnHitDisplacement this) in
  (statusCode,
   mkAlgorithm
     (m_inputClusterListNameU this)
     (m_inputClusterListNameV this)
     (m_inputClusterListNameW this)
     (m_outputVertexListName this)
     (m_replaceCurrentVertexList this)
     (m_histogramNPhiBins this)
     (m_histogramPhiMin this)
     (m_histogramPhiMax this)
     (m_maxHitVertexDisplacement this)
     value
     (m_hitDeweightingPower this)
     (m_maxTopScoreCandidates this)
     (m_minCandidateDisplacement this)
     (m_minCandidateScoreFraction this)).

(** [ReadValue (xmlHandle, "HitDeweightingPower", m_hitDeweightingPower)] *)
Definition read_HitDeweightingPower (this : VertexSelectionAlgorithm)
    : StatusCode * VertexSelectionAlgorithm :=
  let (statusCode, value) :=
    ReadFloat xmlHandle "HitDeweightingPower" (m_hitDeweightingPower this) in
  (statusCode,
   mkAlgorithm
     (m_inputClusterListNameU this)
     (m_inputClusterListNameV this)
     (m_inputClusterListNameW this)
     (m_outputVertexListName this)
     (m_replaceCurrentVertexList this)
     (m_histogramNPhiBins this)
     (m_histogramPhiMin this)
     (m_histogramPhiMax this)
     (m_maxHitVertexDisplacement this)
     (m_maxOnHitDisplacement this)
     value
     (m_maxTopScoreCandidates this)
     (m_minCandidateDisplacement this)
     (m_minCandidateScoreFraction this)).

(** [ReadValue (xmlHandle, "MaxTopScoreCandidates", m_maxTopScoreCandidates)] *)
Definition read_MaxTopScoreCandidates (this : VertexSelectionAlgorithm)
    : StatusCode * VertexSelectionAlgorithm :=
  let (statusCode, value) :=
    ReadUnsigned xmlHandle "MaxTopScoreCandidates" (m_maxTopScoreCandidates this) in
  (statusCode,
   mkAlgorithm
     (m_inputClusterListNameU this)
     (m_inputClusterListNameV this)
     (m_inputClusterListNameW this)
     (m_outputVertexListName this)
     (m_replaceCurrentVertexList this)
     (m_histogramNPhiBins this)
     (m_histogramPhiMin this)
     (m_histogramPhiMax this)
     (m_maxHitVertexDisplacement this)
     (m_maxOnHitDisplacement this)
     (m_hitDeweightingPower this)
     value
     (m_minCandidateDisplacement this)
     (m_minCandidateScoreFraction this)).

(** [ReadValue (xmlHandle, "MinCandidateDisplacement", m_minCandidateDisplacement)] *)
Definition read_MinCandidateDisplacement (this : VertexSelectionAlgorithm)
    : StatusCode * VertexSelectionAlgorithm :=
  let (statusCode, value) :=
    ReadFloat xmlHandle "MinCandidateDisplacement" (m_minCandidateDisplacement this) in
  (statusCode,
   mkAlgorithm
     (m_inputClusterListNameU this)
     (m_inputClusterListNameV this)
     (m_inputClusterListNameW this)
     (m_outputVertexListName this)
     (m_replaceCurrentVertexList this)
     (m_histogramNPhiBins this)
     (m_histogramPhiMin this)
     (m_histogramPhiMax this)
     (m_maxHitVertexDisplacement this)
     (m_maxOnHitDisplacement this)
     (m_hitDeweightingPower this)
     (m_maxTopScoreCandidates this)
     value
     (m_minCandidateScoreFraction this)).

(** [ReadValue (xmlHandle, "MinCandidateScoreFraction", m_minCandidateScoreFraction)] *)
Definition read_MinCandidateScoreFraction (this : VertexSelectionAlgorithm)
    : StatusCode * VertexSelectionAlgorithm :=
  let (statusCode, value) :=
    ReadFloat xmlHandle "MinCandidateScoreFraction" (m_minCandidateScoreFraction this) in
  (statusCode,
   mkAlgorithm
     (m_inputClusterListNameU this)
     (m_inputClusterListNameV this)
     (m_inputClusterListNameW this)
     (m_outputVertexListName this)
     (m_replaceCurrentVertexList this)
     (m_histogramNPhiBins this)
     (m_histogramPhiMin this)
     (m_histogramPhiMax this)
     (m_maxHitVertexDisplacement this)
     (m_maxOnHitDisplacement this)
     (m_hitDeweightingPower this)
     (m_maxTopScoreCandidates this)
     (m_minCandidateDisplacement this)
     value).

Definition ReadSettings (this : VertexSelectionAlgorithm)
    : StatusCode * VertexSelectionAlgorithm :=
  returnResultIf read_InputClusterListNameU (
  returnResultIf read_InputClusterListNameV (
  returnResultIf read_InputClusterListNameW (
  returnResultIf read_OutputVertexListName (
  returnResultIfAndIf read_ReplaceCurrentVertexList (
  returnResultIfAndIf read_HistogramNPhiBins (
  returnResultIfAndIf read_HistogramPhiMin (
  returnResultIfAndIf read_HistogramPhiMax (
  returnResultIfAndIf read_MaxHitVertexDisplacement (
  returnResultIfAndIf read_MaxOnHitDisplacement (
  returnResultIfAndIf read_HitDeweightingPower (
  returnResultIfAndIf read_MaxTopScoreCandidates (
  returnResultIfAndIf read_MinCandidateDisplacement (
  returnResultIfAndIf read_MinCandidateScoreFraction (
  (fun this' => (STATUS_CODE_SUCCESS, this')))))))))))))))) this.

(** The statuses the four reads of list names and the ten reads of optional
    settings return on the object. *)
Definition nameStatuses (this : VertexSelectionAlgorithm) : list StatusCode :=
  [ fst (ReadString xmlHandle "InputClusterListNameU" (m_inputClusterListNameU this));
    fst (ReadString xmlHandle "InputClusterListNameV" (m_inputClusterListNameV this));
    fst (ReadString xmlHandle "InputClusterListNameW" (m_inputClusterListNameW this));
    fst (ReadString xmlHandle "OutputVertexListName" (m_outputVertexListName this)) ].

Definition optionStatuses (this : VertexSelectionAlgorithm) : list StatusCode :=
  [ fst (ReadBool xmlHandle "ReplaceCurrentVertexList" (m_replaceCurrentVertexList this));
    fst (ReadUnsigned xmlHandle "HistogramNPhiBins" (m_histogramNPhiBins this));
    fst (ReadFloat xmlHandle "HistogramPhiMin" (m_histogramPhiMin this));
    fst (ReadFloat xmlHandle "HistogramPhiMax" (m_histogramPhiMax this));
    fst (ReadFloat xmlHandle "MaxHitVertexDisplacement" (m_maxHitVertexDisplacement this));
    fst (ReadFloat xmlHandle "MaxOnHitDisplacement" (m_maxOnHitDisplacement this));
    fst (ReadFloat xmlHandle "HitDeweightingPower" (m_hitDeweightingPower this));
    fst (ReadUnsigned xmlHandle "MaxTopScoreCandidates" (m_maxTopScoreCandidates this));
    fst (ReadFloat xmlHandle "MinCandidateDisplacement" (m_minCandidateDisplacement this));
    fst (ReadFloat xmlHandle "MinCandidateScoreFraction" (m_minCandidateScoreFraction this)) ].

(** Each member as its read leaves it. *)
Definition settingsRead (this : VertexSelectionAlgorithm)
    : VertexSelectionAlgorithm :=
  mkAlgorithm
    (snd (ReadString xmlHandle "InputClusterListNameU" (m_inputClusterListNameU this)))
    (snd (ReadString xmlHandle "InputClusterListNameV" (m_inputClusterListNameV this)))
    (snd (ReadString xmlHandle "InputClusterListNameW" (m_inputClusterListNameW this)))
    (snd (ReadString xmlHandle "OutputVertexListName" (m_outputVertexListName this)))
    (snd (ReadBool xmlHandle "ReplaceCurrentVertexList" (m_replaceCurrentVertexList this)))
    (snd (ReadUnsigned xmlHandle "HistogramNPhiBins" (m_histogramNPhiBins this)))
    (snd (ReadFloat xmlHandle "HistogramPhiMin" (m_histogramPhiMin this)))
    (snd (ReadFloat xmlHandle "HistogramPhiMax" (m_histogramPhiMax this)))
    (snd (ReadFloat xmlHandle "MaxHitVertexDisplacement" (m_maxHitVertexDisplacement this)))
    (snd (ReadFloat xmlHandle "MaxOnHitDisplacement" (m_maxOnHitDisplacement this)))
    (snd (ReadFloat xmlHandle "HitDeweightingPower" (m_hitDeweightingPower this)))
    (snd (ReadUnsigned xmlHandle "MaxTopScoreCandidates" (m_maxTopScoreCandidates this)))
    (snd (ReadFloat xmlHandle "MinCandidateDisplacement" (m_minCandidateDisplacement this)))
    (snd (ReadFloat xmlHandle "MinCandidateScoreFraction" (m_minCandidateScoreFraction this))).

(** The statuses [PANDORA_RETURN_RESULT_IF_AND_IF] lets pass. *)
Definition acceptedWhenOptional (statusCode : StatusCode) : Prop :=
  statusCode = STATUS_CODE_SUCCESS \/ statusCode = STATUS_CODE_NOT_FOUND.

(** What the SDK's [ReadValue] does for an element that is absent: it
    returns not-found before it touches the member. *)
Definition leavesAbsentAlone : Prop :=
  (forall name t, fst (ReadBool xmlHandle name t) = STATUS_CODE_NOT_FOUND ->
                  snd (ReadBool xmlHandle name t) = t)
  /\ (forall name t, fst (ReadUnsigned xmlHandle name t) = STATUS_CODE_NOT_FOUND ->
                     snd (ReadUnsigned xmlHandle name t) = t)
  /\ (forall name t, fst (ReadFloat xmlHandle name t) = STATUS_CODE_NOT_FOUND ->
                     snd (ReadFloat xmlHandle name t) = t).

End ReadSettings.

(** Whether a read lets [ReadSettings] go on: a list name must be read with
    success, an optional setting may also be not found. *)
Definition passes (required : bool) (statusCode : StatusCode) : bool :=
  if StatusCode_eq_dec STATUS_CODE_SUCCESS statusCode then true
  else if required then false
  else if StatusCode_eq_dec STATUS_CODE_NOT_FOUND statusCode then true
  else false.

(** The status of the first read that does not pass, success when all do. *)
Fixpoint firstFailure (reads : list (bool * StatusCode)) : StatusCode :=
  match reads with
  | [] => STATUS_CODE_SUCCESS
  | (required, statusCode) :: rest =>
      if passes required statusCode then firstFailure rest else statusCode
  end.

(** The fourteen reads in source order, the four list names required. *)
Definition readStatuses (xmlHandle : TiXmlHandle)
    (this : VertexSelectionAlgorithm) : list (bool * StatusCode) :=
  map (pair true) (nameStatuses xmlHandle this)
  ++ map (pair false) (optionStatuses xmlHandle this).

(** The object with other list names. *)
Definition withListNames (nameU nameV nameW nameOut : string)
    (this : VertexSelectionAlgorithm) : VertexSelectionAlgorithm :=
  mkAlgorithm nameU nameV nameW nameOut
    (m_replaceCurrentVertexList this)
    (m_histogramNPhiBins this)
    (m_histogramPhiMin this)
    (m_histogramPhiMax this)
    (m_maxHitVertexDisplacement this)
    (m_maxOnHitDisplacement this)
    (m_hitDeweightingPower this)
    (m_maxTopScoreCandidates this)
    (m_minCandidateDisplacement this)
    (m_minCandidateScoreFraction this).

(** ** LArDLContent: registration of the factories *)

(** What the factory of an entry of [LAR_DL_ALGORITHM_LIST] creates. *)
Inductive DLAlgorithm : Type := DeepLearningTrackShowerIdAlgorithm.

(** [LAR_DL_ALGORITHM_TOOL_LIST] has no entry, so no tool factory exists. *)
Inductive DLAlgorithmTool : Type := .

Definition LAR_DL_ALGORITHM_LIST : list (string * DLAlgorithm) :=
  [ ("LArDeepLearningTrackShowerId"%string, DeepLearningTrackShowerIdAlgorithm) ].

Definition LAR_DL_ALGORITHM_TOOL_LIST : list (string * DLAlgorithmTool) := [].

Section LArDLContent.

(** The framework instance, and [PandoraApi]'s two registration calls: the
    status returned and the instance afterwards. *)
Variable Pandora : Type.
Variable RegisterAlgorithmFactory :
  Pandora -> string -> DLAlgorithm -> StatusCode * Pandora.
Variable RegisterAlgorithmToolFactory :
  Pandora -> string -> DLAlgorithmTool -> StatusCode * Pandora.

(** A list macro expanded with a registration macro: one block per entry,
    each returning the status of its call unless it is success; [rest] is
    the code after the expansion. *)
Fixpoint registerEach {Factory : Type}
    (register : Pandora -> string -> Factory -> StatusCode * Pandora)
    (entries : list (string * Factory))
    (rest : Pandora -> StatusCode * Pandora)
    (pandora : Pandora) : StatusCode * Pandora :=
  match entries with
  | [] => rest pandora
  | (a, b) :: more =>
      let (statusCode, pandora') := register pandora a b in
      if StatusCode_eq_dec STATUS_CODE_SUCCESS statusCode
      then registerEach register more rest pandora'
      else (statusCode, pandora')
  end.

Definition RegisterAlgorithms (pandora : Pandora) : StatusCode * Pandora :=
  registerEach RegisterAlgorithmFactory LAR_DL_ALGORITHM_LIST
    (registerEach RegisterAlgorithmToolFactory LAR_DL_ALGORITHM_TOOL_LIST
       (fun pandora' => (STATUS_CODE_SUCCESS, pandora')))
    pandora.

(** The instance after every entry of a list has been registered in order,
    whatever the calls return. *)
Definition registeredAll {Factory : Type}
    (register : Pandora -> string -> Factory -> StatusCode * Pandora)
    (entries : list (string * Factory)) (pandora : Pandora) : Pandora :=
  fold_left (fun p entry => snd (register p (fst entry) (snd entry)))
            entries pandora.

End LArDLContent.

(** Every registration of the list, made in order, returns success. *)
Fixpoint registrationsSucceed {Pandora Factory : Type}
    (register : Pandora -> string -> Factory -> StatusCode * Pandora)
    (entries : list (string * Factory)) (pandora : Pandora) : Prop :=
  match entries with
  | [] => True
  | (a, b) :: more =>
      fst (register pandora a b) = STATUS_CODE_SUCCESS
      /\ registrationsSucceed register more (snd (register pandora a b))
  end.

(** ** Notions used to state further properties *)

(** [s] is [l] with some entries left out, the others in their order. *)
Inductive Subsequence {A : Type} : list A -> list A -> Prop :=
  | Subsequence_nil : Subsequence [] []
  | Subsequence_skip (x : A) (s l : list A) :
      Subsequence s l -> Subsequence s (x :: l)
  | Subsequence_keep (x : A) (s l : list A) :
      Subsequence s l -> Subsequence (x :: s) (x :: l).

(** The sign bit is set and the number is not NaN: negative numbers,
    minus zero and minus infinity. *)
Definition hasMinusSign (x : float) : bool :=
  match x with
  | S754_nan => false
  | S754_zero s | S754_infinity s | S754_finite s _ _ => s
  end.

(** The hits of a cluster in the order the two loops visit them. *)
Definition hitsInOrder (pCluster : Cluster) : CaloHitList :=
  flat_map snd (GetOrderedCaloHitList pCluster).

(** The hits that pass the guard of line 137. *)
Definition filledHits (this : VertexSelectionAlgorithm)
    (vertexPosition2D : CartesianVector) (pCluster : Cluster) : CaloHitList :=
  filter (fun pCaloHit =>
            negb (isBeyondMaxDisplacement this
                    (hitMagnitude vertexPosition2D pCaloHit)))
         (hitsInOrder pCluster).

(** The call of [histogram.Fill] that line 144 makes for a hit. *)
Definition fillHit {Histogram : Type} {ops : HistogramOps Histogram}
    (atan2 pow : float -> float -> float) (this : VertexSelectionAlgorithm)
    (vertexPosition2D : CartesianVector)
    (histogram : Histogram) (pCaloHit : CaloHit) : Histogram :=
  let displacement :=
    vector_minus (GetPositionVector pCaloHit) vertexPosition2D in
  Fill histogram
       (atan2 (GetZ displacement) (GetX displacement))
       (pow (GetMagnitude displacement) (m_hitDeweightingPower this)).

(** The entry a vertex adds to the score list, if any. *)
Definition scoredEntry {Histogram : Type} {ops : HistogramOps Histogram}
    (atan2 pow : float -> float -> float)
    (ProjectPosition : CartesianVector -> HitType -> CartesianVector)
    (api : PandoraContentApi) (this : VertexSelectionAlgorithm)
    (pVertex : Vertex) : VertexScoreList :=
  match scoreVertex atan2 pow ProjectPosition api this pVertex with
  | Normal (Some vertexScore) => [vertexScore]
  | _ => []
  end.

(** The accepted list of a state of the walk, walked again from the start,
    is accepted as it stands, without leaving the loop; [c] is the counter
    of the second walk. *)
Definition walksToItself (this : VertexSelectionAlgorithm)
    (state : WalkState) : Prop :=
  exists c,
    walk this (selectedVertexScoreList state)
    = mkWalkState c (selectedVertexScoreList state) false
    /\ 0 <= c < UINT_MODULUS
    /\ 0 <= nVerticesConsidered state < UINT_MODULUS
    /\ (leftLoop state = true
        \/ UINT_MODULUS - 1 <= m_maxTopScoreCandidates this
        \/ (c <= nVerticesConsidered state
            /\ (nVerticesConsidered state <= m_maxTopScoreCandidates this
                \/ nVerticesConsidered state = 0))).

(** The two objects agree on every member but the three that steer the
    selection walk: [m_maxTopScoreCandidates], [m_minCandidateDisplacement]
    and [m_minCandidateScoreFraction]. *)
Definition agreeOutsideSelection (this other : VertexSelectionAlgorithm)
    : Prop :=
  m_inputClusterListNameU this = m_inputClusterListNameU other
  /\ m_inputClusterListNameV this = m_inputClusterListNameV other
  /\ m_inputClusterListNameW this = m_inputClusterListNameW other
  /\ m_outputVertexListName this = m_outputVertexListName other
  /\ m_replaceCurrentVertexList this = m_replaceCurrentVertexList other
  /\ m_histogramNPhiBins this = m_histogramNPhiBins other
  /\ m_histogramPhiMin this = m_histogramPhiMin other
  /\ m_histogramPhiMax this = m_histogramPhiMax other
  /\ m_maxHitVertexDisplacement this = m_maxHitVertexDisplacement other
  /\ m_maxOnHitDisplacement this = m_maxOnHitDisplacement other
  /\ m_hitDeweightingPower this = m_hitDeweightingPower other.

(** ** Further concrete inputs *)

Module Fixtures.
Import Scenario.

(** A settings block that holds the four list names and nothing else, read
    as the SDK reads: an absent element leaves the member alone. *)
Definition readListName (name t : string) : StatusCode * string :=
  if String.eqb name "InputClusterListNameU" then (STATUS_CODE_SUCCESS, "ClustersU"%string)
  else if String.eqb name "InputClusterListNameV" then (STATUS_CODE_SUCCESS, "ClustersV"%string)
  else if String.eqb name "InputClusterListNameW" then (STATUS_CODE_SUCCESS, "ClustersW"%string)
  else if String.eqb name "OutputVertexListName" then (STATUS_CODE_SUCCESS, "SelectedVertices"%string)
  else (STATUS_CODE_NOT_FOUND, t).

Definition namesOnlyXml : TiXmlHandle :=
  {| ReadString := readListName;
     ReadBool := fun _ t => (STATUS_CODE_NOT_FOUND, t);
     ReadUnsigned := fun _ t => (STATUS_CODE_NOT_FOUND, t);
     ReadFloat := fun _ t => (STATUS_CODE_NOT_FOUND, t) |}.

(** The same block with a depth of 3. *)
Definition depthThreeXml : TiXmlHandle :=
  {| ReadString := readListName;
     ReadBool := fun _ t => (STATUS_CODE_NOT_FOUND, t);
     ReadUnsigned := fun name t =>
       if String.eqb name "MaxTopScoreCandidates" then (STATUS_CODE_SUCCESS, 3)
       else (STATUS_CODE_NOT_FOUND, t);
     ReadFloat := fun _ t => (STATUS_CODE_NOT_FOUND, t) |}.

(** A block without the name of the W list and with a malformed depth. *)
Definition brokenXml : TiXmlHandle :=
  {| ReadString := fun name t =>
       if String.eqb name "InputClusterListNameW" then (STATUS_CODE_NOT_FOUND, t)
       else readListName name t;
     ReadBool := fun _ t => (STATUS_CODE_NOT_FOUND, t);
     ReadUnsigned := fun name t =>
       if String.eqb name "MaxTopScoreCandidates" then (STATUS_CODE_FAILURE, t)
       else (STATUS_CODE_NOT_FOUND, t);
     ReadFloat := fun _ t => (STATUS_CODE_NOT_FOUND, t) |}.

(** The insertion sort on the reversed list: it leaves entries of equal score
    in the opposite order. *)
Definition insertionSortReversed (l : VertexScoreList) : VertexScoreList :=
  insertionSort (rev l).

(** The framework of [Scenario.framework] with an empty V list. *)
Definition frameworkWithEmptyV (vertices : VertexList) : PandoraContentApi :=
  {| GetCurrentList := (STATUS_CODE_SUCCESS, vertices);
     GetList := fun name =>
       if String.eqb name "ClustersV" then (STATUS_CODE_SUCCESS, [])
       else clusterLists name;
     SaveList := fun _ _ => STATUS_CODE_SUCCESS;
     ReplaceCurrentList := fun _ => STATUS_CODE_SUCCESS |}.

(** A second vertex at the position of [vertexA]. *)
Definition twinOfA : Vertex := mkVertex 4097 (onXAxis zero).

Definition twins : VertexList := [vertexA; twinOfA].

(** A registry of names that refuses a name it already holds. *)
Definition registerName (names : list string) (name : string)
    (factory : DLAlgorithm) : StatusCode * list string :=
  if existsb (String.eqb name) names
  then (STATUS_CODE_ALREADY_PRESENT, names)
  else (STATUS_CODE_SUCCESS, names ++ [name]).

End Fixtures.

(** ** IEEE arithmetic facts that hold at every format *)

Module IEEE.

Section Format.
Variables prec emax : Z.

Lemma binary_round_aux_abs (s : bool) (m e : Z) (l : location) :
  SFabs (binary_round_aux prec emax s m e l)
  = SFabs (binary_round_aux prec emax false m e l).
Proof.
  unfold binary_round_aux.
  destruct (shr_fexp prec emax m e l) as [mrs' e'].
  destruct (shr_fexp prec emax _ e' loc_Exact) as [mrs'' e''].
  destruct (shr_m mrs''); try reflexivity.
  destruct (Z.leb e'' (emax - prec)); reflexivity.
Qed.

Lemma binary_round_abs (s : bool) (m : positive) (e : Z) :
  SFabs (binary_round prec emax s m e)
  = SFabs (binary_round prec emax false m e).
Proof.
  unfold binary_round.
  destruct (shl_align m e _) as [mz ez].
  apply binary_round_aux_abs.
Qed.

Lemma binary_normalize_opp_abs (m e : Z) :
  SFabs (binary_normalize prec emax (- m) e false)
  = SFabs (binary_normalize prec emax m e false).
Proof.
  destruct m as [|p|p]; simpl; try reflexivity.
  - apply binary_round_abs.
  - symmetry; apply binary_round_abs.
Qed.

(** Swapping the operands of a subtraction changes at most the sign. *)
Lemma SFsub_swap_abs (x y : spec_float) :
  SFabs (SFsub prec emax x y) = SFabs (SFsub prec emax y x).
Proof.
  destruct x as [sx|sx| |sx mx ex], y as [sy|sy| |sy my ey];
    try reflexivity;
    try (destruct sx, sy; reflexivity).
  unfold SFsub.
  rewrite (Z.min_comm ey ex).
  set (ez := Z.min ex ey).
  set (a := cond_Zopp sx (Zpos (fst (shl_align mx ex ez)))).
  set (b := cond_Zopp sy (Zpos (fst (shl_align my ey ez)))).
  replace (Z.sub b a) with (- (Z.sub a b)) by lia.
  symmetry; apply binary_normalize_opp_abs.
Qed.

(** A square only depends on the absolute value of its operand. *)
Lemma SFmul_square_abs (x y : spec_float) :
  SFabs x = SFabs y -> SFmul prec emax x x = SFmul prec emax y y.
Proof.
  destruct x as [sx|sx| |sx mx ex], y as [sy|sy| |sy my ey];
    simpl; intros H; try discriminate; try reflexivity.
  - destruct sx, sy; reflexivity.
  - destruct sx, sy; reflexivity.
  - injection H as -> ->. destruct sx, sy; reflexivity.
Qed.

(** Subtracting a zero or a finite number from itself gives [+0]. *)
Lemma SFsub_diag (x : spec_float) :
  match x with S754_zero _ | S754_finite _ _ _ => True | _ => False end ->
  SFsub prec emax x x = S754_zero false.
Proof.
  destruct x as [s|s| |s m e]; simpl; intros H; try contradiction.
  - destruct s; reflexivity.
  - rewrite Z.sub_diag. reflexivity.
Qed.

(** *** The order of [SFcompare] away from NaN *)

Ltac compare_cases :=
  repeat match goal with
  | |- context [Pos.compare_cont Eq ?a ?b] =>
      change (Pos.compare_cont Eq a b) with (Pos.compare a b)
  | |- context [Z.compare ?a ?b] => destruct (Z.compare_spec a b)
  | |- context [Pos.compare ?a ?b] => destruct (Pos.compare_spec a b)
  end.

Ltac order_finish := simpl; intros; subst; try congruence; try lia.

Lemma SFltb_total (x y : spec_float) :
  x <> S754_nan -> y <> S754_nan -> SFltb x y = false -> SFleb y x = true.
Proof.
  unfold SFltb, SFleb.
  destruct x as [sx|sx| |sx mx ex], y as [sy|sy| |sy my ey];
    intros Hx Hy; try congruence;
    try (destruct sx; try destruct sy; simpl; congruence).
  simpl. destruct sx, sy; try congruence; compare_cases; order_finish.
Qed.

Lemma SFleb_ltb (x y : spec_float) :
  SFleb y x = true -> SFltb x y = false.
Proof.
  unfold SFltb, SFleb.
  destruct x as [sx|sx| |sx mx ex], y as [sy|sy| |sy my ey];
    try (simpl; congruence);
    try (destruct sx; try destruct sy; simpl; congruence).
  simpl. destruct sx, sy; try congruence; compare_cases; order_finish.
Qed.

Lemma SFleb_trans (x y z : spec_float) :
  SFleb x y = true -> SFleb y z = true -> SFleb x z = true.
Proof.
  unfold SFleb.
  destruct x as [sx|sx| |sx mx ex], y as [sy|sy| |sy my ey],
           z as [sz|sz| |sz mz ez];
    try (simpl; congruence);
    try (destruct sx; try destruct sy; try destruct sz; simpl; congruence).
  simpl. destruct sx, sy, sz; try congruence; compare_cases; order_finish.
Qed.

Lemma SFltb_irrefl (x : spec_float) : SFltb x x = false.
Proof.
  unfold SFltb.
  destruct x as [s|s| |s m e]; try (destruct s; reflexivity); try reflexivity.
  simpl. rewrite Z.compare_refl, Pos.compare_cont_refl.
  destruct s; reflexivity.
Qed.

Lemma SFltb_leb_asym (x y z : spec_float) :
  SFltb x y = true -> SFleb y z = true -> SFltb z x = false.
Proof.
  unfold SFltb, SFleb.
  destruct x as [sx|sx| |sx mx ex], y as [sy|sy| |sy my ey],
           z as [sz|sz| |sz mz ez];
    try (simpl; congruence);
    try (destruct sx; try destruct sy; try destruct sz; simpl; congruence).
  simpl. destruct sx, sy, sz; try congruence; compare_cases; order_finish.
Qed.

End Format.

End IEEE.


(** ** Facts about the binary32 operations the algorithm uses *)

Lemma GetMagnitude_minus_swap (p q : CartesianVector) :
  GetMagnitude (vector_minus p q) = GetMagnitude (vector_minus q p).
Proof.
  unfold GetMagnitude, GetMagnitudeSquared, vector_minus, mul, sub; simpl.
  rewrite (IEEE.SFmul_square_abs prec emax _ _
             (IEEE.SFsub_swap_abs prec emax (GetX p) (GetX q))).
  rewrite (IEEE.SFmul_square_abs prec emax _ _
             (IEEE.SFsub_swap_abs prec emax (GetY p) (GetY q))).
  rewrite (IEEE.SFmul_square_abs prec emax _ _
             (IEEE.SFsub_swap_abs prec emax (GetZ p) (GetZ q))).
  reflexivity.
Qed.

Lemma sub_diag (x : float) : is_finite x = true -> sub x x = zero.
Proof.
  intros H. apply IEEE.SFsub_diag. destruct x; simpl in *; try discriminate; exact I.
Qed.

Lemma GetMagnitude_minus_diag (p : CartesianVector) :
  hasFiniteCoordinates p = true -> GetMagnitude (vector_minus p p) = zero.
Proof.
  unfold hasFiniteCoordinates. intros H.
  apply andb_prop in H as [H Hz]. apply andb_prop in H as [Hx Hy].
  unfold GetMagnitude, GetMagnitudeSquared, vector_minus; simpl.
  rewrite !sub_diag by assumption. reflexivity.
Qed.

Lemma is_nan_not_nan (x : float) : is_nan x = false -> x <> S754_nan.
Proof. intros H ->. discriminate. Qed.

Lemma ltb_leb (x y : float) : SFltb x y = true -> SFleb x y = true.
Proof.
  unfold SFltb, SFleb. destruct (SFcompare x y) as [[ | | ]|]; congruence.
Qed.

(** ** The insertion sort meets what is asked of [std::sort] *)

Module SortFacts.
Import Scenario.

Lemma scoreLe_notBefore (a b : VertexScore) : scoreLe a b -> notBefore a b.
Proof.
  unfold scoreLe, notBefore, VertexScore_lt, gtb.
  apply IEEE.SFleb_ltb.
Qed.

Lemma insert_perm (x : VertexScore) (l : VertexScoreList) :
  Permutation (x :: l) (insert x l).
Proof.
  induction l as [|y rest IH]; simpl.
  - apply Permutation_refl.
  - destruct (VertexScore_lt y x).
    + apply perm_trans with (y :: x :: rest).
      * apply perm_swap.
      * apply perm_skip, IH.
    + apply Permutation_refl.
Qed.

Lemma insertionSort_perm (l : VertexScoreList) :
  Permutation l (insertionSort l).
Proof.
  induction l as [|x rest IH]; simpl.
  - apply perm_nil.
  - apply perm_trans with (x :: insertionSort rest).
    + apply perm_skip, IH.
    + apply insert_perm.
Qed.

Lemma insert_sorted (x : VertexScore) (l : VertexScoreList) :
  is_nan (GetScore x) = false ->
  scoresAreNumbers l ->
  StronglySorted scoreLe l ->
  StronglySorted scoreLe (insert x l).
Proof.
  intros Hx Hl Hs.
  induction Hs as [|y rest Hrest IH Hy]; simpl.
  - repeat constructor.
  - inversion Hl as [|? ? Hny Hnrest]; subst.
    unfold VertexScore_lt at 1, gtb.
    destruct (SFltb (GetScore x) (GetScore y)) eqn:E.
    + constructor.
      * apply IH, Hnrest.
      * apply (Permutation_Forall (insert_perm x rest)).
        constructor; [|exact Hy].
        apply ltb_leb, E.
    + assert (Hxy : scoreLe x y).
      { apply IEEE.SFltb_total; auto using is_nan_not_nan. }
      constructor.
      * constructor; assumption.
      * constructor; [exact Hxy|].
        eapply Forall_impl; [|exact Hy].
        intros z Hz. unfold scoreLe in *.
        eapply IEEE.SFleb_trans; eassumption.
Qed.

Lemma insertionSort_numbers (l : VertexScoreList) :
  scoresAreNumbers l -> scoresAreNumbers (insertionSort l).
Proof.
  intros H. apply (Permutation_Forall (insertionSort_perm l)), H.
Qed.

Lemma insertionSort_sorted (l : VertexScoreList) :
  scoresAreNumbers l -> StronglySorted scoreLe (insertionSort l).
Proof.
  induction l as [|x rest IH]; simpl; intros H.
  - constructor.
  - inversion H; subst.
    apply insert_sorted; auto using insertionSort_numbers.
Qed.

Lemma StronglySorted_impl {A : Type} (R S : A -> A -> Prop) (l : list A) :
  (forall a b, R a b -> S a b) -> StronglySorted R l -> StronglySorted S l.
Proof.
  intros HRS H. induction H as [|a l Hl IH Ha]; constructor; auto.
  eapply Forall_impl; [|exact Ha]. auto.
Qed.

Lemma insertionSort_sorts : sortsByOperatorLt insertionSort.
Proof.
  intros l Hl. split.
  - apply insertionSort_perm.
  - apply StronglySorted_impl with (R := scoreLe).
    + apply scoreLe_notBefore.
    + apply insertionSort_sorted, Hl.
Qed.

End SortFacts.

(** ** The algorithm's properties *)

Lemma fold_left_invariant {A B : Type} (f : A -> B -> A) (P : A -> Prop) :
  (forall a b, P a -> P (f a b)) ->
  forall l a, P a -> P (fold_left f l a).
Proof.
  intros Hstep l. induction l as [|b l IH]; simpl; auto.
Qed.

Section Facts.

Context {Histogram : Type} {histogramOps : HistogramOps Histogram}.
Variables atan2 pow : float -> float -> float.
Variable ProjectPosition : CartesianVector -> HitType -> CartesianVector.
Variable std_sort : VertexScoreList -> VertexScoreList.
Variable api : PandoraContentApi.
Variable this : VertexSelectionAlgorithm.

Local Abbreviation hitBody' := (hitBody atan2 pow this).
Local Abbreviation layerBody' := (layerBody atan2 pow this).
Local Abbreviation FillHistogramCluster' := (FillHistogramCluster atan2 pow this).
Local Abbreviation clusterLoop' := (clusterLoop atan2 pow ProjectPosition this).
Local Abbreviation FillHistogram' := (FillHistogram atan2 pow ProjectPosition api this).
Local Abbreviation scoreVertex' := (scoreVertex atan2 pow ProjectPosition api this).
Local Abbreviation scoreLoop' := (scoreLoop atan2 pow ProjectPosition api this).
Local Abbreviation Run' := (Run atan2 pow ProjectPosition std_sort api this).
Local Abbreviation outputVertexList' :=
  (outputVertexList atan2 pow ProjectPosition std_sort api this).

(** *** The scan of one view *)

Lemma hitBody_filled (v : CartesianVector) (state : bool * Histogram)
    (pCaloHit : CaloHit) :
  isBeyondMaxDisplacement this (hitMagnitude v pCaloHit) = false ->
  hitBody' v state pCaloHit
  = (if isWithinOnHitDisplacement this (hitMagnitude v pCaloHit)
     then true else fst state,
     Fill (snd state)
          (atan2 (GetZ (vector_minus (GetPositionVector pCaloHit) v))
                 (GetX (vector_minus (GetPositionVector pCaloHit) v)))
          (pow (hitMagnitude v pCaloHit) (m_hitDeweightingPower this))).
Proof.
  unfold hitBody, hitMagnitude. intros ->. reflexivity.
Qed.

Lemma hitBody_skipped (v : CartesianVector) (state : bool * Histogram)
    (pCaloHit : CaloHit) :
  isBeyondMaxDisplacement this (hitMagnitude v pCaloHit) = true ->
  hitBody' v state pCaloHit = state.
Proof.
  unfold hitBody, hitMagnitude. intros ->. reflexivity.
Qed.

Lemma hitBody_fst (v : CartesianVector) (state : bool * Histogram)
    (pCaloHit : CaloHit) :
  fst (hitBody' v state pCaloHit) = fst state || hitSetsOnHit this v pCaloHit.
Proof.
  unfold hitBody, hitSetsOnHit, hitMagnitude.
  destruct (isBeyondMaxDisplacement this _); simpl.
  - rewrite orb_false_r. reflexivity.
  - destruct (isWithinOnHitDisplacement this _); simpl.
    + rewrite orb_true_r. reflexivity.
    + rewrite orb_false_r. reflexivity.
Qed.

Lemma hits_fst (v : CartesianVector) (hits : CaloHitList)
    (state : bool * Histogram) :
  fst (fold_left (hitBody' v) hits state)
  = fst state || existsb (hitSetsOnHit this v) hits.
Proof.
  revert state. induction hits as [|hit hits IH]; intros state; simpl.
  - rewrite orb_false_r. reflexivity.
  - rewrite IH, hitBody_fst, orb_assoc. reflexivity.
Qed.

Lemma layers_fst (v : CartesianVector) (layers : OrderedCaloHitList)
    (state : bool * Histogram) :
  fst (fold_left (layerBody' v) layers state)
  = fst state || existsb (layerSetsOnHit this v) layers.
Proof.
  revert state. induction layers as [|layer layers IH]; intros state; simpl.
  - rewrite orb_false_r. reflexivity.
  - rewrite IH. unfold layerBody.
    rewrite hits_fst, orb_assoc. reflexivity.
Qed.

Lemma FillHistogramCluster_fst (v : CartesianVector) (pCluster : Cluster)
    (histogram : Histogram) :
  fst (FillHistogramCluster' v pCluster histogram)
  = clusterSetsOnHit this v pCluster.
Proof.
  unfold FillHistogramCluster. rewrite layers_fst. reflexivity.
Qed.

Lemma clusterLoop_returns (pVertex : Vertex) (hitType : HitType)
    (clusters : ClusterList) (state : bool * Histogram) :
  Forall (fun pCluster => GetClusterHitType pCluster = hitType) clusters ->
  exists histogram',
    clusterLoop' pVertex hitType clusters state
    = Normal (fst state
              || existsb (clusterSetsOnHit this
                            (ProjectPosition (GetPosition pVertex) hitType))
                         clusters,
              histogram').
Proof.
  intros Hall. revert state.
  induction Hall as [|pCluster rest Hview Hrest IH]; intros state; simpl.
  - exists (snd state). rewrite orb_false_r. destruct state; reflexivity.
  - destruct (HitType_eq_dec hitType (GetClusterHitType pCluster)) as [_|Hne];
      [|congruence].
    destruct (IH (fst state
                  || fst (FillHistogramCluster'
                            (ProjectPosition (GetPosition pVertex) hitType)
                            pCluster (snd state)),
                  snd (FillHistogramCluster'
                         (ProjectPosition (GetPosition pVertex) hitType)
                         pCluster (snd state)))) as [h' Hh'].
    exists h'. rewrite Hh'. simpl.
    rewrite FillHistogramCluster_fst, orb_assoc. reflexivity.
Qed.

Lemma clusterLoop_mismatch (pVertex : Vertex) (hitType : HitType)
    (clusters : ClusterList) (state : bool * Histogram) :
  Exists (fun pCluster => GetClusterHitType pCluster <> hitType) clusters ->
  clusterLoop' pVertex hitType clusters state
  = StatusCodeException STATUS_CODE_INVALID_PARAMETER.
Proof.
  intros Hex. revert state.
  induction clusters as [|pCluster rest IH]; intros state.
  - inversion Hex.
  - simpl.
    destruct (HitType_eq_dec hitType (GetClusterHitType pCluster)) as [He|Hne];
      [|reflexivity].
    apply IH. inversion Hex; subst; [congruence|assumption].
Qed.

Lemma clusterLoop_outcome (pVertex : Vertex) (hitType : HitType)
    (clusters : ClusterList) (state : bool * Histogram) :
  forall result,
    clusterLoop' pVertex hitType clusters state = result ->
    match result with
    | Normal _ =>
        Forall (fun pCluster => GetClusterHitType pCluster = hitType) clusters
    | StatusCodeException s => s = STATUS_CODE_INVALID_PARAMETER
    | StdOutOfRange => False
    end.
Proof.
  revert state. induction clusters as [|pCluster rest IH]; intros state result.
  - simpl. intros <-. constructor.
  - simpl.
    destruct (HitType_eq_dec hitType (GetClusterHitType pCluster)) as [He|Hne].
    + intros H. specialize (IH _ _ H). destruct result; auto.
    + intros <-. reflexivity.
Qed.

Lemma existsb_clusters_iff (v : CartesianVector) (clusters : ClusterList) :
  existsb (clusterSetsOnHit this v) clusters = true
  <-> someHitSetsOnHit this v clusters.
Proof.
  unfold someHitSetsOnHit, clusterSetsOnHit, layerSetsOnHit, hitSetsOnHit.
  rewrite existsb_exists. split.
  - intros (c & Hc & H). apply existsb_exists in H as (layer & Hl & H).
    apply existsb_exists in H as (hit & Hh & H).
    apply andb_prop in H as [H1 H2]. apply negb_true_iff in H1.
    exists c, layer, hit. auto.
  - intros (c & layer & hit & Hc & Hl & Hh & H1 & H2).
    exists c. split; [assumption|].
    apply existsb_exists. exists layer. split; [assumption|].
    apply existsb_exists. exists hit. split; [assumption|].
    rewrite H1, H2. reflexivity.
Qed.

(** C2 (as amended): no floor guards a zero displacement.  Every hit whose
    magnitude is not above [m_maxHitVertexDisplacement] is filled with the
    weight [pow magnitude m_hitDeweightingPower]; a hit at the projected
    vertex position (finite coordinates) has magnitude exactly zero and,
    unless zero is above [m_maxHitVertexDisplacement], is filled with the
    weight [pow 0 m_hitDeweightingPower], whatever [pow] makes of it. *)
Theorem hit_at_zero_distance_is_filled :
  forall (v : CartesianVector) (state : bool * Histogram) (pCaloHit : CaloHit),
    (isBeyondMaxDisplacement this (hitMagnitude v pCaloHit) = false ->
     snd (hitBody' v state pCaloHit)
     = Fill (snd state)
            (atan2 (GetZ (vector_minus (GetPositionVector pCaloHit) v))
                   (GetX (vector_minus (GetPositionVector pCaloHit) v)))
            (pow (hitMagnitude v pCaloHit) (m_hitDeweightingPower this)))
    /\ (hasFiniteCoordinates v = true ->
        GetPositionVector pCaloHit = v ->
        hitMagnitude v pCaloHit = zero
        /\ (gtb zero (m_maxHitVertexDisplacement this) = false ->
            snd (hitBody' v state pCaloHit)
            = Fill (snd state) (atan2 zero zero)
                   (pow zero (m_hitDeweightingPower this)))).
Proof.
  intros v state pCaloHit. split.
  - intros Hfilled. rewrite hitBody_filled by assumption. reflexivity.
  - intros Hfinite Hsame.
    assert (Hm : hitMagnitude v pCaloHit = zero).
    { unfold hitMagnitude. rewrite Hsame.
      apply GetMagnitude_minus_diag, Hfinite. }
    split; [exact Hm|].
    intros Hreach. rewrite hitBody_filled.
    + rewrite Hm, Hsame. unfold vector_minus; simpl.
      unfold hasFiniteCoordinates in Hfinite.
      apply andb_prop in Hfinite as [Hxy Hz].
      apply andb_prop in Hxy as [Hx Hy].
      rewrite !sub_diag by assumption. reflexivity.
    + rewrite Hm. exact Hreach.
Qed.

Lemma FillHistogram_returned (pVertex : Vertex) (hitType : HitType)
    (clusterListName : string) (histogram : Histogram)
    (isVertexOnHit : bool) (histogram' : Histogram) :
  FillHistogram' pVertex hitType clusterListName histogram
  = Normal (isVertexOnHit, histogram') ->
  fst (GetList api clusterListName) = STATUS_CODE_SUCCESS
  /\ Forall (fun pCluster => GetClusterHitType pCluster = hitType)
            (snd (GetList api clusterListName))
  /\ isVertexOnHit
     = existsb (clusterSetsOnHit this
                  (ProjectPosition (GetPosition pVertex) hitType))
               (snd (GetList api clusterListName)).
Proof.
  unfold FillHistogram.
  destruct (GetList api clusterListName) as [statusCode pClusterList]; simpl.
  destruct (StatusCode_eq_dec STATUS_CODE_SUCCESS statusCode) as [Hs|Hs];
    [|intros; discriminate].
  intros H.
  pose proof (clusterLoop_outcome _ _ _ _ _ H) as Hall. simpl in Hall.
  destruct (clusterLoop_returns pVertex hitType pClusterList
              (false, histogram) Hall) as [h' Hh'].
  rewrite Hh' in H. injection H as Hb _. simpl in Hb.
  auto.
Qed.

Lemma FillHistogram_returns (pVertex : Vertex) (hitType : HitType)
    (clusterListName : string) (histogram : Histogram) :
  fst (GetList api clusterListName) = STATUS_CODE_SUCCESS ->
  Forall (fun pCluster => GetClusterHitType pCluster = hitType)
         (snd (GetList api clusterListName)) ->
  exists histogram',
    FillHistogram' pVertex hitType clusterListName histogram
    = Normal (existsb (clusterSetsOnHit this
                         (ProjectPosition (GetPosition pVertex) hitType))
                      (snd (GetList api clusterListName)),
              histogram').
Proof.
  unfold FillHistogram.
  destruct (GetList api clusterListName) as [statusCode pClusterList]; simpl.
  intros Hs Hall. subst statusCode.
  destruct (StatusCode_eq_dec STATUS_CODE_SUCCESS STATUS_CODE_SUCCESS);
    [|congruence].
  destruct (clusterLoop_returns pVertex hitType pClusterList
              (false, histogram) Hall) as [h' Hh'].
  simpl in Hh'. exists h'. exact Hh'.
Qed.

(** C4 (as amended): the scan of a view returns, when the list is fetched
    and every cluster is of the view, and a scan that returns gives [true]
    exactly when some hit of some cluster has a magnitude that is not above
    [m_maxHitVertexDisplacement] and is strictly below
    [m_maxOnHitDisplacement]; a hit at exactly the threshold does not set
    the flag, a later hit never clears it, and when the threshold is not
    above [m_maxHitVertexDisplacement] every hit strictly within the
    threshold counts. *)
Theorem on_hit_scan_result :
  forall (pVertex : Vertex) (hitType : HitType) (clusterListName : string)
         (histogram : Histogram),
    let v := ProjectPosition (GetPosition pVertex) hitType in
    let clusters := snd (GetList api clusterListName) in
    (fst (GetList api clusterListName) = STATUS_CODE_SUCCESS ->
     Forall (fun pCluster => GetClusterHitType pCluster = hitType) clusters ->
     exists isVertexOnHit histogram',
       FillHistogram' pVertex hitType clusterListName histogram
       = Normal (isVertexOnHit, histogram'))
    /\ (forall isVertexOnHit histogram',
           FillHistogram' pVertex hitType clusterListName histogram
           = Normal (isVertexOnHit, histogram') ->
           (isVertexOnHit = true <-> someHitSetsOnHit this v clusters))
    /\ (forall state pCaloHit,
           fst state = false ->
           hitMagnitude v pCaloHit = m_maxOnHitDisplacement this ->
           fst (hitBody' v state pCaloHit) = false)
    /\ (forall state pCaloHit,
           fst state = true -> fst (hitBody' v state pCaloHit) = true)
    /\ (SFleb (m_maxOnHitDisplacement this)
              (m_maxHitVertexDisplacement this) = true ->
        (someHitWithinOnHitThreshold this v clusters
         <-> someHitSetsOnHit this v clusters)).
Proof.
  intros pVertex hitType clusterListName histogram v clusters.
  split; [|split; [|split; [|split]]].
  - intros Hs Hall.
    destruct (FillHistogram_returns pVertex hitType clusterListName histogram
                Hs Hall) as [h' Hh'].
    eauto.
  - intros isVertexOnHit histogram' H.
    apply FillHistogram_returned in H as (_ & _ & ->).
    apply existsb_clusters_iff.
  - intros state pCaloHit Hstate Hm.
    rewrite hitBody_fst, Hstate. unfold hitSetsOnHit.
    unfold isWithinOnHitDisplacement, ltb. rewrite Hm.
    rewrite IEEE.SFltb_irrefl, andb_false_r. reflexivity.
  - intros state pCaloHit Hstate. rewrite hitBody_fst, Hstate. reflexivity.
  - intros Hle. split.
    + intros (c & layer & hit & Hc & Hl & Hh & Hlt).
      exists c, layer, hit. repeat split; try assumption.
      unfold isBeyondMaxDisplacement, gtb.
      eapply IEEE.SFltb_leb_asym; eassumption.
    + intros (c & layer & hit & Hc & Hl & Hh & _ & Hlt).
      exists c, layer, hit. repeat split; assumption.
Qed.

(** *** The figure of merit *)

Lemma binLoop_sum (histogram : Histogram) (remaining : nat) :
  forall (xBin : Z) (sumSquaredEntries : float),
    binLoop histogram remaining xBin sumSquaredEntries
    = fold_left add
        (map (fun i => square (GetBinContent histogram (xBin + Z.of_nat i)))
             (seq 0 remaining))
        sumSquaredEntries.
Proof.
  induction remaining as [|n IH]; intros xBin acc.
  - reflexivity.
  - cbn [binLoop]. rewrite IH.
    rewrite <- cons_seq, <- seq_shift, map_cons, map_map.
    cbn [fold_left]. rewrite Z.add_0_r. unfold square at 3.
    f_equal. apply map_ext. intros i. do 2 f_equal. lia.
Qed.

Lemma GetFigureOfMeritView_sum (histogram : Histogram) :
  GetFigureOfMeritView histogram = floatSum (map square (binContents histogram)).
Proof.
  unfold GetFigureOfMeritView, floatSum, binContents.
  rewrite binLoop_sum, map_map. reflexivity.
Qed.

Lemma scoreVertex_scored (pVertex : Vertex) (vertexScore : VertexScore) :
  scoreVertex' pVertex = Normal (Some vertexScore) ->
  exists hU hV hW,
    FillHistogram' pVertex TPC_VIEW_U (m_inputClusterListNameU this)
                   (newHistogram this) = Normal (true, hU)
    /\ FillHistogram' pVertex TPC_VIEW_V (m_inputClusterListNameV this)
                      (newHistogram this) = Normal (true, hV)
    /\ FillHistogram' pVertex TPC_VIEW_W (m_inputClusterListNameW this)
                      (newHistogram this) = Normal (true, hW)
    /\ vertexScore = mkVertexScore pVertex (GetFigureOfMerit hU hV hW).
Proof.
  unfold scoreVertex, bind.
  destruct (FillHistogram' pVertex TPC_VIEW_U _ _) as [[bU hU]| |];
    try discriminate.
  destruct (FillHistogram' pVertex TPC_VIEW_V _ _) as [[bV hV]| |];
    try discriminate.
  destruct (FillHistogram' pVertex TPC_VIEW_W _ _) as [[bW hW]| |];
    try discriminate.
  destruct bU, bV, bW; simpl; try discriminate.
  intros H. injection H as <-. exists hU, hV, hW. auto.
Qed.

(** C8: the combined figure of merit of a scored candidate is the sum,
    accumulated from zero in the order U, V, W and without weights, of the
    three per-view scores, and the score of a view is the sum, accumulated
    from zero in bin order, of the squared contents of all its bins. *)
Theorem figure_of_merit_is_sum_of_squares :
  (forall hU hV hW : Histogram,
      GetFigureOfMerit hU hV hW
      = floatSum [ GetFigureOfMeritView hU; GetFigureOfMeritView hV;
                   GetFigureOfMeritView hW ])
  /\ (forall h : Histogram,
         GetFigureOfMeritView h = floatSum (map square (binContents h))
         /\ length (binContents h) = Z.to_nat (GetNBinsX h))
  /\ (forall pVertex vertexScore,
         scoreVertex' pVertex = Normal (Some vertexScore) ->
         exists hU hV hW,
           FillHistogram' pVertex TPC_VIEW_U (m_inputClusterListNameU this)
                          (newHistogram this) = Normal (true, hU)
           /\ FillHistogram' pVertex TPC_VIEW_V (m_inputClusterListNameV this)
                             (newHistogram this) = Normal (true, hV)
           /\ FillHistogram' pVertex TPC_VIEW_W (m_inputClusterListNameW this)
                             (newHistogram this) = Normal (true, hW)
           /\ GetVertex vertexScore = pVertex
           /\ GetScore vertexScore
              = floatSum [ floatSum (map square (binContents hU));
                           floatSum (map square (binContents hV));
                           floatSum (map square (binContents hW)) ]).
Proof.
  split; [|split].
  - intros hU hV hW. reflexivity.
  - intros h. split.
    + apply GetFigureOfMeritView_sum.
    + unfold binContents. rewrite length_map, length_seq. reflexivity.
  - intros pVertex vertexScore H.
    apply scoreVertex_scored in H as (hU & hV & hW & HU & HV & HW & ->).
    exists hU, hV, hW. repeat (split; [assumption|]).
    split; [reflexivity|]. simpl.
    rewrite <- !GetFigureOfMeritView_sum. reflexivity.
Qed.

(** *** The two acceptance predicates *)

Lemma AcceptVertexLocation_true (pVertex : Vertex) (accepted : VertexScoreList) :
  AcceptVertexLocation this pVertex accepted = true
  <-> Forall (fun a => isTooClose this pVertex (GetVertex a) = false) accepted.
Proof.
  unfold isTooClose.
  induction accepted as [|a rest IH]; simpl.
  - split; auto.
  - destruct (ltb (displacement3D pVertex (GetVertex a)) _) eqn:E.
    + split; [discriminate|]. intros H. inversion H; congruence.
    + rewrite IH. split.
      * intros H. constructor; assumption.
      * intros H. inversion H; assumption.
Qed.

Lemma AcceptVertexLocation_false (pVertex : Vertex) (accepted : VertexScoreList) :
  AcceptVertexLocation this pVertex accepted = false
  <-> exists a, In a accepted /\ isTooClose this pVertex (GetVertex a) = true.
Proof.
  unfold isTooClose.
  induction accepted as [|a rest IH]; simpl.
  - split; [discriminate|]. intros (a & [] & _).
  - destruct (ltb (displacement3D pVertex (GetVertex a)) _) eqn:E.
    + split; [|reflexivity]. intros _. exists a. auto.
    + rewrite IH. split.
      * intros (b & Hb & H). exists b. auto.
      * intros (b & [<-|Hb] & H); [congruence|]. exists b. auto.
Qed.

Lemma AcceptVertexScore_true (score : float) (accepted : VertexScoreList) :
  AcceptVertexScore this score accepted = true
  <-> Forall (fun a => isDominated this score (GetScore a) = false) accepted.
Proof.
  unfold isDominated.
  induction accepted as [|a rest IH]; simpl.
  - split; auto.
  - destruct (ltb score _) eqn:E.
    + split; [discriminate|]. intros H. inversion H; congruence.
    + rewrite IH. split.
      * intros H. constructor; assumption.
      * intros H. inversion H; assumption.
Qed.

Lemma AcceptVertexScore_false (score : float) (accepted : VertexScoreList) :
  AcceptVertexScore this score accepted = false
  <-> exists a, In a accepted /\ isDominated this score (GetScore a) = true.
Proof.
  unfold isDominated.
  induction accepted as [|a rest IH]; simpl.
  - split; [discriminate|]. intros (a & [] & _).
  - destruct (ltb score _) eqn:E.
    + split; [|reflexivity]. intros _. exists a. auto.
    + rewrite IH. split.
      * intros (b & Hb & H). exists b. auto.
      * intros (b & [<-|Hb] & H); [congruence|]. exists b. auto.
Qed.

Lemma isTooClose_sym (p q : Vertex) : isTooClose this p q = isTooClose this q p.
Proof.
  unfold isTooClose, displacement3D.
  rewrite GetMagnitude_minus_swap. reflexivity.
Qed.

(** *** The selection walk *)

Lemma isEmpty_true {A : Type} (l : list A) : isEmpty l = true <-> l = [].
Proof. destruct l; simpl; split; congruence. Qed.

(** One pass through the loop body leaves the accepted list as it is or
    appends the entry, which then passed both predicates. *)
Lemma walkBody_selected (state : WalkState) (entry : VertexScore) :
  selectedVertexScoreList (walkBody this state entry)
  = selectedVertexScoreList state
  \/ (leftLoop state = false
      /\ selectedVertexScoreList (walkBody this state entry)
         = selectedVertexScoreList state ++ [entry]
      /\ AcceptVertexLocation this (GetVertex entry)
           (selectedVertexScoreList state) = true
      /\ AcceptVertexScore this (GetScore entry)
           (selectedVertexScoreList state) = true).
Proof.
  unfold walkBody.
  destruct (leftLoop state); [left; reflexivity|].
  destruct (_ >? _); [left; reflexivity|].
  destruct (selectedVertexScoreList state) as [|a rest] eqn:Hsel.
  - right. simpl. auto.
  - cbn [isEmpty negb andb].
    destruct (AcceptVertexLocation this (GetVertex entry) (a :: rest));
      [|left; reflexivity].
    destruct (AcceptVertexScore this (GetScore entry) (a :: rest));
      [|left; reflexivity].
    right. simpl. auto.
Qed.

Lemma walkBody_left (state : WalkState) (entry : VertexScore) :
  leftLoop state = true -> walkBody this state entry = state.
Proof. unfold walkBody. intros ->. reflexivity. Qed.

Lemma walk_left (entries : VertexScoreList) (state : WalkState) :
  leftLoop state = true -> fold_left (walkBody this) entries state = state.
Proof.
  induction entries as [|e rest IH]; intros H; simpl; [reflexivity|].
  rewrite walkBody_left by assumption. auto.
Qed.

Lemma walk_app (processed remaining : VertexScoreList) :
  walk this (processed ++ remaining)
  = fold_left (walkBody this) remaining (walk this processed).
Proof. unfold walk. apply fold_left_app. Qed.

(** The accepted list only grows, by entries of the list walked. *)
Lemma walk_extends (entries : VertexScoreList) :
  forall state,
  exists more,
    selectedVertexScoreList (fold_left (walkBody this) entries state)
    = selectedVertexScoreList state ++ more
    /\ incl more entries
    /\ (length more <= length entries)%nat.
Proof.
  induction entries as [|e rest IH]; intros state; simpl.
  - exists []. rewrite app_nil_r. repeat split; auto using incl_refl.
  - destruct (IH (walkBody this state e)) as (more & Hmore & Hincl & Hlen).
    rewrite Hmore.
    destruct (walkBody_selected state e) as [-> | (_ & -> & _)].
    + exists more. repeat split; auto using incl_tl.
    + exists (e :: more). rewrite <- app_assoc. simpl.
      repeat split; [|lia].
      intros x [<-|Hx]; [left; reflexivity|right; auto].
Qed.

Lemma selectVertices_incl (entries : VertexScoreList) :
  incl (selectVertices this entries) entries.
Proof.
  unfold selectVertices, walk.
  destruct (walk_extends entries walkStart) as (more & -> & Hincl & _).
  exact Hincl.
Qed.

(** *** Pairs of accepted entries *)

Lemma ForallOrdPairs_snoc {A : Type} (R : A -> A -> Prop) (l : list A) (x : A) :
  ForallOrdPairs R l -> Forall (fun a => R a x) l ->
  ForallOrdPairs R (l ++ [x]).
Proof.
  induction 1 as [|a l Ha Hl IH]; intros Hx; simpl.
  - repeat constructor.
  - inversion Hx; subst. constructor; [|auto].
    apply Forall_app. split; [assumption|]. repeat constructor. assumption.
Qed.

Lemma ForallOrdPairs_nth {A : Type} (R : A -> A -> Prop) (l : list A) :
  ForallOrdPairs R l ->
  forall i j a b,
    (i < j)%nat -> nth_error l i = Some a -> nth_error l j = Some b -> R a b.
Proof.
  induction 1 as [|x l Hx Hl IH]; intros i j a b Hij Hi Hj.
  - destruct i; discriminate.
  - destruct j as [|j]; [lia|]. simpl in Hj.
    destruct i as [|i]; simpl in Hi.
    + injection Hi as <-.
      rewrite Forall_forall in Hx. apply Hx.
      eapply nth_error_In; eassumption.
    + apply (IH i j); auto. lia.
Qed.

(** An invariant of the accepted list that appending a doubly accepted
    entry keeps is an invariant of the walk. *)
Lemma walk_pairs (R : VertexScore -> VertexScore -> Prop) :
  (forall entry accepted,
      AcceptVertexLocation this (GetVertex entry) accepted = true ->
      AcceptVertexScore this (GetScore entry) accepted = true ->
      Forall (fun a => R a entry) accepted) ->
  forall entries,
    ForallOrdPairs R (selectedVertexScoreList (walk this entries)).
Proof.
  intros Hkeep entries. unfold walk.
  apply fold_left_invariant
    with (P := fun state => ForallOrdPairs R (selectedVertexScoreList state)).
  - intros state entry Hstate.
    destruct (walkBody_selected state entry) as [-> | (_ & -> & Hloc & Hscore)].
    + exact Hstate.
    + apply ForallOrdPairs_snoc; auto.
  - constructor.
Qed.

(** C5: at each point of the walk, and so at its end, two accepted entries
    at different places are never at a 3D distance strictly below
    [m_minCandidateDisplacement]; the location predicate rejects exactly
    the candidates strictly closer than that to some accepted vertex, a
    candidate at the threshold or further from every accepted vertex passes
    it, and the walk does not accept a candidate that fails it. *)
Theorem accepted_vertices_are_separated :
  forall (entries : VertexScoreList) (processed : nat),
    let selected :=
      selectedVertexScoreList (walk this (firstn processed entries)) in
    (forall i j a b,
        i <> j ->
        nth_error selected i = Some a -> nth_error selected j = Some b ->
        isTooClose this (GetVertex a) (GetVertex b) = false)
    /\ (forall pVertex accepted,
           AcceptVertexLocation this pVertex accepted = false
           <-> exists a, In a accepted
                         /\ isTooClose this pVertex (GetVertex a) = true)
    /\ (forall pVertex accepted,
           (forall a, In a accepted ->
                      displacement3D pVertex (GetVertex a)
                      = m_minCandidateDisplacement this
                      \/ SFleb (m_minCandidateDisplacement this)
                               (displacement3D pVertex (GetVertex a)) = true) ->
           AcceptVertexLocation this pVertex accepted = true)
    /\ (forall state entry,
           (exists a, In a (selectedVertexScoreList state)
                      /\ isTooClose this (GetVertex entry) (GetVertex a) = true) ->
           selectedVertexScoreList (walkBody this state entry)
           = selectedVertexScoreList state).
Proof.
  intros entries processed selected.
  split; [|split; [|split]].
  - assert (Hpairs : ForallOrdPairs
              (fun a b => isTooClose this (GetVertex b) (GetVertex a) = false)
              selected).
    { apply walk_pairs. intros entry accepted Hloc _.
      apply AcceptVertexLocation_true, Hloc. }
    intros i j a b Hij Hi Hj.
    destruct (Nat.lt_total i j) as [Hlt|[Heq|Hgt]]; [| contradiction |].
    + rewrite isTooClose_sym.
      exact (ForallOrdPairs_nth _ _ Hpairs i j a b Hlt Hi Hj).
    + exact (ForallOrdPairs_nth _ _ Hpairs j i b a Hgt Hj Hi).
  - apply AcceptVertexLocation_false.
  - intros pVertex accepted Hfar.
    apply AcceptVertexLocation_true, Forall_forall.
    intros a Ha. unfold isTooClose, ltb.
    destruct (Hfar a Ha) as [->|Hle].
    + apply IEEE.SFltb_irrefl.
    + apply IEEE.SFleb_ltb, Hle.
  - intros state entry Hclose.
    apply AcceptVertexLocation_false in Hclose.
    destruct (walkBody_selected state entry) as [H | (_ & _ & Hloc & _)];
      [exact H | congruence].
Qed.

(** C6: the score predicate rejects exactly the scores strictly below
    [m_minCandidateScoreFraction] times the score of some accepted entry, a
    score equal to (or not below) that product for every accepted entry
    passes it, the walk does not accept a candidate that fails it, and at
    each point of the walk no accepted entry has a score strictly below the
    fraction of the score of an entry accepted before it. *)
Theorem accepted_scores_are_not_dominated :
  forall (entries : VertexScoreList) (processed : nat),
    let selected :=
      selectedVertexScoreList (walk this (firstn processed entries)) in
    (forall score accepted,
        AcceptVertexScore this score accepted = false
        <-> exists a, In a accepted
                      /\ isDominated this score (GetScore a) = true)
    /\ (forall score accepted,
           (forall a, In a accepted ->
                      score = mul (m_minCandidateScoreFraction this) (GetScore a)
                      \/ SFleb (mul (m_minCandidateScoreFraction this)
                                    (GetScore a)) score = true) ->
           AcceptVertexScore this score accepted = true)
    /\ (forall state entry,
           (exists a, In a (selectedVertexScoreList state)
                      /\ isDominated this (GetScore entry) (GetScore a) = true) ->
           selectedVertexScoreList (walkBody this state entry)
           = selectedVertexScoreList state)
    /\ (forall i j a b,
           (i < j)%nat ->
           nth_error selected i = Some a -> nth_error selected j = Some b ->
           isDominated this (GetScore b) (GetScore a) = false).
Proof.
  intros entries processed selected.
  split; [|split; [|split]].
  - apply AcceptVertexScore_false.
  - intros score accepted Hnear.
    apply AcceptVertexScore_true, Forall_forall.
    intros a Ha. unfold isDominated, ltb.
    destruct (Hnear a Ha) as [->|Hle].
    + apply IEEE.SFltb_irrefl.
    + apply IEEE.SFleb_ltb, Hle.
  - intros state entry Hlow.
    apply AcceptVertexScore_false in Hlow.
    destruct (walkBody_selected state entry) as [H | (_ & _ & _ & Hscore)];
      [exact H | congruence].
  - apply ForallOrdPairs_nth.
    apply walk_pairs with
      (R := fun a b => isDominated this (GetScore b) (GetScore a) = false).
    intros entry accepted _ Hscore.
    apply AcceptVertexScore_true, Hscore.
Qed.

(** *** The depth of the walk *)

Lemma UINT_MODULUS_value : UINT_MODULUS = 4294967296.
Proof. reflexivity. Qed.

Lemma walkBody_counts (state : WalkState) (entry : VertexScore) :
  leftLoop state = false ->
  0 <= nVerticesConsidered state ->
  nVerticesConsidered state + 1 <= m_maxTopScoreCandidates this ->
  m_maxTopScoreCandidates this < UINT_MODULUS ->
  leftLoop (walkBody this state entry) = false
  /\ nVerticesConsidered (walkBody this state entry)
     = nVerticesConsidered state + 1.
Proof.
  intros Hleft Hn Hdepth Hmax. unfold walkBody. rewrite Hleft.
  rewrite Z.mod_small by lia.
  destruct (Z.gtb_spec (nVerticesConsidered state + 1)
                       (m_maxTopScoreCandidates this)); [lia|].
  destruct (_ && _); [split; reflexivity|].
  destruct (_ && _); split; reflexivity.
Qed.

Lemma walkBody_breaks (state : WalkState) (entry : VertexScore) :
  leftLoop state = false ->
  nVerticesConsidered state = m_maxTopScoreCandidates this ->
  0 <= m_maxTopScoreCandidates this < UINT_MODULUS - 1 ->
  walkBody this state entry
  = mkWalkState (m_maxTopScoreCandidates this + 1)
                (selectedVertexScoreList state) true.
Proof.
  intros Hleft Hn Hmax. unfold walkBody. rewrite Hleft, Hn.
  rewrite Z.mod_small by lia.
  destruct (Z.gtb_spec (m_maxTopScoreCandidates this + 1)
                       (m_maxTopScoreCandidates this)); [reflexivity|lia].
Qed.

Lemma walk_within_depth (entries : VertexScoreList) :
  forall state,
    leftLoop state = false ->
    0 <= nVerticesConsidered state ->
    nVerticesConsidered state + Z.of_nat (length entries)
      <= m_maxTopScoreCandidates this ->
    m_maxTopScoreCandidates this < UINT_MODULUS ->
    leftLoop (fold_left (walkBody this) entries state) = false
    /\ nVerticesConsidered (fold_left (walkBody this) entries state)
       = nVerticesConsidered state + Z.of_nat (length entries).
Proof.
  induction entries as [|e rest IH]; intros state Hleft Hn Hdepth Hmax.
  - simpl. split; [assumption|lia].
  - cbn [fold_left]. cbn [length] in Hdepth.
    destruct (walkBody_counts state e Hleft Hn) as [Hleft' Hn'];
      [lia|assumption|].
    destruct (IH (walkBody this state e)) as [Hl Hc];
      [assumption|lia|lia|assumption|].
    split; [assumption|].
    rewrite Hc, Hn'. cbn [length]. lia.
Qed.

Lemma walk_stops_at_depth (entries : VertexScoreList) :
  0 <= m_maxTopScoreCandidates this < UINT_MODULUS ->
  m_maxTopScoreCandidates this < UINT_MODULUS - 1
  \/ Z.of_nat (length entries) < UINT_MODULUS ->
  selectVertices this entries
  = selectVertices this
      (firstn (Z.to_nat (m_maxTopScoreCandidates this)) entries).
Proof.
  intros Hrange Hwrap.
  set (depth := Z.to_nat (m_maxTopScoreCandidates this)).
  unfold selectVertices.
  rewrite <- (firstn_skipn depth entries) at 1.
  rewrite walk_app.
  destruct (skipn depth entries) as [|e rest] eqn:Hskip; [reflexivity|].
  assert (Hlong : (depth < length entries)%nat).
  { destruct (Nat.lt_ge_cases depth (length entries)) as [H|H]; [exact H|].
    rewrite skipn_all2 in Hskip by exact H. discriminate. }
  assert (Hfirst : length (firstn depth entries) = depth).
  { apply firstn_length_le. lia. }
  destruct (walk_within_depth (firstn depth entries) walkStart)
    as [Hleft Hn]; simpl; try reflexivity; try lia.
  cbn [fold_left].
  rewrite walkBody_breaks.
  - rewrite walk_left by reflexivity. reflexivity.
  - exact Hleft.
  - unfold walk. rewrite Hn, Hfirst. simpl. unfold depth. lia.
  - unfold depth in Hlong. lia.
Qed.

(** C7: the walk over the sorted score list stops after
    [m_maxTopScoreCandidates] entries (the counter being an [unsigned int],
    for every list when the depth is below [UINT_MAX], and for lists of
    fewer than 2^32 entries when it is [UINT_MAX]): the accepted list is
    that of the first [m_maxTopScoreCandidates] entries alone, each of its
    members is one of them, and it has at most that many members. *)
Theorem walk_depth_limit :
  forall scored : VertexScoreList,
    let vertexScoreList := std_sort scored in
    let depth := Z.to_nat (m_maxTopScoreCandidates this) in
    0 <= m_maxTopScoreCandidates this < UINT_MODULUS ->
    m_maxTopScoreCandidates this < UINT_MODULUS - 1
    \/ Z.of_nat (length vertexScoreList) < UINT_MODULUS ->
    selectVertices this vertexScoreList
    = selectVertices this (firstn depth vertexScoreList)
    /\ (forall entry,
           In entry (selectVertices this vertexScoreList) ->
           In entry (firstn depth vertexScoreList))
    /\ Z.of_nat (length (selectVertices this vertexScoreList))
       <= m_maxTopScoreCandidates this.
Proof.
  intros scored vertexScoreList depth Hrange Hwrap.
  pose proof (walk_stops_at_depth vertexScoreList Hrange Hwrap) as Hstop.
  fold depth in Hstop.
  split; [exact Hstop|]. rewrite Hstop. split.
  - apply selectVertices_incl.
  - unfold selectVertices, walk.
    destruct (walk_extends (firstn depth vertexScoreList) walkStart)
      as (more & -> & _ & Hlen).
    simpl. pose proof (firstn_le_length depth vertexScoreList).
    unfold depth in *. lia.
Qed.

(** *** The head of the sorted list *)

Lemma walkBody_first (best : VertexScore) :
  1 <= m_maxTopScoreCandidates this ->
  walkBody this walkStart best = mkWalkState 1 [best] false.
Proof.
  intros Hdepth. unfold walkBody, walkStart. cbn [leftLoop nVerticesConsidered].
  change ((0 + 1) mod UINT_MODULUS) with 1.
  destruct (Z.gtb_spec 1 (m_maxTopScoreCandidates this)); [lia|].
  reflexivity.
Qed.

Lemma selectVertices_head (best : VertexScore) (rest : VertexScoreList) :
  1 <= m_maxTopScoreCandidates this ->
  exists more,
    selectVertices this (best :: rest) = best :: more /\ incl more rest.
Proof.
  intros Hdepth. unfold selectVertices, walk. cbn [fold_left].
  rewrite walkBody_first by assumption.
  destruct (walk_extends rest (mkWalkState 1 [best] false))
    as (more & -> & Hincl & _).
  exists more. split; [reflexivity|assumption].
Qed.

Lemma selectVertices_no_depth (entries : VertexScoreList) :
  m_maxTopScoreCandidates this < 1 -> selectVertices this entries = [].
Proof.
  intros Hdepth. unfold selectVertices, walk.
  destruct entries as [|e rest]; [reflexivity|]. cbn [fold_left].
  assert (Hbreak : walkBody this walkStart e = mkWalkState 1 [] true).
  { unfold walkBody, walkStart. cbn [leftLoop nVerticesConsidered].
    change ((0 + 1) mod UINT_MODULUS) with 1.
    destruct (Z.gtb_spec 1 (m_maxTopScoreCandidates this)); [reflexivity|lia]. }
  rewrite Hbreak, walk_left by reflexivity. reflexivity.
Qed.

Lemma VertexScore_lt_irrefl (entry : VertexScore) :
  VertexScore_lt entry entry = false.
Proof. unfold VertexScore_lt, gtb. apply IEEE.SFltb_irrefl. Qed.

(** Nothing in a sorted list precedes its head. *)
Lemma sorted_head_first (best : VertexScore) (rest : VertexScoreList) :
  StronglySorted notBefore (best :: rest) ->
  forall entry, In entry (best :: rest) -> VertexScore_lt entry best = false.
Proof.
  intros Hsorted entry [<-|Hin].
  - apply VertexScore_lt_irrefl.
  - apply StronglySorted_inv in Hsorted as [_ Hall].
    rewrite Forall_forall in Hall. exact (Hall entry Hin).
Qed.

Lemma bestOfAccepted_In (selected : VertexScoreList) (entry : VertexScore) :
  bestOfAccepted selected = Some entry -> In entry selected.
Proof.
  revert entry. induction selected as [|x rest IH]; intros entry; simpl.
  - discriminate.
  - destruct (bestOfAccepted rest) as [later|].
    + destruct (VertexScore_lt later x); intros H; injection H as <-; auto.
    + intros H; injection H as <-; auto.
Qed.

Lemma bestOfAccepted_head (best : VertexScore) (more : VertexScoreList) :
  (forall entry, In entry more -> VertexScore_lt entry best = false) ->
  bestOfAccepted (best :: more) = Some best.
Proof.
  intros Hbest. simpl.
  destruct (bestOfAccepted more) as [later|] eqn:E; [|reflexivity].
  rewrite (Hbest later (bestOfAccepted_In _ _ E)). reflexivity.
Qed.

(** *** What a run writes *)

Lemma saveSelection_nothing (vertexScoreList : VertexScoreList) :
  saveSelection api this vertexScoreList [] = (Normal STATUS_CODE_SUCCESS, []).
Proof. reflexivity. Qed.

Lemma saveSelection_best (best entry : VertexScore)
    (rest selected : VertexScoreList) :
  savedLists (snd (saveSelection api this (best :: rest) (entry :: selected)))
  = [[GetVertex best]].
Proof.
  unfold saveSelection. cbn [isEmpty negb].
  destruct (StatusCode_eq_dec _ (SaveList api _ _)); [|reflexivity].
  destruct (m_replaceCurrentVertexList this); [|reflexivity].
  destruct (StatusCode_eq_dec _ (ReplaceCurrentList api _)); reflexivity.
Qed.

Lemma saveSelection_at_most_one (vertexScoreList selected : VertexScoreList) :
  (length (List.concat
             (savedLists (snd (saveSelection api this vertexScoreList selected))))
   <= 1)%nat.
Proof.
  destruct selected as [|entry selected]; [simpl; lia|].
  destruct vertexScoreList as [|best rest]; [simpl; lia|].
  rewrite saveSelection_best. simpl. lia.
Qed.

Lemma Run_failed_input :
  fst (GetCurrentList api) <> STATUS_CODE_SUCCESS ->
  Run' = (Normal (fst (GetCurrentList api)), []).
Proof.
  unfold Run. destruct (GetCurrentList api) as [statusCode vertices].
  simpl. intros Hs.
  destruct (StatusCode_eq_dec STATUS_CODE_SUCCESS statusCode);
    [congruence|reflexivity].
Qed.

Lemma Run_scored (vertices : VertexList) (scored : VertexScoreList) :
  GetCurrentList api = (STATUS_CODE_SUCCESS, vertices) ->
  scoreLoop' vertices [] = Normal scored ->
  Run' = saveSelection api this (std_sort scored)
                       (selectVertices this (std_sort scored)).
Proof.
  unfold Run. intros -> ->.
  destruct (StatusCode_eq_dec STATUS_CODE_SUCCESS STATUS_CODE_SUCCESS);
    [reflexivity|congruence].
Qed.

Lemma Run_thrown (vertices : VertexList) (s : StatusCode) :
  GetCurrentList api = (STATUS_CODE_SUCCESS, vertices) ->
  scoreLoop' vertices [] = StatusCodeException s ->
  Run' = (StatusCodeException s, []).
Proof.
  unfold Run. intros -> ->.
  destruct (StatusCode_eq_dec STATUS_CODE_SUCCESS STATUS_CODE_SUCCESS);
    [reflexivity|congruence].
Qed.

(** A run that wrote something fetched the vertex list, scored it, and
    accepted at least one entry of the sorted scores. *)
Lemma Run_wrote :
  snd Run' <> [] ->
  exists vertices scored,
    GetCurrentList api = (STATUS_CODE_SUCCESS, vertices)
    /\ scoreLoop' vertices [] = Normal scored
    /\ selectVertices this (std_sort scored) <> []
    /\ Run' = saveSelection api this (std_sort scored)
                            (selectVertices this (std_sort scored)).
Proof.
  unfold Run. destruct (GetCurrentList api) as [statusCode vertices].
  destruct (StatusCode_eq_dec STATUS_CODE_SUCCESS statusCode) as [<-|Hs];
    [|simpl; congruence].
  destruct (scoreLoop' vertices []) as [scored| |] eqn:Hscored;
    try (simpl; congruence).
  intros Hwrote. exists vertices, scored.
  split; [reflexivity|]. split; [exact Hscored|]. split; [|reflexivity].
  intros Hnone. rewrite Hnone, saveSelection_nothing in Hwrote.
  simpl in Hwrote. congruence.
Qed.

Lemma Run_at_most_one : (length outputVertexList' <= 1)%nat.
Proof.
  unfold outputVertexList, Run.
  destruct (GetCurrentList api) as [statusCode vertices].
  destruct (StatusCode_eq_dec STATUS_CODE_SUCCESS statusCode);
    [|simpl; lia].
  destruct (scoreLoop' vertices []); try (simpl; lia).
  apply saveSelection_at_most_one.
Qed.

(** C10: when [m_maxTopScoreCandidates] is at least 1 the head of the
    sorted list is the first entry accepted, whatever the predicates say, so
    the vertex handed over is that of a member of the accepted list; with
    [std::sort] doing what is asked of it, the accepted list is non-empty
    exactly when some candidate was scored, no accepted entry precedes the
    head under [operator<], and handing over the global best gives the same
    list as handing over the best accepted entry, at every depth; when
    [m_maxTopScoreCandidates] is 0 nothing is accepted and the run writes
    nothing. *)
Theorem global_best_is_best_of_accepted :
  forall scored : VertexScoreList,
    let vertexScoreList := std_sort scored in
    let selected := selectVertices this vertexScoreList in
    let handedOver :=
      List.concat
        (savedLists (snd (saveSelection api this vertexScoreList selected))) in
    (1 <= m_maxTopScoreCandidates this ->
     forall best rest,
       vertexScoreList = best :: rest ->
       walkBody this walkStart best = mkWalkState 1 [best] false
       /\ (exists more, selected = best :: more)
       /\ In best selected
       /\ handedOver = [GetVertex best])
    /\ (m_maxTopScoreCandidates this = 0 -> selected = [] /\ snd Run' = [])
    /\ (sortsByOperatorLt std_sort ->
        scoresAreNumbers scored ->
        (1 <= m_maxTopScoreCandidates this ->
         (selected <> [] <-> scored <> [])
         /\ (forall best rest,
                vertexScoreList = best :: rest ->
                (forall entry, In entry selected ->
                               VertexScore_lt entry best = false)
                /\ bestOfAccepted selected = Some best))
        /\ handedOver = bestOfAcceptedRule selected).
Proof.
  intros scored vertexScoreList selected handedOver.
  assert (Hhead : 1 <= m_maxTopScoreCandidates this ->
                  forall best rest,
                    vertexScoreList = best :: rest ->
                    exists more,
                      selected = best :: more /\ incl more rest
                      /\ handedOver = [GetVertex best]).
  { intros Hdepth best rest Heq.
    destruct (selectVertices_head best rest Hdepth) as (more & Hmore & Hincl).
    assert (Hsel : selected = best :: more).
    { unfold selected. rewrite Heq. exact Hmore. }
    exists more. split; [exact Hsel|]. split; [exact Hincl|].
    unfold handedOver. rewrite Hsel, Heq, saveSelection_best. reflexivity. }
  assert (Hnone : m_maxTopScoreCandidates this < 1 ->
                  forall entries, selectVertices this entries = []).
  { intros Hdepth entries. apply selectVertices_no_depth, Hdepth. }
  split; [|split].
  - intros Hdepth best rest Heq.
    destruct (Hhead Hdepth best rest Heq) as (more & Hsel & _ & Hout).
    split; [apply walkBody_first, Hdepth|].
    split; [exists more; exact Hsel|].
    split; [rewrite Hsel; left; reflexivity|exact Hout].
  - intros Hzero. split; [apply Hnone; lia|].
    unfold Run. destruct (GetCurrentList api) as [statusCode vertices].
    destruct (StatusCode_eq_dec STATUS_CODE_SUCCESS statusCode);
      [|reflexivity].
    destruct (scoreLoop' vertices []); try reflexivity.
    rewrite Hnone by lia. reflexivity.
  - intros Hsort Hnumbers.
    destruct (Hsort scored Hnumbers) as [Hperm Hsorted].
    fold vertexScoreList in Hperm, Hsorted.
    assert (Hbest : 1 <= m_maxTopScoreCandidates this ->
                    forall best rest,
                      vertexScoreList = best :: rest ->
                      (forall entry, In entry selected ->
                                     VertexScore_lt entry best = false)
                      /\ bestOfAccepted selected = Some best).
    { intros Hdepth best rest Heq.
      destruct (Hhead Hdepth best rest Heq) as (more & Hsel & Hincl & _).
      assert (Hfirst : forall entry, In entry selected ->
                                     VertexScore_lt entry best = false).
      { intros entry Hin. rewrite Heq in Hsorted.
        apply (sorted_head_first best rest Hsorted).
        rewrite Hsel in Hin. destruct Hin as [<-|Hin]; [left; reflexivity|].
        right. apply Hincl, Hin. }
      split; [exact Hfirst|].
      rewrite Hsel. apply bestOfAccepted_head.
      intros entry Hin. apply Hfirst. rewrite Hsel. right. exact Hin. }
    split.
    + intros Hdepth. split; [|exact (Hbest Hdepth)].
      split.
      * intros Hsel Hscored. apply Hsel. unfold selected.
        rewrite Hscored in Hperm. apply Permutation_nil in Hperm.
        unfold vertexScoreList in *. rewrite Hperm. reflexivity.
      * intros Hscored Hsel.
        destruct vertexScoreList as [|best rest] eqn:Heq.
        -- apply Permutation_sym, Permutation_nil in Hperm. contradiction.
        -- destruct (Hhead Hdepth best rest eq_refl) as (more & Hmore & _).
           congruence.
    + destruct (Z_lt_le_dec (m_maxTopScoreCandidates this) 1) as [Hzero|Hpos].
      * unfold handedOver, selected. rewrite Hnone by exact Hzero. reflexivity.
      * destruct vertexScoreList as [|best rest] eqn:Heq.
        -- reflexivity.
        -- destruct (Hhead Hpos best rest eq_refl) as (more & _ & _ & ->).
           destruct (Hbest Hpos best rest eq_refl) as [_ Hb].
           unfold bestOfAcceptedRule. rewrite Hb. reflexivity.
Qed.

(** *** The scored candidates *)

Lemma scoreVertex_onHit (pVertex : Vertex) (vertexScore : VertexScore) :
  scoreVertex' pVertex = Normal (Some vertexScore) ->
  GetVertex vertexScore = pVertex
  /\ onHitInEveryView atan2 pow ProjectPosition api this pVertex.
Proof.
  intros H.
  apply scoreVertex_scored in H as (hU & hV & hW & HU & HV & HW & ->).
  split; [reflexivity|].
  intros view name [Hin|[Hin|[Hin|[]]]]; injection Hin as <- <-; eauto.
Qed.

Lemma scoreLoop_scored (vertices : VertexList) :
  forall vertexScoreList scored,
    scoreLoop' vertices vertexScoreList = Normal scored ->
    forall entry,
      In entry scored ->
      In entry vertexScoreList
      \/ (In (GetVertex entry) vertices
          /\ scoreVertex' (GetVertex entry) = Normal (Some entry)).
Proof.
  induction vertices as [|pVertex rest IH]; intros acc scored; simpl.
  - intros H. injection H as <-. auto.
  - unfold bind at 1.
    destruct (scoreVertex' pVertex) as [[vertexScore|]| |] eqn:Hscore;
      try discriminate.
    + intros H entry Hin.
      destruct (IH _ _ H entry Hin) as [Hacc|[Hrest Hentry]].
      * apply in_app_or in Hacc as [Hacc|[<-|[]]]; [left; exact Hacc|].
        right. destruct (scoreVertex_onHit _ _ Hscore) as [Hv _].
        rewrite Hv. auto.
      * right. auto.
    + intros H entry Hin.
      destruct (IH _ _ H entry Hin) as [Hacc|[Hrest Hentry]]; auto.
Qed.

Lemma scored_onHit (vertices : VertexList) (scored : VertexScoreList) :
  scoreLoop' vertices [] = Normal scored ->
  forall entry,
    In entry scored ->
    In (GetVertex entry) vertices
    /\ onHitInEveryView atan2 pow ProjectPosition api this (GetVertex entry).
Proof.
  intros H entry Hin.
  destruct (scoreLoop_scored _ _ _ H entry Hin) as [[]|[Hv Hentry]].
  split; [exact Hv|].
  apply (scoreVertex_onHit _ _ Hentry).
Qed.

(** [vertexScoreList.at(0)] never throws: an accepted entry is an entry of
    the sorted list, and the scan of a view throws status codes only. *)
Lemma scoreLoop_not_out_of_range (vertices : VertexList) :
  forall vertexScoreList, scoreLoop' vertices vertexScoreList <> StdOutOfRange.
Proof.
  induction vertices as [|pVertex rest IH]; intros acc; simpl.
  - discriminate.
  - unfold bind at 1. unfold scoreVertex, bind, FillHistogram.
    repeat match goal with
    | |- context [GetList api ?name] =>
        destruct (GetList api name) as [? ?]
    | |- context [StatusCode_eq_dec ?a ?b] =>
        destruct (StatusCode_eq_dec a b); try discriminate
    | |- context [clusterLoop' ?v ?t ?l ?st] =>
        let E := fresh "E" in
        destruct (clusterLoop' v t l st) as [[? ?]| |] eqn:E;
        try discriminate;
        try (apply clusterLoop_outcome in E; contradiction)
    end.
    simpl. destruct (_ || _); apply IH.
Qed.

Lemma Run_not_out_of_range : fst Run' <> StdOutOfRange.
Proof.
  unfold Run. destruct (GetCurrentList api) as [statusCode vertices].
  destruct (StatusCode_eq_dec STATUS_CODE_SUCCESS statusCode);
    [|simpl; discriminate].
  destruct (scoreLoop' vertices []) as [scored| |] eqn:Hscored;
    try (simpl; discriminate).
  - unfold saveSelection.
    destruct (selectVertices this (std_sort scored)) as [|entry more] eqn:Esel;
      [simpl; discriminate|].
    destruct (std_sort scored) as [|best rest].
    + pose proof (selectVertices_incl []) as Hincl.
      rewrite Esel in Hincl. destruct (Hincl entry (or_introl eq_refl)).
    + cbn [isEmpty negb].
      destruct (StatusCode_eq_dec _ (SaveList api _ _)); [|simpl; discriminate].
      destruct (m_replaceCurrentVertexList this); [|simpl; discriminate].
      destruct (StatusCode_eq_dec _ (ReplaceCurrentList api _));
        simpl; discriminate.
  - exfalso. exact (scoreLoop_not_out_of_range vertices [] Hscored).
Qed.

Lemma Run_saves_at_most_once : (length (savedLists (snd Run')) <= 1)%nat.
Proof.
  unfold Run. destruct (GetCurrentList api) as [statusCode vertices].
  destruct (StatusCode_eq_dec STATUS_CODE_SUCCESS statusCode);
    [|simpl; lia].
  destruct (scoreLoop' vertices []) as [scored| |]; try (simpl; lia).
  destruct (selectVertices this (std_sort scored)) as [|entry more];
    [simpl; lia|].
  destruct (std_sort scored) as [|best rest]; [simpl; lia|].
  rewrite saveSelection_best. simpl. lia.
Qed.

(** C1: the output vertex list of every run has at most one vertex and a
    run calls [SaveList] at most once; when the accepted list is non-empty
    the list saved is the singleton of the vertex of the first entry of the
    sorted score list, whichever entries were accepted, and with [std::sort]
    doing what is asked of it no scored candidate precedes that entry under
    [operator<]; when the accepted list is empty nothing is written. *)
Theorem output_is_the_top_scored_candidate :
  (length outputVertexList' <= 1)%nat
  /\ (length (savedLists (snd Run')) <= 1)%nat
  /\ (forall (vertices : VertexList) (scored : VertexScoreList),
         GetCurrentList api = (STATUS_CODE_SUCCESS, vertices) ->
         scoreLoop' vertices [] = Normal scored ->
         (selectVertices this (std_sort scored) = [] -> snd Run' = [])
         /\ (selectVertices this (std_sort scored) <> [] ->
             exists best rest,
               std_sort scored = best :: rest
               /\ savedLists (snd Run') = [[GetVertex best]]
               /\ outputVertexList' = [GetVertex best]
               /\ (sortsByOperatorLt std_sort ->
                   scoresAreNumbers scored ->
                   In best scored
                   /\ (forall candidate,
                          In candidate scored ->
                          VertexScore_lt candidate best = false)))).
Proof.
  split; [apply Run_at_most_one|].
  split; [apply Run_saves_at_most_once|].
  intros vertices scored Hlist Hscored.
  pose proof (Run_scored vertices scored Hlist Hscored) as HRun.
  split.
  - intros Hnone. rewrite HRun, Hnone, saveSelection_nothing. reflexivity.
  - intros Hsel.
    destruct (selectVertices this (std_sort scored)) as [|entry more] eqn:Esel;
      [congruence|].
    destruct (std_sort scored) as [|best rest] eqn:Esort.
    + pose proof (selectVertices_incl []) as Hincl.
      rewrite Esel in Hincl. destruct (Hincl entry (or_introl eq_refl)).
    + assert (Hsave : savedLists (snd Run') = [[GetVertex best]]).
      { rewrite HRun. apply saveSelection_best. }
      exists best, rest. split; [reflexivity|]. split; [exact Hsave|].
      split; [unfold outputVertexList; rewrite Hsave; reflexivity|].
      intros Hsort Hnumbers.
      destruct (Hsort scored Hnumbers) as [Hperm Hsorted].
      rewrite Esort in Hperm, Hsorted. split.
      * apply (Permutation_in _ (Permutation_sym Hperm)). left. reflexivity.
      * intros candidate Hin.
        apply (sorted_head_first best rest Hsorted).
        apply (Permutation_in _ Hperm), Hin.
Qed.

(** C3: only vertices of the input list that registered as on a hit in
    each of the views U, V and W are scored, so a candidate that is not on a
    hit in every view is dropped before ranking, whatever its histograms
    hold; with [std::sort] doing what is asked of it, every vertex of the
    output list is such a vertex, a candidate that is not on a hit in every
    view is not in the output list, and an empty input list gives an empty
    output list. *)
Theorem output_vertex_is_on_hit_in_every_view :
  forall (vertices : VertexList) (scored : VertexScoreList),
    snd (GetCurrentList api) = vertices ->
    scoreLoop' vertices [] = Normal scored ->
    (forall entry,
        In entry scored ->
        In (GetVertex entry) vertices
        /\ onHitInEveryView atan2 pow ProjectPosition api this
                            (GetVertex entry))
    /\ (forall pVertex,
           ~ onHitInEveryView atan2 pow ProjectPosition api this pVertex ->
           ~ In pVertex (map GetVertex scored))
    /\ (sortsByOperatorLt std_sort ->
        scoresAreNumbers scored ->
        (forall pVertex,
            In pVertex outputVertexList' ->
            In pVertex vertices
            /\ onHitInEveryView atan2 pow ProjectPosition api this pVertex)
        /\ (forall pVertex,
               ~ onHitInEveryView atan2 pow ProjectPosition api this pVertex ->
               ~ In pVertex outputVertexList')
        /\ (vertices = [] -> outputVertexList' = [])).
Proof.
  intros vertices scored Hlist Hscored.
  split; [apply (scored_onHit vertices scored Hscored)|].
  split.
  { intros pVertex Hoff Hin. apply in_map_iff in Hin as (entry & <- & Hentry).
    apply Hoff, (scored_onHit vertices scored Hscored entry Hentry). }
  intros Hsort Hnumbers.
  destruct (Hsort scored Hnumbers) as [Hperm Hsorted].
  assert (Hout : forall pVertex,
             In pVertex outputVertexList' ->
             exists entry, In entry scored /\ GetVertex entry = pVertex).
  { intros pVertex Hin. unfold outputVertexList in Hin.
    destruct (snd Run') as [|w ws] eqn:Hwrites; [destruct Hin|].
    destruct Run_wrote as (vertices' & scored' & Hlist' & Hscored' & Hsel & HRun);
      [congruence|].
    rewrite Hlist' in Hlist. simpl in Hlist. subst vertices'.
    assert (scored' = scored) by congruence. subst scored'.
    rewrite <- Hwrites, HRun in Hin.
    destruct (selectVertices this (std_sort scored)) as [|entry more] eqn:Esel;
      [congruence|].
    destruct (std_sort scored) as [|best rest] eqn:Esort.
    - pose proof (selectVertices_incl []) as Hincl.
      rewrite Esel in Hincl. destruct (Hincl entry (or_introl eq_refl)).
    - rewrite saveSelection_best in Hin. simpl in Hin.
      destruct Hin as [<-|[]].
      exists best. split; [|reflexivity].
      apply (Permutation_in _ (Permutation_sym Hperm)). left. reflexivity. }
  split; [|split].
  - intros pVertex Hin. destruct (Hout pVertex Hin) as (entry & Hentry & <-).
    apply (scored_onHit vertices scored Hscored entry Hentry).
  - intros pVertex Hoff Hin. destruct (Hout pVertex Hin) as (entry & Hentry & <-).
    apply Hoff, (scored_onHit vertices scored Hscored entry Hentry).
  - intros ->. simpl in Hscored. injection Hscored as <-.
    destruct (outputVertexList') as [|pVertex others] eqn:Eout; [reflexivity|].
    destruct (Hout pVertex) as (entry & [] & _).
    left. reflexivity.
Qed.

(** *** Failing runs *)

Lemma forallb_views (view : HitType) (clusters : ClusterList) :
  forallb (fun pCluster =>
             if HitType_eq_dec view (GetClusterHitType pCluster)
             then true else false) clusters = true
  <-> Forall (fun pCluster => GetClusterHitType pCluster = view) clusters.
Proof.
  rewrite forallb_forall, Forall_forall.
  split; intros H c Hc; specialize (H c Hc);
    destruct (HitType_eq_dec view (GetClusterHitType c)); congruence.
Qed.

Lemma viewFailure_throws (pVertex : Vertex) (view : HitType) (name : string)
    (histogram : Histogram) (s : StatusCode) :
  viewFailure api view name = Some s ->
  FillHistogram' pVertex view name histogram = StatusCodeException s
  /\ s <> STATUS_CODE_SUCCESS.
Proof.
  unfold viewFailure, FillHistogram.
  destruct (GetList api name) as [statusCode clusters].
  destruct (StatusCode_eq_dec STATUS_CODE_SUCCESS statusCode) as [Hs|Hs].
  - destruct (forallb _ clusters) eqn:Hall; [discriminate|].
    intros H. injection H as <-. split; [|discriminate].
    apply clusterLoop_mismatch.
    apply Exists_exists.
    assert (Hnot : ~ Forall (fun c => GetClusterHitType c = view) clusters).
    { intros HF. apply forallb_views in HF. congruence. }
    apply neg_Forall_Exists_neg in Hnot.
    + apply Exists_exists in Hnot. exact Hnot.
    + intros c. destruct (HitType_eq_dec (GetClusterHitType c) view); auto.
  - intros H. injection H as <-. split; [reflexivity|congruence].
Qed.

Lemma viewFailure_none (pVertex : Vertex) (view : HitType) (name : string)
    (histogram : Histogram) :
  viewFailure api view name = None ->
  fst (GetList api name) = STATUS_CODE_SUCCESS
  /\ Forall (fun c => GetClusterHitType c = view) (snd (GetList api name))
  /\ exists result,
       FillHistogram' pVertex view name histogram = Normal result.
Proof.
  unfold viewFailure. intros H.
  assert (Hok : fst (GetList api name) = STATUS_CODE_SUCCESS
                /\ Forall (fun c => GetClusterHitType c = view)
                          (snd (GetList api name))).
  { destruct (GetList api name) as [statusCode clusters]. simpl.
    destruct (StatusCode_eq_dec STATUS_CODE_SUCCESS statusCode) as [Hs|Hs];
      [|discriminate].
    destruct (forallb _ clusters) eqn:Hall; [|discriminate].
    split; [congruence|]. apply forallb_views, Hall. }
  destruct Hok as [Hs Hall]. split; [exact Hs|]. split; [exact Hall|].
  destruct (FillHistogram_returns pVertex view name histogram Hs Hall)
    as [h' Hh'].
  eauto.
Qed.

Lemma scoreVertex_throws (pVertex : Vertex) (s : StatusCode) :
  firstViewFailure api this = Some s ->
  scoreVertex' pVertex = StatusCodeException s.
Proof.
  unfold firstViewFailure, scoreVertex.
  destruct (viewFailure api TPC_VIEW_U _) as [sU|] eqn:HU.
  - intros H. injection H as <-.
    destruct (viewFailure_throws pVertex _ _ (newHistogram this) _ HU) as [-> _].
    reflexivity.
  - destruct (viewFailure_none pVertex _ _ (newHistogram this) HU)
      as (_ & _ & rU & ->).
    cbn [bind].
    destruct (viewFailure api TPC_VIEW_V _) as [sV|] eqn:HV.
    + intros H. injection H as <-.
      destruct (viewFailure_throws pVertex _ _ (newHistogram this) _ HV)
        as [-> _].
      reflexivity.
    + destruct (viewFailure_none pVertex _ _ (newHistogram this) HV)
        as (_ & _ & rV & ->).
      cbn [bind]. intros HW.
      destruct (viewFailure_throws pVertex _ _ (newHistogram this) _ HW)
        as [-> _].
      reflexivity.
Qed.

Lemma firstViewFailure_is_failure (s : StatusCode) :
  firstViewFailure api this = Some s -> s <> STATUS_CODE_SUCCESS.
Proof.
  unfold firstViewFailure.
  destruct (viewFailure api TPC_VIEW_U _) as [sU|] eqn:HU.
  - intros H. injection H as <-.
    apply (viewFailure_throws (mkVertex 0 (mkCartesianVector zero zero zero))
             _ _ (newHistogram this) _ HU).
  - destruct (viewFailure api TPC_VIEW_V _) as [sV|] eqn:HV.
    + intros H. injection H as <-.
      apply (viewFailure_throws (mkVertex 0 (mkCartesianVector zero zero zero))
               _ _ (newHistogram this) _ HV).
    + intros HW.
      apply (viewFailure_throws (mkVertex 0 (mkCartesianVector zero zero zero))
               _ _ (newHistogram this) _ HW).
Qed.

Lemma firstViewFailure_none :
  firstViewFailure api this = None ->
  forall view name,
    In (view, name) (scannedViews this) ->
    fst (GetList api name) = STATUS_CODE_SUCCESS
    /\ Forall (fun c => GetClusterHitType c = view) (snd (GetList api name)).
Proof.
  unfold firstViewFailure.
  destruct (viewFailure api TPC_VIEW_U _) as [sU|] eqn:HU; [discriminate|].
  destruct (viewFailure api TPC_VIEW_V _) as [sV|] eqn:HV; [discriminate|].
  intros HW view name [Hin|[Hin|[Hin|[]]]]; injection Hin as <- <-.
  - destruct (viewFailure_none (mkVertex 0 (mkCartesianVector zero zero zero))
                _ _ (newHistogram this) HU) as (Hs & Hall & _); auto.
  - destruct (viewFailure_none (mkVertex 0 (mkCartesianVector zero zero zero))
                _ _ (newHistogram this) HV) as (Hs & Hall & _); auto.
  - destruct (viewFailure_none (mkVertex 0 (mkCartesianVector zero zero zero))
                _ _ (newHistogram this) HW) as (Hs & Hall & _); auto.
Qed.

(** Without an unfetchable list the only failure is a cluster of another
    view. *)
Lemma firstViewFailure_mismatch (s : StatusCode) :
  ~ someClusterListUnfetchable api this ->
  firstViewFailure api this = Some s ->
  s = STATUS_CODE_INVALID_PARAMETER.
Proof.
  intros Hfetch.
  assert (Hview : forall view name s',
             In (view, name) (scannedViews this) ->
             viewFailure api view name = Some s' ->
             s' = STATUS_CODE_INVALID_PARAMETER).
  { intros view name s' Hin. unfold viewFailure.
    destruct (GetList api name) as [statusCode clusters] eqn:Hlist.
    destruct (StatusCode_eq_dec STATUS_CODE_SUCCESS statusCode) as [Hs|Hs].
    - destruct (forallb _ clusters); [discriminate|]. congruence.
    - exfalso. apply Hfetch. exists view, name. split; [exact Hin|].
      rewrite Hlist. simpl. congruence. }
  unfold firstViewFailure.
  destruct (viewFailure api TPC_VIEW_U _) as [sU|] eqn:HU.
  - intros H. injection H as <-.
    apply (Hview _ _ _ (or_introl eq_refl) HU).
  - destruct (viewFailure api TPC_VIEW_V _) as [sV|] eqn:HV.
    + intros H. injection H as <-.
      apply (Hview _ _ _ (or_intror (or_introl eq_refl)) HV).
    + intros HW.
      apply (Hview _ _ _ (or_intror (or_intror (or_introl eq_refl))) HW).
Qed.

(** C9 (as amended): when the input vertex list is absent the run returns
    the status of the failed fetch at once; when it is present and holds
    at least one vertex, and a named cluster list cannot be fetched or a
    cluster of a fetched list is of another view than the one scanned, the
    run throws while the first vertex is scanned, with the status of the
    first failure in the order U, V, W (that of the failed fetch, or
    invalid-parameter for a cluster of another view, which is the status
    whenever every list can be fetched); no run that fails in one of
    these ways, and no run that throws, saves a list or replaces the
    current one.  With an empty input list no cluster list is fetched and
    the run succeeds without writing. *)
Theorem failing_runs_write_nothing :
  (inputVertexListAbsent api ->
   Run' = (Normal (fst (GetCurrentList api)), []))
  /\ (forall pVertex rest,
         GetCurrentList api = (STATUS_CODE_SUCCESS, pVertex :: rest) ->
         someClusterListUnfetchable api this
         \/ someClusterOfAnotherView api this ->
         exists s,
           firstViewFailure api this = Some s
           /\ s <> STATUS_CODE_SUCCESS
           /\ Run' = (StatusCodeException s, [])
           /\ (~ someClusterListUnfetchable api this ->
               s = STATUS_CODE_INVALID_PARAMETER))
  /\ (sortsByOperatorLt std_sort ->
      GetCurrentList api = (STATUS_CODE_SUCCESS, []) ->
      Run' = (Normal STATUS_CODE_SUCCESS, []))
  /\ (forall s, fst Run' = StatusCodeException s -> snd Run' = []).
Proof.
  split; [|split; [|split]].
  - apply Run_failed_input.
  - intros pVertex rest Hlist Hbad.
    destruct (firstViewFailure api this) as [s|] eqn:Hfirst.
    + exists s. split; [reflexivity|].
      split; [apply firstViewFailure_is_failure, Hfirst|].
      split; [|intros Hfetch; apply (firstViewFailure_mismatch s Hfetch Hfirst)].
      apply (Run_thrown (pVertex :: rest) s Hlist).
      simpl.
      rewrite (scoreVertex_throws pVertex s Hfirst). reflexivity.
    + exfalso.
      pose proof (firstViewFailure_none Hfirst) as Hok.
      destruct Hbad as [(view & name & Hin & Hs)
                       |(view & name & c & Hin & Hs & Hc & Hview)].
      * destruct (Hok view name Hin) as [Hs' _]. contradiction.
      * destruct (Hok view name Hin) as [_ Hall].
        rewrite Forall_forall in Hall. apply Hview, Hall, Hc.
  - intros Hsort Hlist.
    rewrite (Run_scored [] [] Hlist eq_refl).
    destruct (Hsort [] (Forall_nil _)) as [Hperm _].
    apply Permutation_nil in Hperm. rewrite Hperm. reflexivity.
  - intros s. unfold Run.
    destruct (GetCurrentList api) as [statusCode vertices].
    destruct (StatusCode_eq_dec STATUS_CODE_SUCCESS statusCode);
      [|simpl; discriminate].
    destruct (scoreLoop' vertices []) as [scored| |]; try reflexivity.
    unfold saveSelection.
    destruct (negb _); [|simpl; discriminate].
    destruct (std_sort scored); [simpl; discriminate|].
    destruct (StatusCode_eq_dec _ (SaveList api _ _)); [|simpl; discriminate].
    destruct (m_replaceCurrentVertexList this); [|simpl; discriminate].
    destruct (StatusCode_eq_dec _ (ReplaceCurrentList api _));
      simpl; discriminate.
Qed.

End Facts.

(** ** ReadSettings: which reads decide *)

Section ReadSettingsFacts.

Variable xmlHandle : TiXmlHandle.

Lemma returnResultIf_cases
    (command rest : VertexSelectionAlgorithm -> StatusCode * VertexSelectionAlgorithm)
    (this : VertexSelectionAlgorithm) :
  (fst (command this) = STATUS_CODE_SUCCESS
   /\ returnResultIf command rest this = rest (snd (command this)))
  \/ (fst (command this) <> STATUS_CODE_SUCCESS
      /\ returnResultIf command rest this = command this).
Proof.
  unfold returnResultIf. destruct (command this) as [statusCode this']. simpl.
  destruct (StatusCode_eq_dec STATUS_CODE_SUCCESS statusCode); auto.
Qed.

Lemma returnResultIfAndIf_cases
    (command rest : VertexSelectionAlgorithm -> StatusCode * VertexSelectionAlgorithm)
    (this : VertexSelectionAlgorithm) :
  (acceptedWhenOptional (fst (command this))
   /\ returnResultIfAndIf command rest this = rest (snd (command this)))
  \/ (~ acceptedWhenOptional (fst (command this))
      /\ returnResultIfAndIf command rest this = command this).
Proof.
  unfold returnResultIfAndIf, acceptedWhenOptional.
  destruct (command this) as [statusCode this']. simpl.
  destruct (StatusCode_eq_dec STATUS_CODE_SUCCESS statusCode); auto.
  destruct (StatusCode_eq_dec STATUS_CODE_NOT_FOUND statusCode); auto.
  right. split; [|reflexivity]. intros [H|H]; congruence.
Qed.

Ltac in_list := cbn [In]; repeat (first [left; reflexivity | right]).

Ltac project_members :=
  cbn [fst snd m_inputClusterListNameU m_inputClusterListNameV
       m_inputClusterListNameW m_outputVertexListName
       m_replaceCurrentVertexList m_histogramNPhiBins m_histogramPhiMin
       m_histogramPhiMax m_maxHitVertexDisplacement
       m_maxOnHitDisplacement m_hitDeweightingPower
       m_maxTopScoreCandidates m_minCandidateDisplacement
       m_minCandidateScoreFraction] in *.

(** One command of the chain: split on what it returned, and name the
    status and the value it read. *)
Ltac read_next H :=
  lazymatch goal with
  | |- context [returnResultIf ?c ?rest ?cur] =>
      let Heq := fresh "Heq" in
      destruct (returnResultIf_cases c rest cur) as [[H Heq]|[H Heq]];
      rewrite Heq; clear Heq;
      lazymatch c with ?f _ => unfold f in H |- * end
  | |- context [returnResultIfAndIf ?c ?rest ?cur] =>
      let Heq := fresh "Heq" in
      destruct (returnResultIfAndIf_cases c rest cur) as [[H Heq]|[H Heq]];
      rewrite Heq; clear Heq;
      lazymatch c with ?f _ => unfold f in H |- * end
  end;
  project_members;
  lazymatch type of H with
  | context [let (_, _) := ?r in _] =>
      let s := fresh "statusCode" in
      let v := fresh "value" in
      destruct r as [s v]
  end;
  project_members.

Lemma ReadSettings_outcome (this : VertexSelectionAlgorithm) :
  (fst (ReadSettings xmlHandle this) = STATUS_CODE_SUCCESS
   /\ snd (ReadSettings xmlHandle this) = settingsRead xmlHandle this
   /\ Forall (fun statusCode => statusCode = STATUS_CODE_SUCCESS)
             (nameStatuses xmlHandle this)
   /\ Forall acceptedWhenOptional (optionStatuses xmlHandle this))
  \/ (fst (ReadSettings xmlHandle this) <> STATUS_CODE_SUCCESS
      /\ (In (fst (ReadSettings xmlHandle this)) (nameStatuses xmlHandle this)
          \/ (In (fst (ReadSettings xmlHandle this))
                 (optionStatuses xmlHandle this)
              /\ ~ acceptedWhenOptional (fst (ReadSettings xmlHandle this))))).
Proof.
  destruct this as [nameU nameV nameW nameOut replace nBins phiMin phiMax
                    maxHit maxOnHit power maxTop minDisplacement minFraction].
  unfold ReadSettings, nameStatuses, optionStatuses, settingsRead.
  project_members.
  do 14 (let H := fresh "Hstatus" in
         read_next H;
         [|right; split;
           [first [exact H | intros Hsuccess; apply H; left; exact Hsuccess]
           |first [left; solve [in_list]
                  |right; split; [solve [in_list]|exact H]]]]).
  left. cbn [fst snd].
  split; [reflexivity|]. split; [reflexivity|].
  split; repeat (apply Forall_cons; [assumption|]); apply Forall_nil.
Qed.

Lemma passes_required (statusCode : StatusCode) :
  statusCode = STATUS_CODE_SUCCESS -> passes true statusCode = true.
Proof.
  intros ->. unfold passes.
  destruct (StatusCode_eq_dec STATUS_CODE_SUCCESS STATUS_CODE_SUCCESS);
    congruence.
Qed.

Lemma passes_optional (statusCode : StatusCode) :
  acceptedWhenOptional statusCode -> passes false statusCode = true.
Proof.
  unfold passes, acceptedWhenOptional. intros H.
  destruct (StatusCode_eq_dec STATUS_CODE_SUCCESS statusCode); [reflexivity|].
  destruct (StatusCode_eq_dec STATUS_CODE_NOT_FOUND statusCode); [reflexivity|].
  destruct H; congruence.
Qed.

Lemma fails_required (statusCode : StatusCode) :
  statusCode <> STATUS_CODE_SUCCESS -> passes true statusCode = false.
Proof.
  intros H. unfold passes.
  destruct (StatusCode_eq_dec STATUS_CODE_SUCCESS statusCode);
    congruence.
Qed.

Lemma fails_optional (statusCode : StatusCode) :
  ~ acceptedWhenOptional statusCode -> passes false statusCode = false.
Proof.
  unfold passes, acceptedWhenOptional. intros H.
  destruct (StatusCode_eq_dec STATUS_CODE_SUCCESS statusCode);
    [exfalso; apply H; left; congruence|].
  destruct (StatusCode_eq_dec STATUS_CODE_NOT_FOUND statusCode); [|reflexivity].
  exfalso. apply H. right. congruence.
Qed.

Ltac decide_passes :=
  repeat match goal with
  | H : ?s = STATUS_CODE_SUCCESS |- context [passes true ?s] =>
      rewrite (passes_required s H)
  | H : acceptedWhenOptional ?s |- context [passes false ?s] =>
      rewrite (passes_optional s H)
  | H : ?s <> STATUS_CODE_SUCCESS |- context [passes true ?s] =>
      rewrite (fails_required s H)
  | H : ~ acceptedWhenOptional ?s |- context [passes false ?s] =>
      rewrite (fails_optional s H)
  end.

Lemma ReadSettings_status (this : VertexSelectionAlgorithm) :
  fst (ReadSettings xmlHandle this)
  = firstFailure (readStatuses xmlHandle this).
Proof.
  destruct this as [nameU nameV nameW nameOut replace nBins phiMin phiMax
                    maxHit maxOnHit power maxTop minDisplacement minFraction].
  unfold ReadSettings, readStatuses, nameStatuses, optionStatuses.
  cbn [map app firstFailure].
  project_members.
  do 14 (let H := fresh "Hstatus" in
         read_next H; [|decide_passes; reflexivity]).
  decide_passes. reflexivity.
Qed.

(** X1: [ReadSettings] returns the status of the first read, in source
    order, that does not pass (a list name that is not read with success, an
    optional setting whose read returns anything but success or not-found),
    and success when every read passes; so it succeeds exactly when the four
    list names are read with success and each of the ten optional reads
    returns success or not-found. *)
Theorem ReadSettings_returns_first_failure :
  forall this : VertexSelectionAlgorithm,
    fst (ReadSettings xmlHandle this)
    = firstFailure (readStatuses xmlHandle this)
    /\ (fst (ReadSettings xmlHandle this) = STATUS_CODE_SUCCESS
        <-> Forall (fun statusCode => statusCode = STATUS_CODE_SUCCESS)
                   (nameStatuses xmlHandle this)
            /\ Forall acceptedWhenOptional (optionStatuses xmlHandle this)).
Proof.
  intros this. split; [apply ReadSettings_status|].
  destruct (ReadSettings_outcome this)
    as [(Hs & _ & Hnames & Hoptions)|(Hs & Hwhich)].
  - split; auto.
  - split; [contradiction|]. intros [Hnames Hoptions]. exfalso.
    rewrite Forall_forall in Hnames, Hoptions.
    destruct Hwhich as [Hin|[Hin Hno]].
    + apply Hs, Hnames, Hin.
    + apply Hno, Hoptions, Hin.
Qed.

(** X2: a status other than success that [ReadSettings] returns is the
    status of one of its reads; it is not-found only when the read of one of
    the four list names returned not-found: an absent optional setting never
    makes [ReadSettings] fail, and any other failure of an optional read
    does. *)
Theorem ReadSettings_not_found_is_a_list_name :
  forall this : VertexSelectionAlgorithm,
    (fst (ReadSettings xmlHandle this) <> STATUS_CODE_SUCCESS ->
     In (fst (ReadSettings xmlHandle this)) (nameStatuses xmlHandle this)
     \/ In (fst (ReadSettings xmlHandle this)) (optionStatuses xmlHandle this))
    /\ (fst (ReadSettings xmlHandle this) = STATUS_CODE_NOT_FOUND ->
        In STATUS_CODE_NOT_FOUND (nameStatuses xmlHandle this))
    /\ (Forall (fun statusCode => statusCode = STATUS_CODE_SUCCESS)
               (nameStatuses xmlHandle this) ->
        forall statusCode,
          In statusCode (optionStatuses xmlHandle this) ->
          ~ acceptedWhenOptional statusCode ->
          fst (ReadSettings xmlHandle this) <> STATUS_CODE_SUCCESS
          /\ In (fst (ReadSettings xmlHandle this))
                (optionStatuses xmlHandle this)).
Proof.
  intros this.
  destruct (ReadSettings_outcome this)
    as [(Hs & _ & Hnames & Hoptions)|(Hs & Hwhich)].
  - split; [congruence|]. split; [congruence|].
    intros _ statusCode Hin Hno. exfalso.
    rewrite Forall_forall in Hoptions. apply Hno, Hoptions, Hin.
  - split; [intros _; tauto|]. split.
    + intros Hnf. destruct Hwhich as [Hin|[_ Hno]].
      * rewrite <- Hnf. exact Hin.
      * exfalso. apply Hno. right. exact Hnf.
    + intros Hnames statusCode _ _. split; [exact Hs|].
      destruct Hwhich as [Hin|[Hin _]]; [|exact Hin].
      exfalso. rewrite Forall_forall in Hnames. apply Hs, Hnames, Hin.
Qed.

(** X3: after a successful [ReadSettings] each member holds what its own
    read left in it: no read disturbs the member of another. *)
Theorem ReadSettings_reads_each_member :
  forall this this' : VertexSelectionAlgorithm,
    ReadSettings xmlHandle this = (STATUS_CODE_SUCCESS, this') ->
    this' = settingsRead xmlHandle this.
Proof.
  intros this this' H.
  destruct (ReadSettings_outcome this) as [(_ & Hsnd & _)|(Hs & _)].
  - rewrite H in Hsnd. exact Hsnd.
  - rewrite H in Hs. contradiction.
Qed.

(** X4: with a [ReadValue] that leaves the member alone when the element is
    absent, a settings block that holds the four list names and none of the
    ten optional settings only changes the list names: every other member
    keeps its value, the constructor's for a fresh object. *)
Theorem ReadSettings_keeps_absent_settings :
  forall this : VertexSelectionAlgorithm,
    leavesAbsentAlone xmlHandle ->
    Forall (fun statusCode => statusCode = STATUS_CODE_SUCCESS)
           (nameStatuses xmlHandle this) ->
    Forall (fun statusCode => statusCode = STATUS_CODE_NOT_FOUND)
           (optionStatuses xmlHandle this) ->
    ReadSettings xmlHandle this
    = (STATUS_CODE_SUCCESS,
       withListNames
         (snd (ReadString xmlHandle "InputClusterListNameU"
                          (m_inputClusterListNameU this)))
         (snd (ReadString xmlHandle "InputClusterListNameV"
                          (m_inputClusterListNameV this)))
         (snd (ReadString xmlHandle "InputClusterListNameW"
                          (m_inputClusterListNameW this)))
         (snd (ReadString xmlHandle "OutputVertexListName"
                          (m_outputVertexListName this)))
         this).
Proof.
  intros this (Hbool & Hunsigned & Hfloat) Hnames Habsent.
  destruct (ReadSettings_outcome this)
    as [(Hs & Hsnd & _)|(Hs & Hwhich)].
  - rewrite (surjective_pairing (ReadSettings xmlHandle this)), Hs, Hsnd.
    f_equal. unfold settingsRead, withListNames.
    unfold optionStatuses in Habsent.
    repeat match goal with
    | H : Forall _ (_ :: _) |- _ =>
        apply Forall_cons_iff in H;
        let Hhead := fresh "Hhead" in destruct H as [Hhead H]
    end.
    repeat match goal with
    | H : fst (ReadBool _ _ _) = _ |- _ => rewrite (Hbool _ _ H); clear H
    | H : fst (ReadUnsigned _ _ _) = _ |- _ => rewrite (Hunsigned _ _ H); clear H
    | H : fst (ReadFloat _ _ _) = _ |- _ => rewrite (Hfloat _ _ H); clear H
    end.
    reflexivity.
  - exfalso. rewrite Forall_forall in Hnames, Habsent.
    destruct Hwhich as [Hin|[Hin Hno]].
    + apply Hs, Hnames, Hin.
    + apply Hno. right. apply Habsent, Hin.
Qed.

End ReadSettingsFacts.

(** ** LArDLContent: what the registration does *)

Section RegistrationFacts.

Variable Pandora : Type.

Lemma registerEach_all {Factory : Type}
    (register : Pandora -> string -> Factory -> StatusCode * Pandora)
    (entries : list (string * Factory))
    (rest : Pandora -> StatusCode * Pandora) :
  forall pandora,
    registrationsSucceed register entries pandora ->
    registerEach Pandora register entries rest pandora
    = rest (registeredAll Pandora register entries pandora).
Proof.
  induction entries as [|[a b] more IH]; intros pandora Hall.
  - reflexivity.
  - destruct Hall as [Hs Hmore]. cbn [registerEach].
    unfold registeredAll. cbn [fold_left fst snd].
    destruct (register pandora a b) as [statusCode pandora'].
    cbn [fst snd] in *. subst statusCode.
    destruct (StatusCode_eq_dec STATUS_CODE_SUCCESS STATUS_CODE_SUCCESS);
      [|congruence].
    apply IH, Hmore.
Qed.

Lemma registerEach_stops {Factory : Type}
    (register : Pandora -> string -> Factory -> StatusCode * Pandora)
    (entries : list (string * Factory))
    (rest : Pandora -> StatusCode * Pandora) :
  forall pandora,
    ~ registrationsSucceed register entries pandora ->
    exists done a b after,
      entries = done ++ (a, b) :: after
      /\ registrationsSucceed register done pandora
      /\ fst (register (registeredAll Pandora register done pandora) a b)
         <> STATUS_CODE_SUCCESS
      /\ registerEach Pandora register entries rest pandora
         = register (registeredAll Pandora register done pandora) a b.
Proof.
  induction entries as [|[a b] more IH]; intros pandora Hnot.
  - exfalso. apply Hnot. exact I.
  - cbn [registerEach].
    destruct (register pandora a b) as [statusCode pandora'] eqn:Hcall.
    destruct (StatusCode_eq_dec STATUS_CODE_SUCCESS statusCode) as [Hs|Hs].
    + destruct (IH pandora') as (done & a' & b' & after & Heq & Hdone & Hfail & Hres).
      { intros Hmore. apply Hnot. cbn [registrationsSucceed].
        rewrite Hcall. cbn [fst snd]. auto. }
      exists ((a, b) :: done), a', b', after.
      unfold registeredAll in *. cbn [fold_left fst snd registrationsSucceed].
      rewrite Hcall. cbn [fst snd].
      split; [rewrite Heq; reflexivity|].
      split; [split; [congruence|exact Hdone]|].
      split; [exact Hfail|exact Hres].
    + exists [], a, b, more.
      unfold registeredAll. cbn [fold_left app registrationsSucceed].
      rewrite Hcall. cbn [fst].
      split; [reflexivity|]. split; [exact I|].
      split; [congruence|reflexivity].
Qed.

(** X5: the registration blocks a list macro expands to register the entries
    in list order and stop at the first call that does not return success:
    when every call succeeds the code after the expansion runs on the
    instance with all entries registered, otherwise the status and the
    instance of the first failing call are returned and no entry after it is
    registered.  [RegisterAlgorithms], whose lists hold one algorithm and no
    tool, returns just what the registration of the factory of
    [DeepLearningTrackShowerIdAlgorithm] under the name
    LArDeepLearningTrackShowerId returns. *)
Theorem registration_stops_at_first_failure :
  (forall (Factory : Type)
          (register : Pandora -> string -> Factory -> StatusCode * Pandora)
          (entries : list (string * Factory))
          (rest : Pandora -> StatusCode * Pandora) (pandora : Pandora),
      (registrationsSucceed register entries pandora ->
       registerEach Pandora register entries rest pandora
       = rest (registeredAll Pandora register entries pandora))
      /\ (~ registrationsSucceed register entries pandora ->
          exists done a b after,
            entries = done ++ (a, b) :: after
            /\ registrationsSucceed register done pandora
            /\ fst (register (registeredAll Pandora register done pandora) a b)
               <> STATUS_CODE_SUCCESS
            /\ registerEach Pandora register entries rest pandora
               = register (registeredAll Pandora register done pandora) a b))
  /\ (forall (RegisterAlgorithmFactory :
                Pandora -> string -> DLAlgorithm -> StatusCode * Pandora)
             (RegisterAlgorithmToolFactory :
                Pandora -> string -> DLAlgorithmTool -> StatusCode * Pandora)
             (pandora : Pandora),
         RegisterAlgorithms Pandora RegisterAlgorithmFactory
                            RegisterAlgorithmToolFactory pandora
         = RegisterAlgorithmFactory pandora "LArDeepLearningTrackShowerId"%string
                                    DeepLearningTrackShowerIdAlgorithm).
Proof.
  split.
  - intros Factory register entries rest pandora. split.
    + apply registerEach_all.
    + apply registerEach_stops.
  - intros registerAlgorithm registerTool pandora.
    unfold RegisterAlgorithms, LAR_DL_ALGORITHM_LIST, LAR_DL_ALGORITHM_TOOL_LIST.
    cbn [registerEach].
    destruct (registerAlgorithm pandora _ _) as [statusCode pandora'].
    destruct (StatusCode_eq_dec STATUS_CODE_SUCCESS statusCode) as [<-|Hs];
      reflexivity.
Qed.

End RegistrationFacts.

(** ** More facts of IEEE arithmetic *)

Module IEEESign.

Section Format.
Variables prec emax : Z.

Lemma binary_round_aux_plus (m e : Z) (l : location) :
  hasMinusSign (binary_round_aux prec emax false m e l) = false.
Proof.
  unfold binary_round_aux.
  destruct (shr_fexp prec emax m e l) as [mrs' e'].
  destruct (shr_fexp prec emax _ e' loc_Exact) as [mrs'' e''].
  destruct (shr_m mrs''); try reflexivity.
  destruct (Z.leb e'' (emax - prec)); reflexivity.
Qed.

Lemma binary_round_plus (m : positive) (e : Z) :
  hasMinusSign (binary_round prec emax false m e) = false.
Proof.
  unfold binary_round.
  destruct (shl_align m e _) as [mz ez].
  apply binary_round_aux_plus.
Qed.

(** A square has no minus sign. *)
Lemma SFmul_square_plus (x : spec_float) :
  hasMinusSign (SFmul prec emax x x) = false.
Proof.
  destruct x as [s|s| |s m e]; try (destruct s; reflexivity); try reflexivity.
  unfold SFmul. rewrite xorb_nilpotent. apply binary_round_aux_plus.
Qed.

(** Neither has the sum of two numbers without one. *)
Lemma SFadd_plus (x y : spec_float) :
  hasMinusSign x = false -> hasMinusSign y = false ->
  hasMinusSign (SFadd prec emax x y) = false.
Proof.
  destruct x as [sx|sx| |sx mx ex], y as [sy|sy| |sy my ey];
    cbn [hasMinusSign]; intros Hx Hy; subst; try reflexivity.
  unfold SFadd. cbn [cond_Zopp Z.add binary_normalize].
  apply binary_round_plus.
Qed.

(** A number without minus sign is not below zero. *)
Lemma plus_not_below_zero (x : spec_float) :
  hasMinusSign x = false -> SFltb x (S754_zero false) = false.
Proof.
  destruct x as [s|s| |s m e]; cbn [hasMinusSign]; intros H; subst;
    reflexivity.
Qed.

(** Two numbers neither of which is below the other compare equal. *)
Lemma SFleb_antisym (x y : spec_float) :
  SFleb x y = true -> SFleb y x = true -> SFeqb x y = true.
Proof.
  unfold SFleb, SFeqb.
  destruct x as [sx|sx| |sx mx ex], y as [sy|sy| |sy my ey];
    try (simpl; congruence);
    try (destruct sx; try destruct sy; simpl; congruence).
  simpl. destruct sx, sy; try congruence;
    repeat match goal with
    | |- context [Pos.compare_cont Eq ?a ?b] =>
        change (Pos.compare_cont Eq a b) with (Pos.compare a b)
    | |- context [Z.compare ?a ?b] => destruct (Z.compare_spec a b)
    | |- context [Pos.compare ?a ?b] => destruct (Pos.compare_spec a b)
    end;
    simpl; intros; subst; try congruence; try lia.
Qed.

End Format.

End IEEESign.

(** ** Subsequences *)

Lemma Subsequence_refl {A : Type} (l : list A) : Subsequence l l.
Proof. induction l; constructor; assumption. Qed.

Lemma Subsequence_In {A : Type} (s l : list A) :
  Subsequence s l -> forall x, In x s -> In x l.
Proof.
  induction 1 as [|x s l _ IH|x s l _ IH]; intros y Hy.
  - destruct Hy.
  - right. apply IH, Hy.
  - destruct Hy as [<-|Hy]; [left; reflexivity|right; apply IH, Hy].
Qed.

Lemma Subsequence_NoDup {A : Type} (s l : list A) :
  Subsequence s l -> NoDup l -> NoDup s.
Proof.
  induction 1 as [|x s l Hs IH|x s l Hs IH]; intros Hl.
  - constructor.
  - inversion Hl; subst. auto.
  - inversion Hl as [|? ? Hx Hl']; subst. constructor; [|auto].
    intros Hin. apply Hx. apply (Subsequence_In _ _ Hs), Hin.
Qed.

Lemma Subsequence_sorted {A : Type} (R : A -> A -> Prop) (s l : list A) :
  Subsequence s l -> StronglySorted R l -> StronglySorted R s.
Proof.
  induction 1 as [|x s l Hs IH|x s l Hs IH]; intros Hl.
  - constructor.
  - apply StronglySorted_inv in Hl as [Hl _]. auto.
  - apply StronglySorted_inv in Hl as [Hl Hx]. constructor; [auto|].
    rewrite Forall_forall in *. intros y Hy.
    apply Hx, (Subsequence_In _ _ Hs), Hy.
Qed.

Lemma Subsequence_app {A : Type} (s1 l1 s2 l2 : list A) :
  Subsequence s1 l1 -> Subsequence s2 l2 -> Subsequence (s1 ++ s2) (l1 ++ l2).
Proof.
  induction 1 as [|x s l _ IH|x s l _ IH]; intros H2; simpl.
  - exact H2.
  - apply Subsequence_skip, IH, H2.
  - apply Subsequence_keep, IH, H2.
Qed.

Lemma Subsequence_map {A B : Type} (f : A -> B) (s l : list A) :
  Subsequence s l -> Subsequence (map f s) (map f l).
Proof.
  induction 1 as [|x s l _ IH|x s l _ IH]; simpl.
  - constructor.
  - apply Subsequence_skip, IH.
  - apply Subsequence_keep, IH.
Qed.

Lemma Subsequence_length {A : Type} (s l : list A) :
  Subsequence s l -> (length s <= length l)%nat.
Proof. induction 1; simpl; lia. Qed.

(** ** Further properties of the algorithm *)

Section MoreFacts.

Context {Histogram : Type} {histogramOps : HistogramOps Histogram}.
Variables atan2 pow : float -> float -> float.
Variable ProjectPosition : CartesianVector -> HitType -> CartesianVector.
Variable std_sort : VertexScoreList -> VertexScoreList.
Variable api : PandoraContentApi.
Variable this : VertexSelectionAlgorithm.

Local Abbreviation hitBody' := (hitBody atan2 pow this).
Local Abbreviation layerBody' := (layerBody atan2 pow this).
Local Abbreviation FillHistogramCluster' := (FillHistogramCluster atan2 pow this).
Local Abbreviation FillHistogram' := (FillHistogram atan2 pow ProjectPosition api this).
Local Abbreviation scoreVertex' := (scoreVertex atan2 pow ProjectPosition api this).
Local Abbreviation scoreLoop' := (scoreLoop atan2 pow ProjectPosition api this).
Local Abbreviation scoredEntry' := (scoredEntry atan2 pow ProjectPosition api this).
Local Abbreviation Run' := (Run atan2 pow ProjectPosition std_sort api this).

(** *** What a run writes and returns *)

(** X7: a run writes nothing, or saves one singleton list under
    [m_outputVertexListName], or saves it and then replaces the current list
    by that name; it replaces only after [SaveList] returned success and only
    when [m_replaceCurrentVertexList] is set, and once it has written it
    returns the status of the last call it made. *)
Theorem Run_write_protocol :
  let result := Run atan2 pow ProjectPosition std_sort api this in
  snd result = []
  \/ (exists pVertex,
         snd result = [SaveListCall (m_outputVertexListName this) [pVertex]]
         /\ fst result
            = Normal (SaveList api (m_outputVertexListName this) [pVertex])
         /\ (SaveList api (m_outputVertexListName this) [pVertex]
             <> STATUS_CODE_SUCCESS
             \/ m_replaceCurrentVertexList this = false))
  \/ (exists pVertex,
         snd result = [SaveListCall (m_outputVertexListName this) [pVertex];
                     ReplaceCurrentListCall (m_outputVertexListName this)]
         /\ SaveList api (m_outputVertexListName this) [pVertex]
            = STATUS_CODE_SUCCESS
         /\ m_replaceCurrentVertexList this = true
         /\ fst result
            = Normal (ReplaceCurrentList api (m_outputVertexListName this))).
Proof.
  intros result. subst result.
  unfold Run. destruct (GetCurrentList api) as [statusCode vertices].
  destruct (StatusCode_eq_dec STATUS_CODE_SUCCESS statusCode);
    [|left; reflexivity].
  destruct (scoreLoop' vertices []) as [scored| |]; try (left; reflexivity).
  unfold saveSelection.
  destruct (negb _); [|left; reflexivity].
  destruct (std_sort scored) as [|best rest]; [left; reflexivity|].
  destruct (StatusCode_eq_dec _ (SaveList api _ _)) as [Hsave|Hsave].
  - destruct (m_replaceCurrentVertexList this) eqn:Hreplace.
    + right. right. exists (GetVertex best).
      destruct (StatusCode_eq_dec _ (ReplaceCurrentList api _)) as [Hr|Hr];
        cbn [fst snd]; repeat split; congruence.
    + right. left. exists (GetVertex best). cbn [fst snd].
      repeat split; [congruence|]. right. reflexivity.
  - right. left. exists (GetVertex best). cbn [fst snd].
    repeat split. left. congruence.
Qed.

(** *** When a run throws *)

Lemma scoreVertex_returns (pVertex : Vertex) :
  firstViewFailure api this = None ->
  exists scored, scoreVertex' pVertex = Normal scored.
Proof.
  unfold firstViewFailure, scoreVertex.
  destruct (viewFailure api TPC_VIEW_U _) as [sU|] eqn:HU; [discriminate|].
  destruct (viewFailure api TPC_VIEW_V _) as [sV|] eqn:HV; [discriminate|].
  intros HW.
  destruct (viewFailure_none atan2 pow ProjectPosition api this pVertex _ _
              (newHistogram this) HU) as (_ & _ & rU & ->).
  destruct (viewFailure_none atan2 pow ProjectPosition api this pVertex _ _
              (newHistogram this) HV) as (_ & _ & rV & ->).
  destruct (viewFailure_none atan2 pow ProjectPosition api this pVertex _ _
              (newHistogram this) HW) as (_ & _ & rW & ->).
  cbn [bind]. destruct (_ || _); eauto.
Qed.

Lemma scoreLoop_returns (vertices : VertexList) :
  firstViewFailure api this = None ->
  forall vertexScoreList,
  exists scored, scoreLoop' vertices vertexScoreList = Normal scored.
Proof.
  intros Hnone.
  induction vertices as [|pVertex rest IH]; intros acc; simpl.
  - eauto.
  - destruct (scoreVertex_returns pVertex Hnone) as [scored ->].
    cbn [bind]. apply IH.
Qed.

Lemma scoreLoop_throws (vertices : VertexList) (s : StatusCode) :
  forall vertexScoreList,
    scoreLoop' vertices vertexScoreList = StatusCodeException s ->
    vertices <> [] /\ firstViewFailure api this = Some s.
Proof.
  intros acc Hthrown.
  destruct vertices as [|pVertex rest]; [discriminate|].
  split; [discriminate|].
  destruct (firstViewFailure api this) as [s'|] eqn:Hfirst.
  - simpl in Hthrown.
    rewrite (scoreVertex_throws atan2 pow ProjectPosition api this
               pVertex s' Hfirst) in Hthrown.
    cbn [bind] in Hthrown. congruence.
  - destruct (scoreLoop_returns (pVertex :: rest) Hfirst acc) as [scored Hs].
    congruence.
Qed.

(** X8: a run throws exactly when the input vertex list is fetched, holds
    at least one vertex, and the scan of some view fails; the status thrown
    is that of the first failing view.  When no view fails a run returns
    normally, whatever the vertices. *)
Theorem Run_throws_exactly_on_view_failure :
  (forall s,
      fst Run' = StatusCodeException s
      <-> (exists pVertex rest,
              GetCurrentList api = (STATUS_CODE_SUCCESS, pVertex :: rest))
          /\ firstViewFailure api this = Some s)
  /\ (firstViewFailure api this = None ->
      exists statusCode, fst Run' = Normal statusCode).
Proof.
  split.
  - intros s. split.
    + intros Hthrown. unfold Run in Hthrown.
      destruct (GetCurrentList api) as [statusCode vertices].
      destruct (StatusCode_eq_dec STATUS_CODE_SUCCESS statusCode) as [<-|Hs];
        [|discriminate].
      destruct (scoreLoop' vertices []) as [scored|s'|] eqn:Hloop.
      * exfalso. revert Hthrown. unfold saveSelection.
        destruct (negb _); [|discriminate].
        destruct (std_sort scored); [discriminate|].
        destruct (StatusCode_eq_dec _ (SaveList api _ _)); [|discriminate].
        destruct (m_replaceCurrentVertexList this); [|discriminate].
        destruct (StatusCode_eq_dec _ (ReplaceCurrentList api _));
          discriminate.
      * cbn [fst] in Hthrown. injection Hthrown as ->.
        destruct (scoreLoop_throws vertices s [] Hloop) as [Hne Hfirst].
        split; [|exact Hfirst].
        destruct vertices as [|pVertex rest]; [congruence|eauto].
      * discriminate.
    + intros [(pVertex & rest & Hlist) Hfirst].
      rewrite (Run_thrown atan2 pow ProjectPosition std_sort api this
                 (pVertex :: rest) s Hlist); [reflexivity|].
      simpl.
      rewrite (scoreVertex_throws atan2 pow ProjectPosition api this
                 pVertex s Hfirst).
      reflexivity.
  - intros Hnone.
    pose proof (Run_not_out_of_range atan2 pow ProjectPosition std_sort
                  api this) as Hrange.
    destruct (fst Run') as [statusCode|s|] eqn:HRun; [eauto| |congruence].
    exfalso. unfold Run in HRun.
    destruct (GetCurrentList api) as [statusCode vertices].
    destruct (StatusCode_eq_dec STATUS_CODE_SUCCESS statusCode) as [<-|Hs];
      [|discriminate].
    destruct (scoreLoop_returns vertices Hnone []) as [scored Hscored].
    rewrite Hscored in HRun. revert HRun. unfold saveSelection.
    destruct (negb _); [|discriminate].
    destruct (std_sort scored); [discriminate|].
    destruct (StatusCode_eq_dec _ (SaveList api _ _)); [|discriminate].
    destruct (m_replaceCurrentVertexList this); [|discriminate].
    destruct (StatusCode_eq_dec _ (ReplaceCurrentList api _)); discriminate.
Qed.

(** *** The score list *)

Lemma scoreLoop_flat_map (vertices : VertexList) :
  forall vertexScoreList scored,
    scoreLoop' vertices vertexScoreList = Normal scored ->
    scored = vertexScoreList ++ flat_map scoredEntry' vertices.
Proof.
  induction vertices as [|pVertex rest IH]; intros acc scored; simpl.
  - intros H. injection H as <-. rewrite app_nil_r. reflexivity.
  - unfold scoredEntry at 1. unfold bind at 1.
    destruct (scoreVertex' pVertex) as [[vertexScore|]| |];
      try discriminate; intros H; rewrite (IH _ _ H).
    + rewrite <- app_assoc. reflexivity.
    + reflexivity.
Qed.



(** X9: when every view scans without failure and one of the three cluster
    lists is empty, no vertex is on a hit in that view, so no vertex is
    scored and, with [std::sort] doing what is asked of it, the run returns
    success without writing. *)
Theorem empty_cluster_list_gives_no_output :
  forall (vertices : VertexList) (view : HitType) (name : string),
    sortsByOperatorLt std_sort ->
    GetCurrentList api = (STATUS_CODE_SUCCESS, vertices) ->
    firstViewFailure api this = None ->
    In (view, name) (scannedViews this) ->
    snd (GetList api name) = [] ->
    scoreLoop' vertices [] = Normal []
    /\ Run' = (Normal STATUS_CODE_SUCCESS, []).
Proof.
  intros vertices view name Hsort Hlist Hnone Hin Hempty.
  assert (Hoff : forall pVertex, scoredEntry' pVertex = []).
  { intros pVertex. unfold scoredEntry.
    destruct (scoreVertex' pVertex) as [[vertexScore|]| |] eqn:Hscore;
      try reflexivity.
    exfalso.
    destruct (scoreVertex_onHit atan2 pow ProjectPosition api this _ _ Hscore)
      as [_ Hon].
    destruct (Hon view name Hin) as [h Hh].
    apply (FillHistogram_returned atan2 pow ProjectPosition api this) in Hh
      as (_ & _ & Hflag).
    rewrite Hempty in Hflag. discriminate Hflag. }
  assert (Hscored : scoreLoop' vertices [] = Normal []).
  { destruct (scoreLoop_returns vertices Hnone []) as [scored Hs].
    rewrite Hs. f_equal.
    apply scoreLoop_flat_map in Hs. simpl in Hs. subst scored.
    clear - Hoff. induction vertices as [|v rest IH]; simpl; [reflexivity|].
    rewrite Hoff. exact IH. }
  split; [exact Hscored|].
  rewrite (Run_scored atan2 pow ProjectPosition std_sort api this
             vertices [] Hlist Hscored).
  destruct (Hsort [] (Forall_nil _)) as [Hperm _].
  apply Permutation_nil in Hperm. rewrite Hperm. reflexivity.
Qed.

End MoreFacts.

(** ** Further properties of the selection walk *)

Section SelectionFacts.

Variable this : VertexSelectionAlgorithm.

Lemma walk_subsequence (entries : VertexScoreList) :
  forall state,
  exists more,
    selectedVertexScoreList (fold_left (walkBody this) entries state)
    = selectedVertexScoreList state ++ more
    /\ Subsequence more entries.
Proof.
  induction entries as [|entry rest IH]; intros state; simpl.
  - exists []. rewrite app_nil_r. split; [reflexivity|constructor].
  - destruct (IH (walkBody this state entry)) as (more & Hsel & Hsub).
    destruct (walkBody_selected this state entry) as [Hsame|(_ & Happ & _)].
    + exists more. rewrite Hsel, Hsame. split; [reflexivity|].
      apply Subsequence_skip, Hsub.
    + exists (entry :: more). rewrite Hsel, Happ, <- app_assoc.
      split; [reflexivity|]. apply Subsequence_keep, Hsub.
Qed.

(** X11: the accepted list is the sorted list with entries left out: the
    walk never reorders and never duplicates, so the accepted entries come in
    the order of the list walked, stay sorted when it is, and are distinct
    when its entries are. *)
Theorem accepted_list_keeps_the_order :
  forall vertexScoreList : VertexScoreList,
    Subsequence (selectVertices this vertexScoreList) vertexScoreList
    /\ (StronglySorted notBefore vertexScoreList ->
        StronglySorted notBefore (selectVertices this vertexScoreList))
    /\ (NoDup vertexScoreList ->
        NoDup (selectVertices this vertexScoreList))
    /\ (NoDup (map GetVertex vertexScoreList) ->
        NoDup (map GetVertex (selectVertices this vertexScoreList))).
Proof.
  intros l.
  assert (Hsub : Subsequence (selectVertices this l) l).
  { unfold selectVertices, walk.
    destruct (walk_subsequence l walkStart) as (more & -> & Hsub).
    exact Hsub. }
  split; [exact Hsub|].
  split; [apply Subsequence_sorted, Hsub|].
  split; [apply Subsequence_NoDup, Hsub|].
  apply Subsequence_NoDup, Subsequence_map, Hsub.
Qed.

Lemma walkBody_walksToItself (state : WalkState) (entry : VertexScore) :
  walksToItself this state ->
  walksToItself this (walkBody this state entry).
Proof.
  intros (c & Hwalk & Hc & Hn & Hrel).
  pose proof UINT_MODULUS_value as HM.
  unfold walkBody.
  destruct (leftLoop state) eqn:Hleft.
  { exists c. rewrite Hleft. auto. }
  assert (Hn' : 0 <= (nVerticesConsidered state + 1) mod UINT_MODULUS
                < UINT_MODULUS)
    by (apply Z.mod_pos_bound; lia).
  assert (Hc' : 0 <= (c + 1) mod UINT_MODULUS < UINT_MODULUS)
    by (apply Z.mod_pos_bound; lia).
  destruct (_ >? m_maxTopScoreCandidates this) eqn:Hbreak.
  { exists c. cbn [selectedVertexScoreList nVerticesConsidered leftLoop].
    auto. }
  rewrite Z.gtb_ltb in Hbreak. apply Z.ltb_ge in Hbreak.
  assert (Hstep : UINT_MODULUS - 1 <= m_maxTopScoreCandidates this
                  \/ (c + 1 <= (nVerticesConsidered state + 1) mod UINT_MODULUS
                      /\ (c + 1) mod UINT_MODULUS = c + 1)).
  { destruct Hrel as [Hrel|[Hrel|[Hle Hrel]]]; [congruence|left; exact Hrel|].
    destruct (Z_le_gt_dec (UINT_MODULUS - 1) (m_maxTopScoreCandidates this))
      as [Hbig|Hsmall]; [left; exact Hbig|right].
    assert (Hsmalln : nVerticesConsidered state + 1 < UINT_MODULUS).
    { destruct Hrel as [Hrel|Hrel]; lia. }
    rewrite (Z.mod_small (nVerticesConsidered state + 1)) in * by lia.
    rewrite Z.mod_small by lia. lia. }
  destruct (negb (isEmpty (selectedVertexScoreList state))
            && negb (AcceptVertexLocation this (GetVertex entry)
                       (selectedVertexScoreList state))) eqn:Hloc.
  { exists c. cbn [selectedVertexScoreList nVerticesConsidered leftLoop].
    repeat split; try tauto; lia. }
  destruct (negb (isEmpty (selectedVertexScoreList state))
            && negb (AcceptVertexScore this (GetScore entry)
                       (selectedVertexScoreList state))) eqn:Hscore.
  { exists c. cbn [selectedVertexScoreList nVerticesConsidered leftLoop].
    repeat split; try tauto; lia. }
  exists ((c + 1) mod UINT_MODULUS).
  cbn [selectedVertexScoreList nVerticesConsidered leftLoop].
  split.
  - rewrite walk_app, Hwalk. cbn [fold_left]. unfold walkBody.
    cbn [selectedVertexScoreList nVerticesConsidered leftLoop].
    assert (Hgo : ((c + 1) mod UINT_MODULUS >? m_maxTopScoreCandidates this)
                  = false).
    { rewrite Z.gtb_ltb. apply Z.ltb_ge.
      destruct Hstep as [Hbig|[Hle Heq]]; lia. }
    rewrite Hgo, Hloc, Hscore. reflexivity.
  - repeat split; try tauto; lia.
Qed.

(** X16: selecting again from the accepted list changes nothing: each
    accepted entry passes both tests against the entries accepted before it,
    and the accepted list is never longer than the depth allows.  This holds
    for every depth and every list, with the counter's wrap-around. *)
Theorem selection_is_idempotent :
  forall vertexScoreList : VertexScoreList,
    selectVertices this (selectVertices this vertexScoreList)
    = selectVertices this vertexScoreList.
Proof.
  intros l.
  assert (H : walksToItself this (walk this l)).
  { unfold walk at 1.
    apply (fold_left_invariant (walkBody this) (walksToItself this)).
    - intros state entry. apply walkBody_walksToItself.
    - exists 0. pose proof UINT_MODULUS_value. cbn.
      repeat split; lia. }
  destruct H as (c & Hwalk & _).
  unfold selectVertices at 1. fold (selectVertices this l) in Hwalk.
  rewrite Hwalk. reflexivity.
Qed.

(** X15: both tests only get harder to pass as the accepted list grows, and
    neither depends on the order of the accepted list: a candidate that
    passes against a list passes against every list drawn from it. *)
Theorem acceptance_is_antitone :
  forall (pVertex : Vertex) (score : float) (fewer accepted : VertexScoreList),
    incl fewer accepted ->
    (AcceptVertexLocation this pVertex accepted = true ->
     AcceptVertexLocation this pVertex fewer = true)
    /\ (AcceptVertexScore this score accepted = true ->
        AcceptVertexScore this score fewer = true).
Proof.
  intros pVertex score fewer accepted Hincl.
  split; intros Hacc.
  - apply AcceptVertexLocation_true. apply AcceptVertexLocation_true in Hacc.
    rewrite Forall_forall in *. auto.
  - apply AcceptVertexScore_true. apply AcceptVertexScore_true in Hacc.
    rewrite Forall_forall in *. auto.
Qed.

End SelectionFacts.

(** ** Further properties of the histograms and the score *)

Section HistogramFacts.

Context {Histogram : Type} {histogramOps : HistogramOps Histogram}.
Variables atan2 pow : float -> float -> float.
Variable ProjectPosition : CartesianVector -> HitType -> CartesianVector.
Variable api : PandoraContentApi.
Variable this : VertexSelectionAlgorithm.

Local Abbreviation hitBody' := (hitBody atan2 pow this).
Local Abbreviation layerBody' := (layerBody atan2 pow this).
Local Abbreviation fillHit' := (fillHit atan2 pow this).
Local Abbreviation FillHistogramCluster' := (FillHistogramCluster atan2 pow this).
Local Abbreviation clusterLoop' := (clusterLoop atan2 pow ProjectPosition this).
Local Abbreviation FillHistogram' := (FillHistogram atan2 pow ProjectPosition api this).
Local Abbreviation scoreVertex' := (scoreVertex atan2 pow ProjectPosition api this).

Local Abbreviation isFilled v :=
  (fun pCaloHit =>
     negb (isBeyondMaxDisplacement this (hitMagnitude v pCaloHit))).

Lemma hits_snd (v : CartesianVector) (hits : CaloHitList) :
  forall state : bool * Histogram,
    snd (fold_left (hitBody' v) hits state)
    = fold_left (fillHit' v) (filter (isFilled v) hits) (snd state).
Proof.
  induction hits as [|pCaloHit rest IH]; intros state; simpl.
  - reflexivity.
  - rewrite IH.
    destruct (isBeyondMaxDisplacement this (hitMagnitude v pCaloHit))
      eqn:Hbeyond; simpl.
    + rewrite (hitBody_skipped atan2 pow this v state pCaloHit Hbeyond).
      reflexivity.
    + rewrite (hitBody_filled atan2 pow this v state pCaloHit Hbeyond).
      reflexivity.
Qed.

Lemma layers_snd (v : CartesianVector) (layers : OrderedCaloHitList) :
  forall state : bool * Histogram,
    snd (fold_left (layerBody' v) layers state)
    = fold_left (fillHit' v) (filter (isFilled v) (flat_map snd layers))
                (snd state).
Proof.
  induction layers as [|layer rest IH]; intros state; simpl.
  - reflexivity.
  - rewrite IH, filter_app, fold_left_app. unfold layerBody.
    rewrite hits_snd. reflexivity.
Qed.

Lemma FillHistogramCluster_snd (v : CartesianVector) (pCluster : Cluster)
    (histogram : Histogram) :
  snd (FillHistogramCluster' v pCluster histogram)
  = fold_left (fillHit' v) (filledHits this v pCluster) histogram.
Proof. unfold FillHistogramCluster. rewrite layers_snd. reflexivity. Qed.

Lemma clusterLoop_snd (pVertex : Vertex) (hitType : HitType)
    (clusters : ClusterList) :
  forall (state result : bool * Histogram),
    clusterLoop' pVertex hitType clusters state = Normal result ->
    snd result
    = fold_left (fillHit' (ProjectPosition (GetPosition pVertex) hitType))
        (flat_map (filledHits this
                     (ProjectPosition (GetPosition pVertex) hitType))
                  clusters)
        (snd state).
Proof.
  induction clusters as [|pCluster rest IH]; intros state result; simpl.
  - intros H. injection H as <-. reflexivity.
  - destruct (HitType_eq_dec hitType (GetClusterHitType pCluster));
      [|discriminate].
    intros H. rewrite (IH _ _ H). cbn [snd].
    rewrite fold_left_app, FillHistogramCluster_snd. reflexivity.
Qed.

(** X14: a scan that finds its list and only clusters of its view returns
    the histogram it was given, filled once for each hit that is not beyond
    [m_maxHitVertexDisplacement], in the order of the clusters, layers and
    hits, and with no other call; the flag it returns does not depend on the
    histogram. *)
Theorem scan_fills_the_hits_in_order :
  forall (pVertex : Vertex) (hitType : HitType) (clusterListName : string)
         (histogram : Histogram),
    let v := ProjectPosition (GetPosition pVertex) hitType in
    let clusters := snd (GetList api clusterListName) in
    fst (GetList api clusterListName) = STATUS_CODE_SUCCESS ->
    Forall (fun pCluster => GetClusterHitType pCluster = hitType) clusters ->
    FillHistogram' pVertex hitType clusterListName histogram
    = Normal (existsb (clusterSetsOnHit this v) clusters,
              fold_left (fillHit' v) (flat_map (filledHits this v) clusters)
                        histogram).
Proof.
  intros pVertex hitType name histogram v clusters Hfetched Hviews.
  destruct (FillHistogram_returns atan2 pow ProjectPosition api this
              pVertex hitType name histogram Hfetched Hviews)
    as [histogram' Hscan].
  fold v clusters in Hscan. rewrite Hscan. do 2 f_equal.
  unfold FillHistogram in Hscan.
  destruct (GetList api name) as [statusCode pClusterList].
  destruct (StatusCode_eq_dec STATUS_CODE_SUCCESS statusCode);
    [|discriminate].
  apply clusterLoop_snd in Hscan. exact Hscan.
Qed.

(** *** The sign of the score *)

Lemma binLoop_plus (histogram : Histogram) (remaining : nat) :
  forall (xBin : Z) (sumSquaredEntries : float),
    hasMinusSign sumSquaredEntries = false ->
    hasMinusSign (binLoop histogram remaining xBin sumSquaredEntries) = false.
Proof.
  induction remaining as [|remaining IH]; intros xBin s Hs; simpl.
  - exact Hs.
  - apply IH. apply IEEESign.SFadd_plus; [exact Hs|].
    apply IEEESign.SFmul_square_plus.
Qed.

Lemma GetFigureOfMeritView_plus (histogram : Histogram) :
  hasMinusSign (GetFigureOfMeritView histogram) = false.
Proof. apply binLoop_plus. reflexivity. Qed.

Lemma GetFigureOfMerit_plus (hU hV hW : Histogram) :
  hasMinusSign (GetFigureOfMerit hU hV hW) = false.
Proof.
  unfold GetFigureOfMerit.
  repeat apply IEEESign.SFadd_plus;
    try apply GetFigureOfMeritView_plus; reflexivity.
Qed.

(** X13: whatever the bins hold (negative numbers, infinities and NaN
    included), the figure of merit is NaN or carries no minus sign: it is
    never below zero and never minus zero, and so is the score of every
    scored vertex. *)
Theorem figure_of_merit_is_never_negative :
  (forall hU hV hW : Histogram,
      hasMinusSign (GetFigureOfMerit hU hV hW) = false
      /\ ltb (GetFigureOfMerit hU hV hW) zero = false
      /\ hasMinusSign (GetFigureOfMeritView hU) = false)
  /\ (forall (pVertex : Vertex) (vertexScore : VertexScore),
         scoreVertex' pVertex = Normal (Some vertexScore) ->
         hasMinusSign (GetScore vertexScore) = false
         /\ ltb (GetScore vertexScore) zero = false).
Proof.
  split.
  - intros hU hV hW.
    split; [apply GetFigureOfMerit_plus|].
    split; [|apply GetFigureOfMeritView_plus].
    apply IEEESign.plus_not_below_zero, GetFigureOfMerit_plus.
  - intros pVertex vertexScore Hscore.
    apply (scoreVertex_scored atan2 pow ProjectPosition api this) in Hscore
      as (hU & hV & hW & _ & _ & _ & ->).
    cbn [GetScore].
    split; [apply GetFigureOfMerit_plus|].
    apply IEEESign.plus_not_below_zero, GetFigureOfMerit_plus.
Qed.

End HistogramFacts.

(** ** Ties between candidates *)

Lemma insertionSortReversed_sorts :
  sortsByOperatorLt Fixtures.insertionSortReversed.
Proof.
  intros l Hl. unfold Fixtures.insertionSortReversed.
  assert (Hrev : scoresAreNumbers (rev l)) by (apply Forall_rev, Hl).
  destruct (SortFacts.insertionSort_sorts (rev l) Hrev) as [Hperm Hsorted].
  split; [|exact Hsorted].
  eapply Permutation_trans; [apply Permutation_rev|exact Hperm].
Qed.

Lemma sorted_heads_tie (sort1 sort2 : VertexScoreList -> VertexScoreList)
    (scored : VertexScoreList) (best1 best2 : VertexScore)
    (rest1 rest2 : VertexScoreList) :
  sortsByOperatorLt sort1 -> sortsByOperatorLt sort2 ->
  scoresAreNumbers scored ->
  sort1 scored = best1 :: rest1 -> sort2 scored = best2 :: rest2 ->
  SFleb (GetScore best2) (GetScore best1) = true.
Proof.
  intros H1 H2 Hnum E1 E2.
  destruct (H1 scored Hnum) as [Hperm1 Hsorted1].
  destruct (H2 scored Hnum) as [Hperm2 _].
  rewrite E1 in *. rewrite E2 in *.
  assert (Hin2 : In best2 scored).
  { apply (Permutation_in _ (Permutation_sym Hperm2)). left. reflexivity. }
  assert (Hin1 : In best1 scored).
  { apply (Permutation_in _ (Permutation_sym Hperm1)). left. reflexivity. }
  pose proof (sorted_head_first best1 rest1 Hsorted1 best2
                (Permutation_in _ Hperm1 Hin2)) as Hlt.
  unfold VertexScore_lt, gtb in Hlt.
  unfold scoresAreNumbers in Hnum. rewrite Forall_forall in Hnum.
  apply IEEE.SFltb_total in Hlt; [exact Hlt| |];
    apply is_nan_not_nan, Hnum; assumption.
Qed.

(** X12: which of several candidates of the greatest score is handed over
    is left to [std::sort].  Two sorts that both do what the standard asks
    put entries of equal score first, and agree on whether anything is
    accepted; but they need not put the same entry first: on two vertices at
    one position, a stable sort and one that reverses ties hand over
    different vertices. *)
Theorem ties_are_left_to_the_sort :
  (forall (this : VertexSelectionAlgorithm)
          (sort1 sort2 : VertexScoreList -> VertexScoreList)
          (scored : VertexScoreList),
      sortsByOperatorLt sort1 -> sortsByOperatorLt sort2 ->
      scoresAreNumbers scored ->
      (forall best1 rest1 best2 rest2,
          sort1 scored = best1 :: rest1 -> sort2 scored = best2 :: rest2 ->
          SFeqb (GetScore best1) (GetScore best2) = true)
      /\ (selectVertices this (sort1 scored) = []
          <-> selectVertices this (sort2 scored) = []))
  /\ sortsByOperatorLt Scenario.insertionSort
  /\ sortsByOperatorLt Fixtures.insertionSortReversed
  /\ @outputVertexList _ Scenario.binnedOps
       Scenario.axisAtan2 Scenario.inverseSqrtPow
       Scenario.projectAlongY Scenario.insertionSort
       (Scenario.framework Fixtures.twins) Scenario.algorithm
     = [Scenario.vertexA]
  /\ @outputVertexList _ Scenario.binnedOps
       Scenario.axisAtan2 Scenario.inverseSqrtPow
       Scenario.projectAlongY Fixtures.insertionSortReversed
       (Scenario.framework Fixtures.twins) Scenario.algorithm
     = [Fixtures.twinOfA].
Proof.
  split; [|split; [apply SortFacts.insertionSort_sorts|
           split; [apply insertionSortReversed_sorts|
           split; vm_compute; reflexivity]]].
  intros this sort1 sort2 scored H1 H2 Hnum. split.
  - intros best1 rest1 best2 rest2 E1 E2.
    apply IEEESign.SFleb_antisym.
    + apply (sorted_heads_tie sort2 sort1 scored best2 best1 rest2 rest1);
        assumption.
    + apply (sorted_heads_tie sort1 sort2 scored best1 best2 rest1 rest2);
        assumption.
  - assert (Hempty : forall sortA sortB,
               sortsByOperatorLt sortA -> sortsByOperatorLt sortB ->
               selectVertices this (sortA scored) = [] ->
               selectVertices this (sortB scored) = []).
    { intros sortA sortB HA HB Hnone.
      destruct (Z_lt_le_dec (m_maxTopScoreCandidates this) 1) as [Hd|Hd].
      - apply selectVertices_no_depth, Hd.
      - destruct (HA scored Hnum) as [HpermA _].
        destruct (HB scored Hnum) as [HpermB _].
        destruct (sortA scored) as [|best rest] eqn:EA.
        + apply Permutation_sym, Permutation_nil in HpermA. subst scored.
          apply Permutation_nil in HpermB. rewrite HpermB. reflexivity.
        + destruct (selectVertices_head this best rest Hd) as (more & E & _).
          congruence. }
    split; apply Hempty; assumption.
Qed.

(** ** What the selection settings do to a run *)

Section SettingsFacts.

Context {Histogram : Type} {histogramOps : HistogramOps Histogram}.
Variables atan2 pow : float -> float -> float.
Variable ProjectPosition : CartesianVector -> HitType -> CartesianVector.
Variable std_sort : VertexScoreList -> VertexScoreList.
Variable api : PandoraContentApi.

Lemma saveSelection_uses_emptiness_only (this : VertexSelectionAlgorithm)
    (vertexScoreList selected selected' : VertexScoreList) :
  isEmpty selected = isEmpty selected' ->
  saveSelection api this vertexScoreList selected
  = saveSelection api this vertexScoreList selected'.
Proof. unfold saveSelection. intros ->. reflexivity. Qed.

Lemma selectVertices_isEmpty (this : VertexSelectionAlgorithm)
    (vertexScoreList : VertexScoreList) :
  1 <= m_maxTopScoreCandidates this ->
  isEmpty (selectVertices this vertexScoreList) = isEmpty vertexScoreList.
Proof.
  intros Hdepth. destruct vertexScoreList as [|best rest]; [reflexivity|].
  destruct (selectVertices_head this best rest Hdepth) as (more & -> & _).
  reflexivity.
Qed.

(** X6: [vertexScoreList.at(0)] is never out of range: whatever order the
    sort leaves, the accepted list is drawn from the sorted list and is empty
    when that is, so neither the selection nor a run ends in
    [std::out_of_range]. *)
Theorem Run_never_reads_past_the_score_list :
  forall this : VertexSelectionAlgorithm,
    (forall vertexScoreList : VertexScoreList,
        fst (saveSelection api this vertexScoreList
               (selectVertices this vertexScoreList)) <> StdOutOfRange)
    /\ fst (Run atan2 pow ProjectPosition std_sort api this) <> StdOutOfRange.
Proof.
  intros this. split; [|apply Run_not_out_of_range].
  intros [|best rest].
  - rewrite saveSelection_nothing. discriminate.
  - unfold saveSelection. destruct (negb _); [|discriminate].
    destruct (StatusCode_eq_dec _ (SaveList api _ _)); [|discriminate].
    destruct (m_replaceCurrentVertexList this); [|discriminate].
    destruct (StatusCode_eq_dec _ (ReplaceCurrentList api _)); discriminate.
Qed.

(** X17: the outcome of a run does not depend on [m_minCandidateDisplacement]
    or [m_minCandidateScoreFraction], nor on [m_maxTopScoreCandidates] as
    long as it is at least 1: two objects that agree on the other members
    return the same status and make the same calls, since only the emptiness
    of the accepted list is looked at. *)
Theorem selection_settings_do_not_change_the_run :
  forall this other : VertexSelectionAlgorithm,
    agreeOutsideSelection this other ->
    1 <= m_maxTopScoreCandidates this ->
    1 <= m_maxTopScoreCandidates other ->
    Run atan2 pow ProjectPosition std_sort api this
    = Run atan2 pow ProjectPosition std_sort api other.
Proof.
  intros this other Hagree Hthis Hother.
  destruct this as [nameU nameV nameW nameOut replace nBins phiMin phiMax
                    maxHit maxOnHit power depth minDisplacement minFraction].
  destruct other as [nameU' nameV' nameW' nameOut' replace' nBins' phiMin'
                     phiMax' maxHit' maxOnHit' power' depth' minDisplacement'
                     minFraction'].
  unfold agreeOutsideSelection in Hagree.
  cbn [m_inputClusterListNameU m_inputClusterListNameV m_inputClusterListNameW
       m_outputVertexListName m_replaceCurrentVertexList m_histogramNPhiBins
       m_histogramPhiMin m_histogramPhiMax m_maxHitVertexDisplacement
       m_maxOnHitDisplacement m_hitDeweightingPower] in Hagree.
  destruct Hagree as (<- & <- & <- & <- & <- & <- & <- & <- & <- & <- & <-).
  set (this := mkAlgorithm nameU nameV nameW nameOut replace nBins phiMin
                 phiMax maxHit maxOnHit power depth minDisplacement
                 minFraction) in *.
  set (other := mkAlgorithm nameU nameV nameW nameOut replace nBins phiMin
                  phiMax maxHit maxOnHit power depth' minDisplacement'
                  minFraction') in *.
  assert (Hscore : forall vertices vertexScoreList,
             scoreLoop atan2 pow ProjectPosition api this
                       vertices vertexScoreList
             = scoreLoop atan2 pow ProjectPosition api other
                         vertices vertexScoreList).
  { induction vertices as [|pVertex rest IH]; intros acc; [reflexivity|].
    cbn [scoreLoop].
    change (scoreVertex atan2 pow ProjectPosition api this pVertex)
      with (scoreVertex atan2 pow ProjectPosition api other pVertex).
    destruct (scoreVertex atan2 pow ProjectPosition api other pVertex)
      as [scored| |]; cbn [bind]; [apply IH|reflexivity|reflexivity]. }
  unfold Run. destruct (GetCurrentList api) as [statusCode vertices].
  destruct (StatusCode_eq_dec STATUS_CODE_SUCCESS statusCode);
    [|reflexivity].
  rewrite Hscore.
  destruct (scoreLoop atan2 pow ProjectPosition api other vertices [])
    as [scored| |]; try reflexivity.
  rewrite (saveSelection_uses_emptiness_only this (std_sort scored)
             (selectVertices this (std_sort scored))
             (selectVertices other (std_sort scored))).
  - reflexivity.
  - rewrite !selectVertices_isEmpty by assumption. reflexivity.
Qed.

End SettingsFacts.

(** ** The embedding at work *)

Module Runs.
Import Scenario.

Example candidates_scored :
  scoreLoop axisAtan2 inverseSqrtPow projectAlongY (framework candidates)
            algorithm candidates []
  = Normal scoredCandidates.
Proof. vm_compute. reflexivity. Qed.

Example candidates_sorted :
  insertionSort scoredCandidates
  = [mkVertexScore vertexA scoreOfA; mkVertexScore vertexB scoreOfB].
Proof. vm_compute. reflexivity. Qed.

(** [vertexB] is far enough from [vertexA] but scores less than 0.9 times
    as much: only [vertexA] is accepted. *)
Example candidates_selected :
  selectVertices algorithm (insertionSort scoredCandidates)
  = [mkVertexScore vertexA scoreOfA].
Proof. vm_compute. reflexivity. Qed.

Example candidates_run :
  run (framework candidates) algorithm
  = (Normal STATUS_CODE_SUCCESS,
     [SaveListCall "SelectedVertices" [vertexA];
      ReplaceCurrentListCall "SelectedVertices"]).
Proof. vm_compute. reflexivity. Qed.

Example no_cluster_list_run :
  run (frameworkWithoutClusters candidates) algorithm
  = (StatusCodeException STATUS_CODE_NOT_INITIALIZED, []).
Proof. vm_compute. reflexivity. Qed.

(** A hit at the projected vertex position: magnitude zero, the flag set,
    and the bin of angle zero holding what [1 / sqrt 0] gives. *)
Example hit_on_the_vertex :
  let vertexPosition2D := projectAlongY (GetPosition vertexB) TPC_VIEW_W in
  let filled :=
    hitBody axisAtan2 inverseSqrtPow algorithm vertexPosition2D
            (false, newHistogram algorithm) (mkCaloHit (onXAxis ten)) in
  hitMagnitude vertexPosition2D (mkCaloHit (onXAxis ten)) = zero
  /\ fst filled = true
  /\ GetBinContent (snd filled) 100 = S754_infinity false.
Proof. vm_compute. auto. Qed.

(** The location predicate flips between distance 2 and the number just
    below it. *)
Example location_boundary :
  AcceptVertexLocation algorithm (mkVertex 4288 (onXAxis two))
                       [mkVertexScore vertexA scoreOfA] = true
  /\ AcceptVertexLocation algorithm (mkVertex 4288 (onXAxis justBelowTwo))
                          [mkVertexScore vertexA scoreOfA] = false.
Proof. vm_compute. auto. Qed.

(** The score predicate flips between 0.9 times the accepted score and the
    number just below it. *)
Example score_boundary :
  AcceptVertexScore algorithm thresholdOfA [mkVertexScore vertexA scoreOfA]
  = true
  /\ AcceptVertexScore algorithm justBelowThresholdOfA
                       [mkVertexScore vertexA scoreOfA] = false.
Proof. vm_compute. auto. Qed.

(** With a depth of 1 the second entry is not looked at, although it would
    pass both predicates. *)
Example depth_one :
  let twice := [mkVertexScore vertexA scoreOfA; mkVertexScore vertexB scoreOfA] in
  selectVertices algorithm twice = twice
  /\ selectVertices (withMaxTopScoreCandidates 1 algorithm) twice
     = [mkVertexScore vertexA scoreOfA].
Proof. vm_compute. auto. Qed.

(** [vertexC] is far from every hit: its scan of a view returns [false], and
    it is not scored. *)
Example vertexC_is_on_no_hit :
  match FillHistogram axisAtan2 inverseSqrtPow projectAlongY
                      (framework candidates) algorithm
                      vertexC TPC_VIEW_U "ClustersU" (newHistogram algorithm)
  with
  | Normal (isVertexOnHit, _) => isVertexOnHit = false
  | _ => False
  end
  /\ scoreVertex axisAtan2 inverseSqrtPow projectAlongY
                 (framework candidates) algorithm vertexC
     = Normal None.
Proof. vm_compute. auto. Qed.

End Runs.

(** ** Claims that fail as stated *)

Import Scenario.

(** C2, as stated, fails: with the constructor's settings a hit at the
    projected vertex position passes the guard of line 137 and its magnitude
    is zero. *)
Lemma zero_magnitude_hit_reaches_fill :
  ~ filled_hits_have_nonzero_magnitude algorithm.
Proof.
  intros H.
  assert (Hfilled :
            isBeyondMaxDisplacement algorithm
              (hitMagnitude (onXAxis ten) (mkCaloHit (onXAxis ten))) = false)
    by (vm_compute; reflexivity).
  specialize (H (onXAxis ten) (mkCaloHit (onXAxis ten)) Hfilled).
  vm_compute in H. discriminate H.
Qed.

(** C4, as stated, fails: with [MaxHitVertexDisplacement] 0.5 and the on-hit
    threshold 1, a hit at distance 0.75 lies strictly within the threshold,
    yet the scan skips it and returns [false]. *)
Lemma hit_within_threshold_is_skipped :
  ~ onHit_whenever_a_hit_is_within_threshold
      axisAtan2 inverseSqrtPow projectAlongY
      (frameworkWithOneHit [vertexA]) shortReach.
Proof.
  intros H.
  assert (Hscan :
            FillHistogram axisAtan2 inverseSqrtPow projectAlongY
                          (frameworkWithOneHit [vertexA]) shortReach
                          vertexA TPC_VIEW_U "ClustersU"
                          (newHistogram shortReach)
            = Normal (false, newHistogram shortReach))
    by (vm_compute; reflexivity).
  specialize (H _ _ _ _ _ _ Hscan).
  assert (Hflag : false = true); [|discriminate Hflag].
  apply H.
  exists (mkCluster TPC_VIEW_U [(1, [mkCaloHit (onXAxis threeQuarters)])]),
         (1, [mkCaloHit (onXAxis threeQuarters)]),
         (mkCaloHit (onXAxis threeQuarters)).
  repeat split; try (left; reflexivity).
Qed.

(** C9, as stated, fails: with an empty input vertex list no cluster list is
    asked for, so a run in which none of them can be fetched still returns
    success. *)
Lemma unfetchable_lists_go_unnoticed :
  ~ failure_conditions_abort_the_run
      axisAtan2 inverseSqrtPow projectAlongY insertionSort
      (frameworkWithoutClusters []) algorithm.
Proof.
  unfold failure_conditions_abort_the_run. intros [H _].
  destruct H as [Hfail _].
  - right. left. exists TPC_VIEW_U, "ClustersU"%string.
    split; [left; reflexivity|]. simpl. discriminate.
  - apply Hfail. vm_compute. reflexivity.
Qed.

(** ** The hypotheses of the theorems are met by the runs above *)

Lemma output_is_the_top_scored_candidate_witness :
  GetCurrentList (framework candidates) = (STATUS_CODE_SUCCESS, candidates)
  /\ scoreLoop axisAtan2 inverseSqrtPow projectAlongY (framework candidates)
               algorithm candidates [] = Normal scoredCandidates
  /\ selectVertices algorithm (insertionSort scoredCandidates) <> []
  /\ sortsByOperatorLt insertionSort
  /\ scoresAreNumbers scoredCandidates
  /\ exists best rest,
       insertionSort scoredCandidates = best :: rest
       /\ savedLists (snd (run (framework candidates) algorithm))
          = [[GetVertex best]]
       /\ outputVertexList axisAtan2 inverseSqrtPow projectAlongY
            insertionSort (framework candidates) algorithm
          = [GetVertex best]
       /\ In best scoredCandidates
       /\ (forall candidate, In candidate scoredCandidates ->
                             VertexScore_lt candidate best = false).
Proof.
  assert (H1 : GetCurrentList (framework candidates)
               = (STATUS_CODE_SUCCESS, candidates)) by reflexivity.
  assert (H2 : scoreLoop axisAtan2 inverseSqrtPow projectAlongY
                 (framework candidates) algorithm candidates []
               = Normal scoredCandidates) by (vm_compute; reflexivity).
  assert (H3 : selectVertices algorithm (insertionSort scoredCandidates) <> [])
    by (vm_compute; discriminate).
  assert (H4 : sortsByOperatorLt insertionSort)
    by exact SortFacts.insertionSort_sorts.
  assert (H5 : scoresAreNumbers scoredCandidates)
    by (repeat constructor).
  repeat (split; [assumption|]).
  destruct (output_is_the_top_scored_candidate
              axisAtan2 inverseSqrtPow projectAlongY insertionSort
              (framework candidates) algorithm) as (_ & _ & Hrun).
  destruct (Hrun candidates scoredCandidates H1 H2) as [_ Hsaved].
  destruct (Hsaved H3) as (best & rest & Hsorted & Hsave & Hout & Htop).
  exists best, rest.
  repeat (split; [assumption|]).
  exact (Htop H4 H5).
Defined.

Lemma output_vertex_is_on_hit_in_every_view_witness :
  snd (GetCurrentList (framework candidates)) = candidates
  /\ scoreLoop axisAtan2 inverseSqrtPow projectAlongY (framework candidates)
               algorithm candidates [] = Normal scoredCandidates
  /\ sortsByOperatorLt insertionSort
  /\ scoresAreNumbers scoredCandidates
  /\ (forall entry,
         In entry scoredCandidates ->
         In (GetVertex entry) candidates
         /\ onHitInEveryView axisAtan2 inverseSqrtPow projectAlongY
                             (framework candidates) algorithm (GetVertex entry))
  /\ (forall pVertex,
         ~ onHitInEveryView axisAtan2 inverseSqrtPow projectAlongY
                            (framework candidates) algorithm pVertex ->
         ~ In pVertex (map GetVertex scoredCandidates))
  /\ (forall pVertex,
         In pVertex (outputVertexList axisAtan2 inverseSqrtPow projectAlongY
                       insertionSort (framework candidates) algorithm) ->
         In pVertex candidates
         /\ onHitInEveryView axisAtan2 inverseSqrtPow projectAlongY
                             (framework candidates) algorithm pVertex)
  /\ (forall pVertex,
         ~ onHitInEveryView axisAtan2 inverseSqrtPow projectAlongY
                            (framework candidates) algorithm pVertex ->
         ~ In pVertex (outputVertexList axisAtan2 inverseSqrtPow
                         projectAlongY insertionSort
                         (framework candidates) algorithm)).
Proof.
  assert (H1 : snd (GetCurrentList (framework candidates)) = candidates)
    by reflexivity.
  assert (H2 : scoreLoop axisAtan2 inverseSqrtPow projectAlongY
                 (framework candidates) algorithm candidates []
               = Normal scoredCandidates) by (vm_compute; reflexivity).
  assert (H3 : sortsByOperatorLt insertionSort)
    by exact SortFacts.insertionSort_sorts.
  assert (H4 : scoresAreNumbers scoredCandidates)
    by (repeat constructor).
  repeat (split; [assumption|]).
  destruct (output_vertex_is_on_hit_in_every_view
              axisAtan2 inverseSqrtPow projectAlongY insertionSort
              (framework candidates) algorithm candidates scoredCandidates
              H1 H2) as (Hscored & Hdropped & Hsorted).
  destruct (Hsorted H3 H4) as (Hin & Hout & _).
  repeat (split; [assumption|]). exact Hout.
Defined.

Lemma walk_depth_limit_witness :
  let this := withMaxTopScoreCandidates 1 algorithm in
  let vertexScoreList := insertionSort scoredCandidates in
  0 <= m_maxTopScoreCandidates this < UINT_MODULUS
  /\ (m_maxTopScoreCandidates this < UINT_MODULUS - 1
      \/ Z.of_nat (length vertexScoreList) < UINT_MODULUS)
  /\ selectVertices this vertexScoreList
     = selectVertices this (firstn 1 vertexScoreList)
  /\ (forall entry,
         In entry (selectVertices this vertexScoreList) ->
         In entry (firstn 1 vertexScoreList))
  /\ Z.of_nat (length (selectVertices this vertexScoreList)) <= 1.
Proof.
  intros this vertexScoreList.
  assert (H1 : 0 <= m_maxTopScoreCandidates this < UINT_MODULUS)
    by (vm_compute; split; [discriminate|reflexivity]).
  assert (H2 : m_maxTopScoreCandidates this < UINT_MODULUS - 1
               \/ Z.of_nat (length vertexScoreList) < UINT_MODULUS)
    by (left; vm_compute; reflexivity).
  repeat (split; [assumption|]).
  exact (walk_depth_limit insertionSort this scoredCandidates H1 H2).
Defined.

Lemma global_best_is_best_of_accepted_witness :
  let api := framework candidates in
  let vertexScoreList := insertionSort scoredCandidates in
  let selected := selectVertices algorithm vertexScoreList in
  let handedOver :=
    List.concat
      (savedLists (snd (saveSelection api algorithm vertexScoreList selected))) in
  sortsByOperatorLt insertionSort
  /\ scoresAreNumbers scoredCandidates
  /\ 1 <= m_maxTopScoreCandidates algorithm
  /\ (selected <> [] <-> scoredCandidates <> [])
  /\ (forall best rest,
         vertexScoreList = best :: rest ->
         (forall entry, In entry selected -> VertexScore_lt entry best = false)
         /\ bestOfAccepted selected = Some best)
  /\ handedOver = bestOfAcceptedRule selected.
Proof.
  intros api vertexScoreList selected handedOver.
  assert (H1 : sortsByOperatorLt insertionSort)
    by exact SortFacts.insertionSort_sorts.
  assert (H2 : scoresAreNumbers scoredCandidates)
    by (repeat constructor).
  assert (H3 : 1 <= m_maxTopScoreCandidates algorithm)
    by (vm_compute; discriminate).
  repeat (split; [assumption|]).
  destruct (global_best_is_best_of_accepted
              axisAtan2 inverseSqrtPow projectAlongY insertionSort
              api algorithm scoredCandidates) as (_ & _ & Hsorted).
  destruct (Hsorted H1 H2) as [Hdepth Hsame].
  destruct (Hdepth H3) as [Hnonempty Hbest].
  split; [exact Hnonempty|]. split; [exact Hbest|exact Hsame].
Defined.

(** ** Settings blocks and registrations, run *)

Module Readings.

(** The missing name of the W list is met before the malformed depth:
    [ReadSettings] returns not-found, with the names of the U and V lists
    already stored. *)
Example broken_block :
  ReadSettings Fixtures.brokenXml (constructed "" "" "" "")
  = (STATUS_CODE_NOT_FOUND, constructed "ClustersU" "ClustersV" "" "").
Proof. vm_compute. reflexivity. Qed.

(** Registering the content twice with a registry that refuses a name it
    holds: the second call returns already-present. *)
Example registered_twice :
  let register := RegisterAlgorithms (list string) Fixtures.registerName
                    (fun names _ _ => (STATUS_CODE_SUCCESS, names)) in
  register [] = (STATUS_CODE_SUCCESS, ["LArDeepLearningTrackShowerId"%string])
  /\ register (snd (register []))
     = (STATUS_CODE_ALREADY_PRESENT, ["LArDeepLearningTrackShowerId"%string]).
Proof. vm_compute. split; reflexivity. Qed.

End Readings.

(** ** The hypotheses of the further theorems are met *)

Lemma ReadSettings_reads_each_member_witness :
  let this := constructed "" "" "" "" in
  let this' :=
    withMaxTopScoreCandidates 3
      (constructed "ClustersU" "ClustersV" "ClustersW" "SelectedVertices") in
  ReadSettings Fixtures.depthThreeXml this = (STATUS_CODE_SUCCESS, this')
  /\ this' = settingsRead Fixtures.depthThreeXml this.
Proof.
  intros this this'.
  assert (H : ReadSettings Fixtures.depthThreeXml this
              = (STATUS_CODE_SUCCESS, this')) by (vm_compute; reflexivity).
  split; [exact H|].
  exact (ReadSettings_reads_each_member Fixtures.depthThreeXml this this' H).
Defined.

Lemma ReadSettings_keeps_absent_settings_witness :
  let this := constructed "" "" "" "" in
  leavesAbsentAlone Fixtures.namesOnlyXml
  /\ Forall (fun statusCode => statusCode = STATUS_CODE_SUCCESS)
            (nameStatuses Fixtures.namesOnlyXml this)
  /\ Forall (fun statusCode => statusCode = STATUS_CODE_NOT_FOUND)
            (optionStatuses Fixtures.namesOnlyXml this)
  /\ ReadSettings Fixtures.namesOnlyXml this
     = (STATUS_CODE_SUCCESS,
        withListNames
          (snd (ReadString Fixtures.namesOnlyXml "InputClusterListNameU"
                           (m_inputClusterListNameU this)))
          (snd (ReadString Fixtures.namesOnlyXml "InputClusterListNameV"
                           (m_inputClusterListNameV this)))
          (snd (ReadString Fixtures.namesOnlyXml "InputClusterListNameW"
                           (m_inputClusterListNameW this)))
          (snd (ReadString Fixtures.namesOnlyXml "OutputVertexListName"
                           (m_outputVertexListName this)))
          this).
Proof.
  intros this.
  assert (H1 : leavesAbsentAlone Fixtures.namesOnlyXml)
    by (repeat split; intros; reflexivity).
  assert (H2 : Forall (fun statusCode => statusCode = STATUS_CODE_SUCCESS)
                      (nameStatuses Fixtures.namesOnlyXml this))
    by (vm_compute; repeat constructor).
  assert (H3 : Forall (fun statusCode => statusCode = STATUS_CODE_NOT_FOUND)
                      (optionStatuses Fixtures.namesOnlyXml this))
    by (vm_compute; repeat constructor).
  repeat (split; [assumption|]).
  exact (ReadSettings_keeps_absent_settings Fixtures.namesOnlyXml this
           H1 H2 H3).
Defined.

Lemma empty_cluster_list_gives_no_output_witness :
  let api := Fixtures.frameworkWithEmptyV candidates in
  sortsByOperatorLt insertionSort
  /\ GetCurrentList api = (STATUS_CODE_SUCCESS, candidates)
  /\ firstViewFailure api algorithm = None
  /\ In (TPC_VIEW_V, "ClustersV"%string) (scannedViews algorithm)
  /\ snd (GetList api "ClustersV") = []
  /\ scoreLoop axisAtan2 inverseSqrtPow projectAlongY api algorithm
               candidates [] = Normal []
  /\ run api algorithm = (Normal STATUS_CODE_SUCCESS, []).
Proof.
  intros api.
  assert (H1 : sortsByOperatorLt insertionSort)
    by exact SortFacts.insertionSort_sorts.
  assert (H2 : GetCurrentList api = (STATUS_CODE_SUCCESS, candidates))
    by reflexivity.
  assert (H3 : firstViewFailure api algorithm = None)
    by (vm_compute; reflexivity).
  assert (H4 : In (TPC_VIEW_V, "ClustersV"%string) (scannedViews algorithm))
    by (right; left; reflexivity).
  assert (H5 : snd (GetList api "ClustersV") = []) by reflexivity.
  repeat (split; [assumption|]).
  exact (empty_cluster_list_gives_no_output
           axisAtan2 inverseSqrtPow projectAlongY insertionSort api algorithm
           candidates TPC_VIEW_V "ClustersV"%string H1 H2 H3 H4 H5).
Defined.


Lemma scan_fills_the_hits_in_order_witness :
  let api := framework candidates in
  let v := projectAlongY (GetPosition vertexA) TPC_VIEW_U in
  let clusters := snd (GetList api "ClustersU") in
  fst (GetList api "ClustersU") = STATUS_CODE_SUCCESS
  /\ Forall (fun pCluster => GetClusterHitType pCluster = TPC_VIEW_U) clusters
  /\ FillHistogram axisAtan2 inverseSqrtPow projectAlongY api algorithm
                   vertexA TPC_VIEW_U "ClustersU" (newHistogram algorithm)
     = Normal (existsb (clusterSetsOnHit algorithm v) clusters,
               fold_left (fillHit axisAtan2 inverseSqrtPow algorithm v)
                         (flat_map (filledHits algorithm v) clusters)
                         (newHistogram algorithm)).
Proof.
  intros api v clusters.
  assert (H1 : fst (GetList api "ClustersU") = STATUS_CODE_SUCCESS)
    by reflexivity.
  assert (H2 : Forall (fun pCluster => GetClusterHitType pCluster = TPC_VIEW_U)
                      clusters)
    by (vm_compute; repeat constructor).
  repeat (split; [assumption|]).
  exact (scan_fills_the_hits_in_order
           axisAtan2 inverseSqrtPow projectAlongY api algorithm
           vertexA TPC_VIEW_U "ClustersU"%string (newHistogram algorithm)
           H1 H2).
Defined.

Lemma acceptance_is_antitone_witness :
  let fewer := [mkVertexScore vertexA scoreOfA] in
  let accepted := [mkVertexScore vertexA scoreOfA;
                   mkVertexScore vertexB scoreOfB] in
  incl fewer accepted
  /\ (AcceptVertexLocation algorithm vertexC accepted = true ->
      AcceptVertexLocation algorithm vertexC fewer = true)
  /\ (AcceptVertexScore algorithm scoreOfA accepted = true ->
      AcceptVertexScore algorithm scoreOfA fewer = true).
Proof.
  intros fewer accepted.
  assert (H : incl fewer accepted)
    by (intros entry Hin; simpl in *; tauto).
  split; [exact H|].
  exact (acceptance_is_antitone algorithm vertexC scoreOfA fewer accepted H).
Defined.

Lemma selection_settings_do_not_change_the_run_witness :
  let other := withMaxTopScoreCandidates 1 algorithm in
  agreeOutsideSelection algorithm other
  /\ 1 <= m_maxTopScoreCandidates algorithm
  /\ 1 <= m_maxTopScoreCandidates other
  /\ run (framework candidates) algorithm = run (framework candidates) other.
Proof.
  intros other.
  assert (H1 : agreeOutsideSelection algorithm other)
    by (repeat split; reflexivity).
  assert (H2 : 1 <= m_maxTopScoreCandidates algorithm)
    by (vm_compute; discriminate).
  assert (H3 : 1 <= m_maxTopScoreCandidates other)
    by (vm_compute; discriminate).
  repeat (split; [assumption|]).
  exact (selection_settings_do_not_change_the_run
           axisAtan2 inverseSqrtPow projectAlongY insertionSort
           (framework candidates) algorithm other H1 H2 H3).
Defined.
